(** * Harbor custom agents: pi-mono and Factory Droid

    A shallow embedding of [custom_agents/pi_mono_agent.py] and
    [custom_agents/factory_droid.py]: agent configuration, the command
    builder and the post-run usage extractor, together with the properties
    that the specification states about them.

    Python values are modelled as follows.  A [str] is a Rocq [string] whose
    characters are the code points 0..255; an [int] is a [Z]; a [float] is a
    binary64 number of [SpecFloat] (precision 53, [emax] 1024); exceptions
    are explicit results.  Library functions that are not part of the
    repository ([json.loads], [repr]) are parameters of the procedures;
    executable reference versions are given for running the model on concrete
    transcripts. *)

From Stdlib Require Import ZArith List String Ascii Bool Lia.
From Stdlib Require Import Floats.SpecFloat.
From Stdlib Require Import Numbers.DecimalString.

Import ListNotations.
Open Scope string_scope.
Open Scope Z_scope.

(** ** Exceptions and results *)

(** The exceptions that can arise in the modelled code.  All of them are
    subclasses of Python's [Exception]. *)
Inductive exn : Type :=
| ValueError (msg : string)
| JSONDecodeError
| AttributeError
| TypeError
| KeyError
| OverflowError
| RecursionError
| FileNotFoundError
| OSError
| UnicodeDecodeError.

Inductive outcome (A : Type) : Type :=
| Ok (a : A)
| Raise (e : exn).

Arguments Ok {A} a.
Arguments Raise {A} e.

Definition bind {A B : Type} (m : outcome A) (k : A -> outcome B) : outcome B :=
  match m with
  | Ok a => k a
  | Raise e => Raise e
  end.

Notation "x <- m ;; k" := (bind m (fun x => k))
  (at level 61, m at next level, right associativity).

Definition is_decode_error (e : exn) : bool :=
  match e with JSONDecodeError => true | _ => false end.

(** ** Strings *)

Module Str.

Definition len (s : string) : Z := Z.of_nat (String.length s).

Fixpoint startswith (p s : string) : bool :=
  match p, s with
  | EmptyString, _ => true
  | String a p', String b s' => Ascii.eqb a b && startswith p' s'
  | String _ _, EmptyString => false
  end.

(** [needle in hay] *)
Fixpoint contains (needle hay : string) : bool :=
  startswith needle hay ||
  match hay with
  | EmptyString => false
  | String _ t => contains needle t
  end.

Definition code (c : ascii) : N := N_of_ascii c.

(** [str.isspace] on the code points below 256. *)
Definition isspace (c : ascii) : bool :=
  let n := code c in
  ((9 <=? n) && (n <=? 13) || (28 <=? n) && (n <=? 32)
   || (n =? 133) || (n =? 160))%N.

Definition lower_char (c : ascii) : ascii :=
  let n := code c in
  if ((65 <=? n) && (n <=? 90)
      || (192 <=? n) && (n <=? 222) && negb (n =? 215))%N
  then ascii_of_N (n + 32) else c.

Fixpoint lower (s : string) : string :=
  match s with
  | EmptyString => EmptyString
  | String c t => String (lower_char c) (lower t)
  end.

Fixpoint lstrip (s : string) : string :=
  match s with
  | EmptyString => EmptyString
  | String c t => if isspace c then lstrip t else s
  end.

Fixpoint rstrip (s : string) : string :=
  match s with
  | EmptyString => EmptyString
  | String c t =>
      match rstrip t with
      | EmptyString => if isspace c then EmptyString else String c EmptyString
      | t' => String c t'
      end
  end.

Definition strip (s : string) : string := rstrip (lstrip s).

(** [s.split(sep, 1)] for a one-character separator that occurs in [s]:
    the text before the first occurrence and the text after it; [None]
    when [sep] does not occur. *)
Fixpoint split_once (sep : ascii) (s : string) : option (string * string) :=
  match s with
  | EmptyString => None
  | String c t =>
      if Ascii.eqb c sep then Some (EmptyString, t)
      else match split_once sep t with
           | Some (a, b) => Some (String c a, b)
           | None => None
           end
  end.

(** [s.split(sep)] for a one-character separator. *)
Fixpoint split (sep : ascii) (s : string) : list string :=
  match s with
  | EmptyString => [EmptyString]
  | String c t =>
      if Ascii.eqb c sep then EmptyString :: split sep t
      else match split sep t with
           | w :: ws => String c w :: ws
           | [] => [String c EmptyString]
           end
  end.

Definition newline : ascii := ascii_of_N 10.

(** The lines of a text file as iteration and [readlines] yield them: each
    line keeps its terminating newline, the last line may lack one. *)
Fixpoint readlines (s : string) : list string :=
  match s with
  | EmptyString => []
  | String c t =>
      if Ascii.eqb c newline then String c EmptyString :: readlines t
      else match readlines t with
           | l :: ls => String c l :: ls
           | [] => [String c EmptyString]
           end
  end.

(** [s.replace(old, new)] for a one-character [old]. *)
Fixpoint replace_char (old : ascii) (new : string) (s : string) : string :=
  match s with
  | EmptyString => EmptyString
  | String c t =>
      if Ascii.eqb c old then new ++ replace_char old new t
      else String c (replace_char old new t)
  end.

(** [s[:n]] *)
Fixpoint take (n : nat) (s : string) : string :=
  match n, s with
  | O, _ => EmptyString
  | S n', String c t => String c (take n' t)
  | S _, EmptyString => EmptyString
  end.

(** [s[n:]] *)
Fixpoint drop (n : nat) (s : string) : string :=
  match n, s with
  | O, _ => s
  | S n', String _ t => drop n' t
  | S _, EmptyString => EmptyString
  end.

Definition is_empty (s : string) : bool :=
  match s with EmptyString => true | _ => false end.

(** [" ".join(parts)] *)
Fixpoint join (sep : string) (parts : list string) : string :=
  match parts with
  | [] => EmptyString
  | [p] => p
  | p :: ps => p ++ sep ++ join sep ps
  end.

(** [str(n)] for an [int]. *)
Definition of_Z (z : Z) : string := NilZero.string_of_int (Z.to_int z).

End Str.

(** ** Binary64 floating-point numbers *)

Module Float64.

Definition prec : Z := 53.
Definition emax : Z := 1024.

Definition float : Type := spec_float.

Definition add : float -> float -> float := SFadd prec emax.
Definition mul : float -> float -> float := SFmul prec emax.
Definition div : float -> float -> float := SFdiv prec emax.
Definition ltb : float -> float -> bool := SFltb.
Definition leb : float -> float -> bool := SFleb.
Definition eqb : float -> float -> bool := SFeqb.

Definition zero : float := S754_zero false.

(** The integer [z] rounded to the nearest float, ties to even. *)
Definition of_Z (z : Z) : float := binary_normalize prec emax z 0 false.

(** The quotient [p / q] of two integers, [0 < q], rounded to the nearest
    float, ties to even: the value of a decimal literal and of the true
    division of two [int]s. *)
Definition of_ratio (p q : Z) : float :=
  match p with
  | Z0 => zero
  | _ =>
      let '(mz, ez, lz) := SFdiv_core_binary prec emax (Z.abs p) 0 q 0 in
      binary_round_aux prec emax (p <? 0) mz ez lz
  end.

(** The decimal literal [m] * 10^[e]. *)
Definition of_decimal (m e : Z) : float :=
  if 0 <=? e then of_ratio (m * 10 ^ e) 1 else of_ratio m (10 ^ (- e)).

Definition is_finite (f : float) : bool :=
  match f with
  | S754_zero _ | S754_finite _ _ _ => true
  | _ => false
  end.

(** [0 <= f]: false on NaN. *)
Definition nonneg (f : float) : bool := leb zero f.

End Float64.

(** ** JSON values and the Python operations applied to them *)

(** The value that [json.loads] returns: [None], [bool], [int], [float],
    [str], [list], or a [dict] with string keys in insertion order. *)
#[warnings="-register-all"]
Inductive json : Type :=
| JNull
| JBool (b : bool)
| JInt (z : Z)
| JFloat (f : Float64.float)
| JStr (s : string)
| JList (l : list json)
| JDict (d : list (string * json)).

(** A Python number: the running totals of the usage extractor. *)
Inductive pynum : Type :=
| PInt (z : Z)
| PFloat (f : Float64.float).

Module Py.

Fixpoint dict_lookup {V : Type} (key : string) (d : list (string * V)) : option V :=
  match d with
  | [] => None
  | (k, v) :: d' => if String.eqb k key then Some v else dict_lookup key d'
  end.

(** [d[key] = v] on an insertion-ordered dict: an existing key keeps its
    place. *)
Fixpoint dict_set {V : Type} (key : string) (v : V) (d : list (string * V))
  : list (string * V) :=
  match d with
  | [] => [(key, v)]
  | (k, w) :: d' =>
      if String.eqb k key then (k, v) :: d' else (k, w) :: dict_set key v d'
  end.

Definition dict_mem {V : Type} (key : string) (d : list (string * V)) : bool :=
  match dict_lookup key d with Some _ => true | None => false end.

(** [v.get(key, default)]: only a dict has the method. *)
Definition get (v : json) (key : string) (default : json) : outcome json :=
  match v with
  | JDict d =>
      match dict_lookup key d with
      | Some x => Ok x
      | None => Ok default
      end
  | _ => Raise AttributeError
  end.

(** [v == s] for a string [s]. *)
Definition eq_str (v : json) (s : string) : bool :=
  match v with
  | JStr t => String.eqb t s
  | _ => false
  end.

(** [key in v] for a string [key]: key membership in a dict, element
    membership in a list, substring test in a str; the other values are
    not iterable. *)
Definition contains (key : string) (v : json) : outcome bool :=
  match v with
  | JDict d => Ok (dict_mem key d)
  | JList l => Ok (existsb (fun x => eq_str x key) l)
  | JStr s => Ok (Str.contains key s)
  | _ => Raise TypeError
  end.

(** [v[key]] for a string [key]. *)
Definition getitem (v : json) (key : string) : outcome json :=
  match v with
  | JDict d =>
      match dict_lookup key d with
      | Some x => Ok x
      | None => Raise KeyError
      end
  | _ => Raise TypeError
  end.

(** [isinstance(v, dict)] *)
Definition is_dict (v : json) : bool :=
  match v with JDict _ => true | _ => false end.

(** [float(z)] as the arithmetic operators convert an [int] operand. *)
Definition float_of_int (z : Z) : outcome Float64.float :=
  let f := Float64.of_Z z in
  if Float64.is_finite f then Ok f else Raise OverflowError.

Definition int_of_bool (b : bool) : Z := if b then 1 else 0.

(** [total + v], the effect of [total += v] on a numeric total. *)
Definition add (total : pynum) (v : json) : outcome pynum :=
  match total, v with
  | PInt x, JInt y => Ok (PInt (x + y))
  | PInt x, JBool b => Ok (PInt (x + int_of_bool b))
  | PInt x, JFloat g =>
      f <- float_of_int x ;; Ok (PFloat (Float64.add f g))
  | PFloat f, JInt y =>
      g <- float_of_int y ;; Ok (PFloat (Float64.add f g))
  | PFloat f, JBool b =>
      Ok (PFloat (Float64.add f (Float64.of_Z (int_of_bool b))))
  | PFloat f, JFloat g => Ok (PFloat (Float64.add f g))
  | _, _ => Raise TypeError
  end.

(** [n == 0] *)
Definition is_zero (n : pynum) : bool :=
  match n with
  | PInt z => z =? 0
  | PFloat f => Float64.eqb f Float64.zero
  end.

(** [n > 0] *)
Definition is_positive (n : pynum) : bool :=
  match n with
  | PInt z => 0 <? z
  | PFloat f => Float64.ltb Float64.zero f
  end.

(** [0 <= n] *)
Definition nonneg (n : pynum) : bool :=
  match n with
  | PInt z => 0 <=? z
  | PFloat f => Float64.nonneg f
  end.

(** [a / b] for two [int]s with [0 < b]. *)
Definition true_div (a b : Z) : Float64.float := Float64.of_ratio a b.

(** [s or default] for an optional string. *)
Definition str_or (s : option string) (default : string) : string :=
  match s with
  | Some (String c t) => String c t
  | _ => default
  end.

(** Truthiness of an optional string: [None] and [''] are false. *)
Definition truthy (s : option string) : bool :=
  match s with
  | Some (String _ _) => true
  | _ => false
  end.

End Py.

(** ** The result record and the log directory *)

(** The values stored in the metadata mapping.  [MExnText e] is [str(e)],
    the message of an exception. *)
Inductive mvalue : Type :=
| MNone
| MBool (b : bool)
| MInt (z : Z)
| MStr (s : string)
| MStrs (l : list string)
| MExnText (e : exn).

Definition metadata_t : Type := list (string * mvalue).

(** [harbor.models.agent.context.AgentContext], restricted to the
    attributes that the agents assign.  [None] is Python's [None]. *)
Record AgentContext : Type := mkContext {
  n_input_tokens : option pynum;
  n_output_tokens : option pynum;
  n_cache_tokens : option pynum;
  cost_usd : option pynum;
  metadata : option metadata_t
}.

Definition set_n_input_tokens (v : option pynum) (c : AgentContext) :=
  mkContext v c.(n_output_tokens) c.(n_cache_tokens) c.(cost_usd) c.(metadata).
Definition set_n_output_tokens (v : option pynum) (c : AgentContext) :=
  mkContext c.(n_input_tokens) v c.(n_cache_tokens) c.(cost_usd) c.(metadata).
Definition set_n_cache_tokens (v : option pynum) (c : AgentContext) :=
  mkContext c.(n_input_tokens) c.(n_output_tokens) v c.(cost_usd) c.(metadata).
Definition set_cost_usd (v : option pynum) (c : AgentContext) :=
  mkContext c.(n_input_tokens) c.(n_output_tokens) c.(n_cache_tokens) v c.(metadata).
Definition set_metadata (m : metadata_t) (c : AgentContext) :=
  mkContext c.(n_input_tokens) c.(n_output_tokens) c.(n_cache_tokens)
            c.(cost_usd) (Some m).

(** The context as the harness creates it, before the run. *)
Definition empty_context : AgentContext := mkContext None None None None None.

(** A file below the agent's log directory: absent, a text file with its
    decoded content, or a file whose reading yields [prefix] and then
    raises [e] (an I/O or decoding error). *)
Inductive file : Type :=
| Missing
| Text (content : string)
| Broken (prefix : string) (e : exn).

(** The log directory, by path relative to [logs_dir]. *)
Definition logs : Type := string -> file.

Module Fs.

(** [path.exists()] *)
Definition exists_ (fs : logs) (path : string) : bool :=
  match fs path with Missing => false | _ => true end.

(** [open(path).read()] *)
Definition read (fs : logs) (path : string) : outcome string :=
  match fs path with
  | Missing => Raise FileNotFoundError
  | Text s => Ok s
  | Broken _ e => Raise e
  end.

(** The lines that iterating over [open(path)] yields, and the exception
    that ends the iteration early, if any. *)
Definition iter_lines (fs : logs) (path : string)
  : outcome (list string * option exn) :=
  match fs path with
  | Missing => Raise FileNotFoundError
  | Text s => Ok (Str.readlines s, None)
  | Broken p e => Ok (Str.readlines p, Some e)
  end.

End Fs.

(** A state-and-exception monad over the context that the extractor
    mutates: an exception leaves the assignments made before it in place. *)
Definition action (A : Type) : Type := AgentContext -> AgentContext * outcome A.

Module Act.

Definition ret {A : Type} (a : A) : action A := fun c => (c, Ok a).

Definition raise {A : Type} (e : exn) : action A := fun c => (c, Raise e).

Definition bind {A B : Type} (m : action A) (k : A -> action B) : action B :=
  fun c =>
    match m c with
    | (c', Ok a) => k a c'
    | (c', Raise e) => (c', Raise e)
    end.

(** A pure computation that may raise. *)
Definition lift {A : Type} (m : outcome A) : action A := fun c => (c, m).

(** An attribute assignment [context.x = v]. *)
Definition assign (upd : AgentContext -> AgentContext) : action unit :=
  fun c => (upd c, Ok tt).

(** Reading the context. *)
Definition read : action AgentContext := fun c => (c, Ok c).

(** [try: body  except Exception as e: handler(e)] *)
Definition try_except {A : Type} (body : action A) (handler : exn -> action A)
  : action A :=
  fun c =>
    match body c with
    | (c', Ok a) => (c', Ok a)
    | (c', Raise e) => handler e c'
    end.

End Act.

Declare Scope action_scope.
Delimit Scope action_scope with action.
Notation "x <-- m ;; k" := (Act.bind m (fun x => k))
  (at level 61, m at next level, right associativity) : action_scope.
Notation "m ;;; k" := (Act.bind m (fun _ => k))
  (at level 61, right associativity) : action_scope.

(** ** Shell quoting and command descriptors *)

(** The double quote character, and a string with every backquote replaced
    by it, for writing JSON text. *)
Definition dquote : string := String (ascii_of_N 34) EmptyString.

Definition json_text (s : string) : string :=
  Str.replace_char (ascii_of_N 96) dquote s.

Module Shlex.

(** The characters that [shlex] leaves unquoted: ASCII letters, digits
    and [_@%+=:,./-]. *)
Definition is_safe (c : ascii) : bool :=
  let n := Str.code c in
  ((48 <=? n) && (n <=? 57) || (65 <=? n) && (n <=? 90)
   || (97 <=? n) && (n <=? 122)
   || (n =? 95) || (n =? 64) || (n =? 37) || (n =? 43) || (n =? 61)
   || (n =? 58) || (n =? 44) || (n =? 46) || (n =? 47) || (n =? 45))%N.

Fixpoint all_safe (s : string) : bool :=
  match s with
  | EmptyString => true
  | String c t => is_safe c && all_safe t
  end.

(** [shlex.quote] *)
Definition quote (s : string) : string :=
  if Str.is_empty s then "''"
  else if all_safe s then s
  else "'" ++ Str.replace_char "'" ("'" ++ dquote ++ "'" ++ dquote ++ "'") s ++ "'".

End Shlex.

(** ** How a POSIX shell splits a command line into tokens

    Token recognition and quote removal as the Shell Command Language
    describes them (sections 2.2 and 2.3), for command lines without
    expansions: a parameter, command or arithmetic expansion, a pathname
    pattern, a tilde prefix or a here-document makes the result [None]. *)

Module Shell.

Inductive token : Type :=
| Word (w : string)          (* a word, after quote removal *)
| IoNumber (n : string)      (* the digits before a redirection operator *)
| Operator (op : string)
| Newline.

Inductive mode : Type :=
| Plain                      (* outside quotes *)
| Escaped                    (* after a backslash outside quotes *)
| InSingle                   (* inside single quotes *)
| InDouble                   (* inside double quotes *)
| DoubleEscaped              (* after a backslash inside double quotes *)
| Comment
| InOperator (op : string).

(** The tokens recognised so far, latest first, the word being built, if
    any, and the mode. *)
Record lexer : Type := mkLexer {
  emitted : list token;
  current : option string;
  state : mode
}.

Definition initial : lexer := mkLexer [] None Plain.

Definition push (c : ascii) (cur : option string) : option string :=
  match cur with
  | Some w => Some (w ++ String c EmptyString)
  | None => Some (String c EmptyString)
  end.

Definition started (cur : option string) : option string :=
  match cur with
  | Some w => Some w
  | None => Some EmptyString
  end.

Definition is_digit (c : ascii) : bool :=
  let n := Str.code c in ((48 <=? n) && (n <=? 57))%N.

Fixpoint all_digits (s : string) : bool :=
  match s with
  | EmptyString => true
  | String c t => is_digit c && all_digits t
  end.

(** The tokens after the word being built is delimited. *)
Definition flush (toks : list token) (cur : option string) : list token :=
  match cur with
  | Some w => Word w :: toks
  | None => toks
  end.

(** The same before a redirection operator, where a word of digits is an
    IO number. *)
Definition flush_redirect (toks : list token) (cur : option string) : list token :=
  match cur with
  | Some w =>
      (if negb (Str.is_empty w) && all_digits w then IoNumber w else Word w) :: toks
  | None => toks
  end.

Definition is_operator (op : string) : bool :=
  existsb (String.eqb op)
    ["&"; "&&"; "|"; "||"; ";"; ";;"; "<"; ">"; "<<"; ">>"; "<&"; ">&"; "<>";
     "<<-"; ">|"; "("; ")"].

Definition eqc (c : ascii) (s : string) : bool := String.eqb (String c EmptyString) s.

(** One character read outside quotes. *)
Definition plain_step (toks : list token) (cur : option string) (c : ascii)
  : option lexer :=
  if eqc c "'" then Some (mkLexer toks (started cur) InSingle)
  else if eqc c dquote then Some (mkLexer toks (started cur) InDouble)
  else if eqc c "\" then Some (mkLexer toks cur Escaped)
  else if eqc c "$" || eqc c "`" || eqc c "*" || eqc c "?" || eqc c "["
          || eqc c "~" then None
  else if eqc c " " || Ascii.eqb c (ascii_of_N 9)
       then Some (mkLexer (flush toks cur) None Plain)
  else if Ascii.eqb c Str.newline
       then Some (mkLexer (Newline :: flush toks cur) None Plain)
  else if eqc c "<" || eqc c ">"
       then Some (mkLexer (flush_redirect toks cur) None
                          (InOperator (String c EmptyString)))
  else if eqc c "&" || eqc c "|" || eqc c ";" || eqc c "(" || eqc c ")"
       then Some (mkLexer (flush toks cur) None (InOperator (String c EmptyString)))
  else if eqc c "#" then
    match cur with
    | None => Some (mkLexer toks None Comment)
    | Some _ => Some (mkLexer toks (push c cur) Plain)
    end
  else Some (mkLexer toks (push c cur) Plain).

Definition step (st : lexer) (c : ascii) : option lexer :=
  let toks := st.(emitted) in
  let cur := st.(current) in
  match st.(state) with
  | Plain => plain_step toks cur c
  | Escaped =>
      if Ascii.eqb c Str.newline then Some (mkLexer toks cur Plain)
      else Some (mkLexer toks (push c cur) Plain)
  | InSingle =>
      if eqc c "'" then Some (mkLexer toks cur Plain)
      else Some (mkLexer toks (push c cur) InSingle)
  | InDouble =>
      if eqc c dquote then Some (mkLexer toks cur Plain)
      else if eqc c "\" then Some (mkLexer toks cur DoubleEscaped)
      else if eqc c "$" || eqc c "`" then None
      else Some (mkLexer toks (push c cur) InDouble)
  | DoubleEscaped =>
      if eqc c "$" || eqc c "`" || eqc c dquote || eqc c "\"
      then Some (mkLexer toks (push c cur) InDouble)
      else if Ascii.eqb c Str.newline then Some (mkLexer toks cur InDouble)
      else Some (mkLexer toks (push c (push "\"%char cur)) InDouble)
  | Comment =>
      if Ascii.eqb c Str.newline then Some (mkLexer (Newline :: toks) None Plain)
      else Some st
  | InOperator op =>
      if is_operator (op ++ String c EmptyString) then
        if String.eqb (op ++ String c EmptyString) "<<" then None
        else Some (mkLexer toks cur (InOperator (op ++ String c EmptyString)))
      else plain_step (Operator op :: toks) None c
  end.

Fixpoint run (st : lexer) (input : string) : option lexer :=
  match input with
  | EmptyString => Some st
  | String c rest =>
      match step st c with
      | Some st' => run st' rest
      | None => None
      end
  end.

(** The tokens at the end of the input; an open quote is an error. *)
Definition finish (st : lexer) : option (list token) :=
  match st.(state) with
  | Plain => Some (rev (flush st.(emitted) st.(current)))
  | Comment => Some (rev st.(emitted))
  | InOperator op => Some (rev (Operator op :: st.(emitted)))
  | _ => None
  end.

Definition tokens (command_line : string) : option (list token) :=
  match run initial command_line with
  | Some st => finish st
  | None => None
  end.

End Shell.

(** [harbor.agents.installed.base.ExecInput] *)
Record ExecInput : Type := mkExec {
  command : string;
  env : option (list (string * string));
  cwd : option string;
  timeout_sec : option Z
}.

(** The process environment [os.environ]. *)
Definition environ_t : Type := string -> option string.

(** [env_vars if env_vars else None] *)
Definition env_or_none (env_vars : list (string * string))
  : option (list (string * string)) :=
  match env_vars with
  | [] => None
  | _ => Some env_vars
  end.

(** ** The pi-mono agent *)

Module PiMonoAgent.

(** The keyword arguments that the constructor reads; [None] is an absent
    key. *)
Record kwargs : Type := mkKwargs {
  kw_provider : option string;
  kw_pi_model : option string;
  kw_output_mode : option string;
  kw_no_session : option bool;
  kw_timeout_seconds : option Z
}.

(** The attributes of a constructed agent. *)
Record t : Type := mkAgent {
  provider : string;
  pi_model : option string;
  output_mode : string;
  no_session : bool;
  timeout_seconds : Z
}.

Definition provider_map : list (string * string) :=
  [ ("anthropic", "anthropic");
    ("openai", "openai");
    ("google", "google");
    ("groq", "groq");
    ("cerebras", "cerebras");
    ("xai", "xai");
    ("openrouter", "openrouter") ].

Definition _normalize_model_id (provider : string) (model : option string)
  : option string :=
  match model with
  | None => None
  | Some m =>
      match Str.split_once "/" m with
      | None => model
      | Some (prefix, remainder) =>
          if String.eqb (Str.lower prefix) (Str.lower provider)
          then Some remainder
          else model
      end
  end.

(** The model chosen when no [pi_model] was supplied; [current] is the
    falsy value that the attribute holds at that point and keeps when no
    branch assigns it. *)
Definition map_model (current : option string) (model : string) : option string :=
  let lower_model := Str.lower model in
  if Str.contains "claude" lower_model then
    if Str.contains "haiku" lower_model then Some "claude-3-5-haiku-latest"
    else if Str.contains "opus" lower_model then Some "claude-3-opus-latest"
    else if Str.contains "sonnet" lower_model then Some "claude-3-5-sonnet-latest"
    else current
  else if Str.contains "gpt" lower_model then
    if Str.contains "5.1-codex-mini" lower_model then Some "gpt-5.1-codex-mini"
    else if Str.contains "5.1-codex" lower_model then Some "gpt-5.1-codex"
    else if Str.contains "5.1" lower_model then Some "gpt-5.1"
    else if Str.contains "4o" lower_model then Some "gpt-4o"
    else if Str.contains "4-turbo" lower_model || Str.contains "4turbo" lower_model
         then Some "gpt-4-turbo"
    else if Str.contains "o1" lower_model then Some "o1-preview"
    else if Str.contains "3.5" lower_model then Some "gpt-3.5-turbo"
    else Some "gpt-4o"
  else if Str.contains "gemini" lower_model then Some "gemini-2.0-flash-exp"
  else Some model.

(** The provider and model that the constructor resolves from the
    [provider] keyword and [model_name]. *)
Definition resolve (model_name : option string) (kw : kwargs)
  : outcome (string * string) :=
  if negb (Py.truthy kw.(kw_provider)) then
    match model_name with
    | Some name =>
        match Str.split_once "/" name with
        | Some (provider, model) => Ok (provider, model)
        | None => Raise (ValueError "PiMonoAgent expects model_name like 'provider/model'.")
        end
    | None => Raise (ValueError "PiMonoAgent expects model_name like 'provider/model'.")
    end
  else
    let provider := Py.str_or kw.(kw_provider) EmptyString in
    let model :=
      match model_name with
      | Some name =>
          match Str.split_once "/" name with
          | Some (_, rest) => rest
          | None => name
          end
      | None => EmptyString
      end in
    Ok (provider, model).

Definition __init__ (model_name : option string) (kw : kwargs) : outcome t :=
  let output_mode := match kw.(kw_output_mode) with Some m => m | None => "json" end in
  let no_session := match kw.(kw_no_session) with Some b => b | None => false end in
  let timeout_seconds :=
    match kw.(kw_timeout_seconds) with Some n => n | None => 1800 end in
  resolved <- resolve model_name kw ;;
  let '(provider, model) := resolved in
  match Py.dict_lookup provider provider_map with
  | None =>
      Raise (ValueError ("Unknown provider '" ++ provider ++ "' for pi-mono agent."))
  | Some provider =>
      let pi_model :=
        if negb (Py.truthy kw.(kw_pi_model))
        then map_model kw.(kw_pi_model) model
        else kw.(kw_pi_model) in
      Ok (mkAgent provider (_normalize_model_id provider pi_model)
                  output_mode no_session timeout_seconds)
  end.

Definition api_key_mapping : list (string * list string) :=
  [ ("anthropic", ["ANTHROPIC_API_KEY"; "ANTHROPIC_OAUTH_TOKEN"]);
    ("openai", ["OPENAI_API_KEY"]);
    ("google", ["GEMINI_API_KEY"]);
    ("groq", ["GROQ_API_KEY"]);
    ("cerebras", ["CEREBRAS_API_KEY"]);
    ("xai", ["XAI_API_KEY"]);
    ("openrouter", ["OPENROUTER_API_KEY"]) ].

(** The first key of [names] with a non-empty value in the environment. *)
Fixpoint first_available (environ : environ_t) (names : list string)
  : list (string * string) :=
  match names with
  | [] => []
  | key_name :: rest =>
      match environ key_name with
      | Some (String c v) => [(key_name, String c v)]
      | _ => first_available environ rest
      end
  end.

Definition pass_common (environ : environ_t) (env_vars : list (string * string))
           (key : string) : list (string * string) :=
  if negb (Py.dict_mem key env_vars) then
    match environ key with
    | Some v => Py.dict_set key v env_vars
    | None => env_vars
    end
  else env_vars.

Definition pass_through (environ : environ_t) (env_vars : list (string * string))
           (key : string) : list (string * string) :=
  match environ key with
  | Some v => Py.dict_set key v env_vars
  | None => env_vars
  end.

Definition build_env (self : t) (environ : environ_t) : list (string * string) :=
  let env_vars :=
    match Py.dict_lookup self.(provider) api_key_mapping with
    | Some names => first_available environ names
    | None => []
    end in
  let env_vars :=
    fold_left (pass_common environ)
              ["ANTHROPIC_API_KEY"; "OPENAI_API_KEY"; "GEMINI_API_KEY"] env_vars in
  fold_left (pass_through environ)
            ["OPENAI_USER_EMAIL"; "OPENAI_ORG"; "OPENAI_ORG_ID";
             "OPENAI_PROJECT"; "OPENAI_PROJECT_ID"; "OPENAI_API_BASE"] env_vars.

(** The words of the [pi] invocation, the quoted instruction last. *)
Definition pi_command_parts (self : t) (instruction : string) : list string :=
  ["pi"]
  ++ (if Str.is_empty self.(provider) then [] else ["--provider"; self.(provider)])
  ++ (match self.(pi_model) with
      | Some (String c m) => ["--model"; String c m]
      | _ => []
      end)
  ++ ["--mode"; self.(output_mode)]
  ++ (if self.(no_session) then ["--no-session"] else [])
  ++ [Shlex.quote instruction].

Definition main_command (self : t) (instruction : string) : string :=
  "cd /workspace && "
  ++ "timeout " ++ Str.of_Z self.(timeout_seconds) ++ " "
  ++ Str.join " " (pi_command_parts self instruction) ++ " "
  ++ "2>&1 | tee /logs/agent/pi_output.log".

Definition extract_json_command : string :=
  "if [ -f /logs/agent/pi_output.log ]; then "
  ++ "  echo '=== Extracting JSON results ===' && "
  ++ "  python3 -c " ++ dquote ++ "import json, sys; "
  ++ "lines = open('/logs/agent/pi_output.log').readlines(); "
  ++ "json_lines = [l for l in lines if l.strip().startswith('{')]; "
  ++ "if json_lines: "
  ++ "  data = json.loads(json_lines[-1]); "
  ++ "  json.dump(data, open('/logs/agent/results.json', 'w'), indent=2); "
  ++ "  print('Results saved to results.json')"
  ++ dquote ++ " 2>/dev/null || echo 'Could not parse JSON output'; "
  ++ "fi".

Definition create_run_agent_commands (self : t) (environ : environ_t)
           (instruction : string) : list ExecInput :=
  let env := env_or_none (build_env self environ) in
  [ mkExec "mkdir -p /logs/agent/pi_session" env (Some "/workspace") None;
    mkExec (main_command self instruction) env (Some "/workspace")
           (Some (self.(timeout_seconds) + 60)) ]
  ++ (if String.eqb self.(output_mode) "json"
      then [mkExec extract_json_command env (Some "/workspace") None]
      else [])
  ++ [ mkExec ("echo '=== Pi-Mono Session Complete ===' && "
               ++ "ls -la /workspace && "
               ++ "git status 2>/dev/null || true")
              env (Some "/workspace") None ].

(** The running totals of the scan of the transcript. *)
Record totals : Type := mkTotals {
  total_input_tokens : pynum;
  total_output_tokens : pynum;
  total_cache_read_tokens : pynum;
  total_cache_write_tokens : pynum;
  total_cost : pynum
}.

Definition initial_totals : totals :=
  mkTotals (PInt 0) (PInt 0) (PInt 0) (PInt 0) (PFloat Float64.zero).

(** The test that selects the [message_end] events of the assistant that
    carry usage data. *)
Definition is_usage_event (event : json) : outcome bool :=
  ty <- Py.get event "type" JNull ;;
  if negb (Py.eq_str ty "message_end") then Ok false else
  has_message <- Py.contains "message" event ;;
  if negb has_message then Ok false else
  message <- Py.getitem event "message" ;;
  role <- Py.get message "role" JNull ;;
  if negb (Py.eq_str role "assistant") then Ok false else
  Py.contains "usage" message.

(** The cost that a usage object contributes: the [total] of an object,
    the value itself otherwise, nothing when the key is absent. *)
Definition add_cost (cost_total : pynum) (usage : json) : outcome pynum :=
  has_cost <- Py.contains "cost" usage ;;
  if has_cost then
    cost <- Py.getitem usage "cost" ;;
    if Py.is_dict cost then
      total <- Py.get cost "total" (JInt 0) ;;
      Py.add cost_total total
    else Py.add cost_total cost
  else Ok cost_total.

Definition accumulate (acc : totals) (usage : json) : outcome totals :=
  input <- Py.get usage "input" (JInt 0) ;;
  ti <- Py.add acc.(total_input_tokens) input ;;
  output <- Py.get usage "output" (JInt 0) ;;
  to <- Py.add acc.(total_output_tokens) output ;;
  cache_read <- Py.get usage "cacheRead" (JInt 0) ;;
  tr <- Py.add acc.(total_cache_read_tokens) cache_read ;;
  cache_write <- Py.get usage "cacheWrite" (JInt 0) ;;
  tw <- Py.add acc.(total_cache_write_tokens) cache_write ;;
  tc <- add_cost acc.(total_cost) usage ;;
  Ok (mkTotals ti to tr tw tc).

Definition process_event (acc : totals) (event : json) : outcome totals :=
  selected <- is_usage_event event ;;
  if selected then
    message <- Py.getitem event "message" ;;
    usage <- Py.getitem message "usage" ;;
    accumulate acc usage
  else Ok acc.

Section Extractor.

(** [json.loads] and [repr], which belong to the Python library. *)
Variable json_loads : string -> outcome json.
Variable py_repr : json -> string.

(** [str(v)] *)
Definition py_str (v : json) : string :=
  match v with
  | JStr s => s
  | _ => py_repr v
  end.

(** One iteration of the scanning loop.  Only [json.loads] raises
    [JSONDecodeError], before any total is updated, so the handler
    resumes with the totals of the previous line. *)
Definition scan_line (acc : totals) (line : string) : outcome totals :=
  let line := Str.strip line in
  if Str.is_empty line || negb (Str.startswith "{" line) then Ok acc
  else
    match (event <- json_loads line ;; process_event acc event) with
    | Raise JSONDecodeError => Ok acc
    | r => r
    end.

Fixpoint scan (acc : totals) (lines : list string) : outcome totals :=
  match lines with
  | [] => Ok acc
  | line :: rest => acc' <- scan_line acc line ;; scan acc' rest
  end.

(** [with open(output_file) as f: for line in f: ...] *)
Definition scan_file (fs : logs) (output_file : string) : outcome totals :=
  opened <- Fs.iter_lines fs output_file ;;
  acc <- scan initial_totals (fst opened) ;;
  match snd opened with
  | Some e => Raise e
  | None => Ok acc
  end.

(** [f.readlines()] *)
Definition readlines (fs : logs) (output_file : string) : outcome (list string) :=
  opened <- Fs.iter_lines fs output_file ;;
  match snd opened with
  | Some e => Raise e
  | None => Ok (fst opened)
  end.

(** [[next(f, '') for _ in range(n)]] *)
Fixpoint take_lines (n : nat) (lines : list string) (err : option exn)
  : outcome (list string) :=
  match n with
  | O => Ok []
  | S n' =>
      match lines with
      | line :: rest =>
          more <- take_lines n' rest err ;; Ok (line :: more)
      | [] =>
          match err with
          | Some e => Raise e
          | None => more <- take_lines n' [] None ;; Ok (EmptyString :: more)
          end
      end
  end.

Definition first_lines (fs : logs) (output_file : string) (n : nat)
  : outcome (list string) :=
  opened <- Fs.iter_lines fs output_file ;;
  take_lines n (fst opened) (snd opened).

(** The body of the inner [try] of the fallback pass: the length of the
    content of the message on this line. *)
Definition content_chars (line : string) : outcome Z :=
  event <- json_loads (Str.strip line) ;;
  has_message <- Py.contains "message" event ;;
  if negb has_message then Ok 0 else
  message <- Py.getitem event "message" ;;
  has_content <- Py.contains "content" message ;;
  if negb has_content then Ok 0 else
  message <- Py.getitem event "message" ;;
  content <- Py.getitem message "content" ;;
  Ok (Str.len (py_str content)).

Definition role_marker : string :=
  dquote ++ "role" ++ dquote ++ ":" ++ dquote ++ "assistant" ++ dquote.

Definition content_marker : string := dquote ++ "content" ++ dquote.

(** One iteration of the fallback loop; the bare [except] discards every
    exception. *)
Definition count_line (actual_content_chars : Z) (line : string) : Z :=
  if Str.contains role_marker line && Str.contains content_marker line then
    match content_chars line with
    | Ok n => actual_content_chars + n
    | Raise _ => actual_content_chars
    end
  else actual_content_chars.

Definition cost_per_1k_out_table : list (string * Float64.float) :=
  [ ("anthropic", Float64.of_decimal 15 (-3));
    ("openai", Float64.of_decimal 2 (-3));
    ("google", Float64.of_decimal 1 (-3));
    ("groq", Float64.zero) ].

(** The estimate made when the scan found no token counts. *)
Definition fallback (self : t) (fs : logs) (output_file : string) : action unit :=
  (lines <-- Act.lift (readlines fs output_file) ;;
   let actual_content_chars := fold_left count_line lines 0 in
   let n_in := 500 in
   let n_out := Z.max (actual_content_chars / 4) 100 in
   Act.assign (set_n_input_tokens (Some (PInt n_in))) ;;;
   Act.assign (set_n_output_tokens (Some (PInt n_out))) ;;;
   let cost_per_1k_out :=
     match Py.dict_lookup self.(provider) cost_per_1k_out_table with
     | Some rate => rate
     | None => Float64.of_decimal 2 (-3)
     end in
   let cost_per_1k_in := Float64.div cost_per_1k_out (Float64.of_Z 5) in
   Act.assign
     (set_cost_usd
        (Some (PFloat
           (Float64.add
              (Float64.mul (Py.true_div n_in 1000) cost_per_1k_in)
              (Float64.mul (Py.true_div n_out 1000) cost_per_1k_out))))))%action.

Definition has_error_text (line : string) : bool :=
  Str.contains "error" (Str.lower line) || Str.contains "failed" (Str.lower line).

(** The format specification [:.4f] applied to the cost. *)
Definition format_4f (v : option pynum) : outcome unit :=
  match v with
  | None => Raise TypeError
  | Some (PInt z) => _ <- Py.float_of_int z ;; Ok tt
  | Some (PFloat _) => Ok tt
  end.

Definition success_metadata (self : t) (acc : totals) (has_errors : bool)
  : metadata_t :=
  [ ("provider", MStr self.(provider));
    ("model", MStr (Py.str_or self.(pi_model) "default"));
    ("output_mode", MStr self.(output_mode));
    ("success", MBool (negb has_errors && Py.is_positive acc.(total_output_tokens)));
    ("session_saved", MBool (negb self.(no_session)));
    ("actual_api_usage",
     MBool (Py.is_positive acc.(total_input_tokens)
            || Py.is_positive acc.(total_output_tokens))) ].

(** What follows the scan inside the [try] block. *)
Definition report (self : t) (fs : logs) (output_file : string) (acc : totals)
  : action unit :=
  (Act.assign (set_n_input_tokens (Some acc.(total_input_tokens))) ;;;
   Act.assign (set_n_output_tokens (Some acc.(total_output_tokens))) ;;;
   Act.assign (set_n_cache_tokens (Some acc.(total_cache_read_tokens))) ;;;
   Act.assign (set_cost_usd (Some acc.(total_cost))) ;;;
   (if Py.is_zero acc.(total_input_tokens) && Py.is_zero acc.(total_output_tokens)
    then fallback self fs output_file
    else Act.ret tt) ;;;
   lines <-- Act.lift (first_lines fs output_file 20) ;;
   let has_errors := existsb has_error_text lines in
   Act.assign (set_metadata (success_metadata self acc has_errors)) ;;;
   context <-- Act.read ;;
   Act.lift (format_4f context.(cost_usd)))%action.

(** The [try] block. *)
Definition parse (self : t) (fs : logs) (output_file : string) : action unit :=
  (acc <-- Act.lift (scan_file fs output_file) ;;
   report self fs output_file acc)%action.

Definition error_metadata (self : t) (error : mvalue) : metadata_t :=
  [ ("error", error);
    ("provider", MStr self.(provider));
    ("model", MStr (Py.str_or self.(pi_model) "default")) ].

(** The transcript: the direct path, else the directory of the main
    command. *)
Definition locate (fs : logs) : string :=
  if Fs.exists_ fs "pi_output.log" then "pi_output.log"
  else "command-1/pi_output.log".

Definition populate_context_post_run (self : t) (fs : logs) : action unit :=
  let output_file := locate fs in
  if negb (Fs.exists_ fs output_file) then
    Act.assign (set_metadata (error_metadata self (MStr "No output file found")))
  else
    Act.try_except
      (parse self fs output_file)
      (fun e => Act.assign (set_metadata (error_metadata self (MExnText e)))).

End Extractor.

End PiMonoAgent.

(** ** The Factory Droid agent *)

Module FactoryDroidAgent.

Record kwargs : Type := mkKwargs {
  kw_droid_model : option string;
  kw_reasoning_effort : option string;
  kw_timeout_seconds : option Z
}.

Record t : Type := mkAgent {
  auth_token : option string;
  droid_model : string;
  reasoning_effort : string;
  timeout_seconds : Z;
  _last_instruction : option string
}.

Definition _model_id_map : list (string * string) :=
  [ ("sonnet", "claude-sonnet-4-20250514");
    ("opus", "claude-opus-4-1-20250805");
    ("haiku", "claude-sonnet-4-20250514");
    ("gpt-5", "gpt-5-codex");
    ("gpt-5-codex", "gpt-5-codex");
    ("gpt-5-high", "gpt-5-codex-high") ].

(** The short model name that [model_name] selects, [short_model] when it
    selects none. *)
Definition pick_short_model (short_model : string) (model_name : option string)
  : string :=
  match model_name with
  | Some name =>
      match Str.split_once "/" name with
      | Some (provider, model) =>
          if String.eqb provider "anthropic" then
            if Str.contains "haiku" (Str.lower model) then "haiku"
            else if Str.contains "opus" (Str.lower model) then "opus"
            else if Str.contains "sonnet" (Str.lower model) then "sonnet"
            else short_model
          else if String.eqb provider "openai" then
            if Str.contains "gpt-5" (Str.lower model) then "gpt-5"
            else short_model
          else short_model
      | None => short_model
      end
  | None => short_model
  end.

Definition __init__ (environ : environ_t) (model_name : option string) (kw : kwargs)
  : outcome t :=
  let short_model :=
    pick_short_model
      (match kw.(kw_droid_model) with Some m => m | None => "sonnet" end)
      model_name in
  let droid_model :=
    match Py.dict_lookup short_model _model_id_map with
    | Some id => id
    | None => short_model
    end in
  Ok (mkAgent (environ "FACTORY_AUTH_TOKEN")
              droid_model
              (match kw.(kw_reasoning_effort) with Some r => r | None => "medium" end)
              (match kw.(kw_timeout_seconds) with Some n => n | None => 1800 end)
              None).

Definition set_if_present (key : string) (value : option string)
           (env_vars : list (string * string)) : list (string * string) :=
  match value with
  | Some (String c v) => Py.dict_set key (String c v) env_vars
  | _ => env_vars
  end.

Definition build_env (self : t) (environ : environ_t) : list (string * string) :=
  set_if_present "FACTORY_AUTH_TOKEN" self.(auth_token)
    (set_if_present "OPENAI_API_KEY" (environ "OPENAI_API_KEY")
       (set_if_present "ANTHROPIC_API_KEY" (environ "ANTHROPIC_API_KEY")
          (set_if_present "FACTORY_API_KEY" (environ "FACTORY_API_KEY") []))).

(** [reasoning_effort and reasoning_effort != "off"] *)
Definition effort_given (self : t) : bool :=
  negb (Str.is_empty self.(reasoning_effort))
  && negb (String.eqb self.(reasoning_effort) "off").

Definition droid_cmd_parts (self : t) (instruction : string) : list string :=
  ["droid"; "exec"; "-m"; self.(droid_model)]
  ++ (if effort_given self then ["-r"; self.(reasoning_effort)] else [])
  ++ ["--auto"; if effort_given self then self.(reasoning_effort) else "high"]
  ++ [Shlex.quote instruction].

Definition main_command (self : t) (instruction : string) : string :=
  "timeout " ++ Str.of_Z self.(timeout_seconds) ++ " "
  ++ Str.join " " (droid_cmd_parts self instruction) ++ " "
  ++ "2>&1 | tee /logs/agent/droid_output.log || "
  ++ "echo 'Factory Droid failed - likely due to authentication requirements'".

Definition auth_check_command : string :=
  "echo 'Checking Factory Droid authentication...' && "
  ++ "if [ -f ~/.factory/auth.json ]; then "
  ++ "  echo 'Auth file found'; "
  ++ "else "
  ++ "  echo 'WARNING: No auth file found. Factory Droid may fail.'; "
  ++ "  echo 'To authenticate: run droid on host machine first, or set FACTORY_AUTH_TOKEN'; "
  ++ "fi".

(** The agent remembers the instruction; the commands are returned with
    the updated agent. *)
Definition create_run_agent_commands (self : t) (environ : environ_t)
           (instruction : string) : t * list ExecInput :=
  let self :=
    mkAgent self.(auth_token) self.(droid_model) self.(reasoning_effort)
            self.(timeout_seconds) (Some instruction) in
  let env := env_or_none (build_env self environ) in
  (self,
   [ mkExec "mkdir -p /logs/agent/droid_session" env (Some "/workspace") None;
     mkExec auth_check_command env (Some "/workspace") None;
     mkExec (main_command self instruction) env (Some "/workspace")
            (Some (self.(timeout_seconds) + 60));
     mkExec ("echo '=== Factory Droid Session Complete ===' && "
             ++ "ls -la /workspace && "
             ++ "git status 2>/dev/null || true")
            env (Some "/workspace") None ]).

Definition cost_per_1k_tokens : list (string * Float64.float) :=
  [ ("sonnet", Float64.of_decimal 3 (-3));
    ("opus", Float64.of_decimal 15 (-3));
    ("haiku", Float64.of_decimal 8 (-4));
    ("GPT-5", Float64.of_decimal 1 (-2));
    ("droid-core", Float64.of_decimal 2 (-3)) ].

Definition has_error_text (line : string) : bool :=
  Str.contains "error" (Str.lower line) || Str.contains "failed" (Str.lower line).

(** [x or 0] for an optional token count. *)
Definition or_zero (v : option Z) : Z :=
  match v with Some z => z | None => 0 end.

Definition num (v : option Z) : option pynum := option_map PInt v.

Definition result_metadata (self : t) (output_content : string) : metadata_t :=
  let lines := Str.split Str.newline output_content in
  let error_lines := filter has_error_text lines in
  [ ("droid_model", MStr self.(droid_model));
    ("reasoning_effort", MStr self.(reasoning_effort));
    ("success", MBool (Str.contains "Factory Droid Session Complete" output_content));
    ("output_lines", MInt (Z.of_nat (List.length lines)));
    ("errors", match error_lines with
               | [] => MNone
               | _ => MStrs (firstn 5 error_lines)
               end) ].

(** The [try] block. *)
Definition parse (self : t) (fs : logs) (output_file : string) : action unit :=
  (output_content <-- Act.lift (Fs.read fs output_file) ;;
   let char_count := Str.len output_content in
   let estimated_tokens := char_count / 4 in
   let approx_input_tokens :=
     match self.(_last_instruction) with
     | Some (String c i) => Some (Z.max (Str.len (String c i) / 4) 1)
     | _ => None
     end in
   let approx_output_tokens :=
     if 0 <? estimated_tokens then Some estimated_tokens else None in
   Act.assign (set_n_input_tokens (num approx_input_tokens)) ;;;
   Act.assign (set_n_output_tokens (num approx_output_tokens)) ;;;
   let rate :=
     match Py.dict_lookup self.(droid_model) cost_per_1k_tokens with
     | Some r => r
     | None => Float64.of_decimal 3 (-3)
     end in
   let total_tokens := or_zero approx_input_tokens + or_zero approx_output_tokens in
   Act.assign
     (set_cost_usd
        (if total_tokens =? 0 then None
         else Some (PFloat (Float64.mul (Py.true_div total_tokens 1000) rate)))) ;;;
   Act.assign (set_metadata (result_metadata self output_content)))%action.

Definition command_output_paths : list string :=
  map (fun i => "command-" ++ Str.of_Z i ++ "/stdout.txt") [0; 1; 2; 3; 4].

(** The loop over the per-command outputs, taken when the transcript is
    absent; the reads are outside any [try]. *)
Fixpoint check_command_outputs (self : t) (fs : logs) (paths : list string)
  : action unit :=
  match paths with
  | [] => Act.ret tt
  | cmd_output :: rest =>
      if Fs.exists_ fs cmd_output then
        (content <-- Act.lift (Fs.read fs cmd_output) ;;
         if negb (Str.is_empty content) then
           Act.assign
             (set_metadata
                [ ("error", MStr "No main output file");
                  ("command_output_sample", MStr (Str.take 500 content));
                  ("droid_model", MStr self.(droid_model)) ])
         else check_command_outputs self fs rest)%action
      else check_command_outputs self fs rest
  end.

Definition output_file : string := "command-2/droid_output.log".

Definition populate_context_post_run (self : t) (fs : logs) : action unit :=
  if Fs.exists_ fs output_file then
    Act.try_except
      (parse self fs output_file)
      (fun e =>
         Act.assign
           (set_metadata [ ("error", MExnText e);
                           ("droid_model", MStr self.(droid_model)) ]))
  else check_command_outputs self fs command_output_paths.

End FactoryDroidAgent.

(** ** An executable [json.loads]

    The decoder of Python's [json] module on strings over the code points
    0..255: the grammar of [json.scanner] and [json.decoder], with [NaN],
    [Infinity] and [-Infinity], duplicate keys resolved as [dict] does, and
    strict strings.  A [\u] escape above [00ff] denotes a character outside
    this model of [str]; the decoder gives up on it with [ValueError], where
    Python returns the character.  [None] inside the parser is a decoding
    error. *)

Module Json.

Definition is_ws (c : ascii) : bool :=
  let n := Str.code c in ((n =? 32) || (n =? 9) || (n =? 10) || (n =? 13))%N.

Fixpoint skip_ws (s : string) : string :=
  match s with
  | String c t => if is_ws c then skip_ws t else s
  | EmptyString => s
  end.

Definition digit_value (c : ascii) : option Z :=
  let n := Str.code c in
  if ((48 <=? n) && (n <=? 57))%N then Some (Z.of_N n - 48) else None.

Definition hex_value (c : ascii) : option Z :=
  let n := Str.code c in
  if ((48 <=? n) && (n <=? 57))%N then Some (Z.of_N n - 48)
  else if ((65 <=? n) && (n <=? 70))%N then Some (Z.of_N n - 55)
  else if ((97 <=? n) && (n <=? 102))%N then Some (Z.of_N n - 87)
  else None.

(** The longest run of digits at the head of [s]: its value, its length
    and the rest of [s]. *)
Fixpoint digits (acc : Z) (count : Z) (s : string) : Z * Z * string :=
  match s with
  | String c t =>
      match digit_value c with
      | Some d => digits (10 * acc + d) (count + 1) t
      | None => (acc, count, s)
      end
  | EmptyString => (acc, count, s)
  end.

(** The integer part, an optional minus sign and then a zero or a run of
    digits without leading zero: sign, value and rest. *)
Definition integer_part (s : string) : option (bool * Z * string) :=
  let '(neg, s1) :=
    match s with
    | String "-" t => (true, t)
    | _ => (false, s)
    end in
  match s1 with
  | String "0" t => Some (neg, 0, t)
  | _ =>
      let '(v, n, rest) := digits 0 0 s1 in
      if n =? 0 then None else Some (neg, v, rest)
  end.

(** The fraction, a dot and at least one digit, when present: digits,
    their number, rest. *)
Definition fraction_part (s : string) : option (Z * Z * string) :=
  match s with
  | String "." t =>
      let '(v, n, rest) := digits 0 0 t in
      if n =? 0 then None else Some (v, n, rest)
  | _ => None
  end.

(** The exponent, [e] or [E], an optional sign and at least one digit,
    when present: value and rest. *)
Definition exponent_part (s : string) : option (Z * string) :=
  match s with
  | String c t =>
      if Ascii.eqb c "e" || Ascii.eqb c "E" then
        let '(neg, t1) :=
          match t with
          | String "-" u => (true, u)
          | String "+" u => (false, u)
          | _ => (false, t)
          end in
        let '(v, n, rest) := digits 0 0 t1 in
        if n =? 0 then None else Some (if neg then - v else v, rest)
      else None
  | EmptyString => None
  end.

(** [float] of the literal with mantissa digits [m] (as an integer) and
    decimal exponent [e]; [ndigits] bounds the number of digits of [m]. *)
Definition float_literal (neg : bool) (m ndigits e : Z) : Float64.float :=
  let magnitude :=
    if m =? 0 then Float64.zero
    else if 309 <=? e then S754_infinity false
    else if ndigits + e <=? -324 then Float64.zero
    else Float64.of_decimal m e in
  if neg then SFopp magnitude else magnitude.

Definition number (s : string) : option (json * string) :=
  match integer_part s with
  | None => None
  | Some (neg, int_value, rest) =>
      let int_digits := Z.of_nat (String.length s) in
      match fraction_part rest, exponent_part rest with
      | None, None => Some (JInt (if neg then - int_value else int_value), rest)
      | None, Some (e, rest') =>
          Some (JFloat (float_literal neg int_value int_digits e), rest')
      | Some (frac, n, rest'), _ =>
          let m := int_value * 10 ^ n + frac in
          match exponent_part rest' with
          | Some (e, rest'') =>
              Some (JFloat (float_literal neg m int_digits (e - n)), rest'')
          | None => Some (JFloat (float_literal neg m int_digits (- n)), rest')
          end
      end
  end.

Definition four_hex (a b c d : ascii) : option Z :=
  match hex_value a, hex_value b, hex_value c, hex_value d with
  | Some x, Some y, Some z, Some w => Some (((x * 16 + y) * 16 + z) * 16 + w)
  | _, _, _, _ => None
  end.

Definition char_of (n : Z) : ascii := ascii_of_N (Z.to_N n).

(** The body of a string after its opening quote: [Ok None] is a decoding
    error. *)
Fixpoint scanstring (s : string) : outcome (option (string * string)) :=
  match s with
  | EmptyString => Ok None
  | String c t =>
      if Ascii.eqb c (ascii_of_N 34) then Ok (Some (EmptyString, t))
      else if (Str.code c <? 32)%N then Ok None
      else if Ascii.eqb c "\" then
        match t with
        | String e u =>
            let simple (x : ascii) :=
              r <- scanstring u ;;
              Ok (option_map (fun p => (String x (fst p), snd p)) r) in
            if Ascii.eqb e (ascii_of_N 34) then simple (ascii_of_N 34)
            else if Ascii.eqb e "\" then simple "\"%char
            else if Ascii.eqb e "/" then simple "/"%char
            else if Ascii.eqb e "b" then simple (ascii_of_N 8)
            else if Ascii.eqb e "f" then simple (ascii_of_N 12)
            else if Ascii.eqb e "n" then simple (ascii_of_N 10)
            else if Ascii.eqb e "r" then simple (ascii_of_N 13)
            else if Ascii.eqb e "t" then simple (ascii_of_N 9)
            else if Ascii.eqb e "u" then
              match u with
              | String h1 (String h2 (String h3 (String h4 rest))) =>
                  match four_hex h1 h2 h3 h4 with
                  | Some n =>
                      if n <? 256 then
                        r <- scanstring rest ;;
                        Ok (option_map
                              (fun p => (String (char_of n) (fst p), snd p)) r)
                      else Raise (ValueError "code point outside the model")
                  | None => Ok None
                  end
              | _ => Ok None
              end
            else Ok None
        | EmptyString => Ok None
        end
      else
        r <- scanstring t ;;
        Ok (option_map (fun p => (String c (fst p), snd p)) r)
  end.

Definition literal (s : string) : option (json * string) :=
  if Str.startswith "null" s then Some (JNull, Str.drop 4 s)
  else if Str.startswith "true" s then Some (JBool true, Str.drop 4 s)
  else if Str.startswith "false" s then Some (JBool false, Str.drop 5 s)
  else match number s with
       | Some r => Some r
       | None =>
           if Str.startswith "NaN" s then Some (JFloat S754_nan, Str.drop 3 s)
           else if Str.startswith "Infinity" s
                then Some (JFloat (S754_infinity false), Str.drop 8 s)
           else if Str.startswith "-Infinity" s
                then Some (JFloat (S754_infinity true), Str.drop 9 s)
           else None
       end.

(** [scan_once] at the head of [s], and the loops of [JSONObject] and
    [JSONArray] after the first member or element has been located. *)
Fixpoint value (fuel : nat) (s : string) : outcome (option (json * string)) :=
  match fuel with
  | O => Raise RecursionError
  | S fuel' =>
      match s with
      | String c t =>
          if Ascii.eqb c (ascii_of_N 34) then
            r <- scanstring t ;;
            Ok (option_map (fun p => (JStr (fst p), snd p)) r)
          else if Ascii.eqb c "{" then
            match skip_ws t with
            | String "}" rest => Ok (Some (JDict [], rest))
            | t' => members fuel' [] t'
            end
          else if Ascii.eqb c "[" then
            match skip_ws t with
            | String "]" rest => Ok (Some (JList [], rest))
            | t' => elements fuel' [] t'
            end
          else Ok (literal s)
      | EmptyString => Ok None
      end
  end

with members (fuel : nat) (acc : list (string * json)) (s : string)
  : outcome (option (json * string)) :=
  match fuel with
  | O => Raise RecursionError
  | S fuel' =>
      match s with
      | String c t =>
          if Ascii.eqb c (ascii_of_N 34) then
            k <- scanstring t ;;
            match k with
            | None => Ok None
            | Some (key, rest) =>
                match skip_ws rest with
                | String ":" rest1 =>
                    v <- value fuel' (skip_ws rest1) ;;
                    match v with
                    | None => Ok None
                    | Some (x, rest2) =>
                        let acc' := Py.dict_set key x acc in
                        match skip_ws rest2 with
                        | String "}" rest3 => Ok (Some (JDict acc', rest3))
                        | String "," rest3 => members fuel' acc' (skip_ws rest3)
                        | _ => Ok None
                        end
                    end
                | _ => Ok None
                end
            end
          else Ok None
      | EmptyString => Ok None
      end
  end

with elements (fuel : nat) (acc : list json) (s : string)
  : outcome (option (json * string)) :=
  match fuel with
  | O => Raise RecursionError
  | S fuel' =>
      v <- value fuel' s ;;
      match v with
      | None => Ok None
      | Some (x, rest) =>
          match skip_ws rest with
          | String "]" rest1 => Ok (Some (JList (acc ++ [x]), rest1))
          | String "," rest1 => elements fuel' (acc ++ [x]) (skip_ws rest1)
          | _ => Ok None
          end
      end
  end.

(** [json.loads(s)] *)
Definition loads (s : string) : outcome json :=
  r <- value (2 * String.length s + 2) (skip_ws s) ;;
  match r with
  | Some (v, rest) =>
      match skip_ws rest with
      | EmptyString => Ok v
      | _ => Raise JSONDecodeError
      end
  | None => Raise JSONDecodeError
  end.

End Json.

(** ** An executable [repr]

    Python's [repr] of the values that [json.loads] returns: the quoting of
    [str], the shortest decimal that reads back as the same [float], and
    the display of [list] and [dict]. *)

Module Repr.

(** [str.isprintable] on the code points below 256. *)
Definition printable (c : ascii) : bool :=
  let n := Str.code c in
  ((32 <=? n) && (n <=? 126) || (161 <=? n) && negb (n =? 173))%N.

Definition hex_digit (n : N) : ascii :=
  if (n <? 10)%N then ascii_of_N (48 + n) else ascii_of_N (87 + n).

Definition escape (quote c : ascii) : string :=
  let n := Str.code c in
  if Ascii.eqb c quote || Ascii.eqb c "\" then String "\" (String c EmptyString)
  else if (n =? 9)%N then "\t"
  else if (n =? 10)%N then "\n"
  else if (n =? 13)%N then "\r"
  else if printable c then String c EmptyString
  else String "\" (String "x" (String (hex_digit (n / 16))
                                 (String (hex_digit (n mod 16)) EmptyString))).

Fixpoint escape_all (quote : ascii) (s : string) : string :=
  match s with
  | EmptyString => EmptyString
  | String c t => escape quote c ++ escape_all quote t
  end.

(** [repr] of a [str]. *)
Definition of_str (s : string) : string :=
  let quote :=
    if Str.contains "'" s && negb (Str.contains dquote s)
    then ascii_of_N 34 else "'"%char in
  String quote (escape_all quote s ++ String quote EmptyString).

(** [p / q < 10 ^ k] *)
Definition below_pow10 (p q k : Z) : bool :=
  if 0 <=? k then p <? q * 10 ^ k else p * 10 ^ (- k) <? q.

(** The least [k], from [k] on, with [p / q < 10 ^ k]. *)
Fixpoint decimal_point (fuel : nat) (p q k : Z) : Z :=
  match fuel with
  | O => k
  | S fuel' => if below_pow10 p q k then k else decimal_point fuel' p q (k + 1)
  end.

(** Does the decimal [c] * 10^[e] read back as [x]? *)
Definition reads_back (x : Float64.float) (c e : Z) : bool :=
  Float64.eqb (Float64.of_decimal c e) x.

(** The shortest decimal [c] * 10^([k] - [n]), with the [n] from [n] on,
    that reads back as [x] = [p / q]; the nearest to [x] when two do. *)
Fixpoint shortest (fuel : nat) (x : Float64.float) (p q k n : Z) : Z * Z :=
  let '(P, Q) := if 0 <=? n - k then (p * 10 ^ (n - k), q)
                 else (p, q * 10 ^ (k - n)) in
  let lo := P / Q in
  let r := P mod Q in
  let lo_ok := reads_back x lo (k - n) in
  let hi_ok := reads_back x (lo + 1) (k - n) in
  let nearest :=
    match 2 * r ?= Q with
    | Lt => lo
    | Gt => lo + 1
    | Eq => if Z.even lo then lo else lo + 1
    end in
  match fuel with
  | O => (nearest, n)
  | S fuel' =>
      if lo_ok && hi_ok then (nearest, n)
      else if lo_ok then (lo, n)
      else if hi_ok then (lo + 1, n)
      else shortest fuel' x p q k (n + 1)
  end.

Fixpoint strip_zeros (s : string) : string :=
  match s with
  | EmptyString => EmptyString
  | String c t =>
      match strip_zeros t with
      | EmptyString => if Ascii.eqb c "0" then EmptyString else String c EmptyString
      | t' => String c t'
      end
  end.

Fixpoint zeros (n : nat) : string :=
  match n with
  | O => EmptyString
  | S n' => String "0" (zeros n')
  end.

(** The digits [ds] with the decimal point after the first [decpt] of
    them, as [repr] lays a float out. *)
Definition layout (ds : string) (decpt : Z) : string :=
  let n := Str.len ds in
  if (decpt <=? -4) || (16 <? decpt) then
    let e := decpt - 1 in
    let mantissa :=
      match ds with
      | String d EmptyString => ds
      | String d rest => String d (String "." rest)
      | EmptyString => ds
      end in
    let digits := Str.of_Z (Z.abs e) in
    mantissa ++ "e" ++ (if e <? 0 then "-" else "+")
    ++ (if Z.abs e <? 10 then String "0" digits else digits)
  else if decpt <=? 0 then "0." ++ zeros (Z.to_nat (- decpt)) ++ ds
  else if n <=? decpt then ds ++ zeros (Z.to_nat (decpt - n)) ++ ".0"
  else Str.take (Z.to_nat decpt) ds ++ "." ++ Str.drop (Z.to_nat decpt) ds.

(** [repr] of a [float]. *)
Definition of_float (x : Float64.float) : string :=
  match x with
  | S754_nan => "nan"
  | S754_infinity s => if s then "-inf" else "inf"
  | S754_zero s => if s then "-0.0" else "0.0"
  | S754_finite s m e =>
      let '(p, q) := if 0 <=? e then (Zpos m * 2 ^ e, 1) else (Zpos m, 2 ^ (- e)) in
      let k := decimal_point 640 p q (-324) in
      let '(c, n) := shortest 16 (S754_finite false m e) p q k 1 in
      let ds := Str.of_Z c in
      let decpt := k + (Str.len ds - n) in
      (if s then "-" else EmptyString) ++ layout (strip_zeros ds) decpt
  end.

Definition bracket (opening closing : string) (items : list string) : string :=
  opening ++ Str.join ", " items ++ closing.

(** [repr(v)] *)
Fixpoint of_json (v : json) : string :=
  match v with
  | JNull => "None"
  | JBool b => if b then "True" else "False"
  | JInt z => Str.of_Z z
  | JFloat f => of_float f
  | JStr s => of_str s
  | JList l => bracket "[" "]" (map of_json l)
  | JDict d =>
      bracket "{" "}"
        (map (fun kv => let '(k, x) := kv in of_str k ++ ": " ++ of_json x) d)
  end.

End Repr.


(** ** Notions used to state the properties *)

(** The providers that the pi-mono constructor recognises. *)
Definition allow_list : list string := map fst PiMonoAgent.provider_map.

(** The output-token estimate of the pi-mono fallback pass. *)
Definition fallback_output (loads : string -> outcome json) (repr : json -> string)
           (lines : list string) : Z :=
  Z.max (fold_left (PiMonoAgent.count_line loads repr) lines 0 / 4) 100.

(** The cost estimate of the pi-mono fallback pass, from the rate of the
    table for a thousand output tokens. *)
Definition fallback_rate (self : PiMonoAgent.t) : Float64.float :=
  match Py.dict_lookup (PiMonoAgent.provider self) PiMonoAgent.cost_per_1k_out_table with
  | Some rate => rate
  | None => Float64.of_decimal 2 (-3)
  end.

Definition fallback_cost (self : PiMonoAgent.t) (n_out : Z) : Float64.float :=
  Float64.add
    (Float64.mul (Py.true_div 500 1000)
                 (Float64.div (fallback_rate self) (Float64.of_Z 5)))
    (Float64.mul (Py.true_div n_out 1000) (fallback_rate self)).

(** Did the scan find no token counts? *)
Definition no_counts (acc : PiMonoAgent.totals) : bool :=
  Py.is_zero (PiMonoAgent.total_input_tokens acc)
  && Py.is_zero (PiMonoAgent.total_output_tokens acc).

(** The record that the pi-mono extractor leaves after a scan of [lines]
    that ended with the totals [acc]. *)
Definition pi_record (loads : string -> outcome json) (repr : json -> string)
           (self : PiMonoAgent.t) (lines : list string) (acc : PiMonoAgent.totals)
  : AgentContext :=
  let has_errors := existsb PiMonoAgent.has_error_text (firstn 20 lines) in
  let meta := Some (PiMonoAgent.success_metadata self acc has_errors) in
  if no_counts acc then
    mkContext (Some (PInt 500))
              (Some (PInt (fallback_output loads repr lines)))
              (Some (PiMonoAgent.total_cache_read_tokens acc))
              (Some (PFloat (fallback_cost self (fallback_output loads repr lines))))
              meta
  else
    mkContext (Some (PiMonoAgent.total_input_tokens acc))
              (Some (PiMonoAgent.total_output_tokens acc))
              (Some (PiMonoAgent.total_cache_read_tokens acc))
              (Some (PiMonoAgent.total_cost acc))
              meta.

(** The record that the pi-mono extractor leaves when the [try] block
    raised [e]: only the metadata of [ctx] is replaced. *)
Definition pi_error_record (self : PiMonoAgent.t) (e : exn) (ctx : AgentContext)
  : AgentContext :=
  set_metadata (PiMonoAgent.error_metadata self (MExnText e)) ctx.

Definition droid_error_record (self : FactoryDroidAgent.t) (e : exn)
           (ctx : AgentContext) : AgentContext :=
  set_metadata [ ("error", MExnText e);
                 ("droid_model", MStr (FactoryDroidAgent.droid_model self)) ] ctx.

(** A command output that the Factory Droid extractor passes over: absent
    or empty. *)
Definition no_sample (fs : logs) (path : string) : Prop :=
  fs path = Missing \/ fs path = Text EmptyString.

(** The estimates of the Factory Droid extractor: input tokens from the
    remembered instruction, output tokens from the length of the
    transcript, cost from the rate of the model. *)
Definition droid_input (self : FactoryDroidAgent.t) : option Z :=
  match FactoryDroidAgent._last_instruction self with
  | Some (String c i) => Some (Z.max (Str.len (String c i) / 4) 1)
  | _ => None
  end.

Definition droid_output (content : string) : option Z :=
  if 0 <? Str.len content / 4 then Some (Str.len content / 4) else None.

Definition droid_rate (self : FactoryDroidAgent.t) : Float64.float :=
  match Py.dict_lookup (FactoryDroidAgent.droid_model self)
                       FactoryDroidAgent.cost_per_1k_tokens with
  | Some r => r
  | None => Float64.of_decimal 3 (-3)
  end.

Definition droid_cost (self : FactoryDroidAgent.t) (content : string) : option pynum :=
  let total :=
    FactoryDroidAgent.or_zero (droid_input self)
    + FactoryDroidAgent.or_zero (droid_output content) in
  if total =? 0 then None
  else Some (PFloat (Float64.mul (Py.true_div total 1000) (droid_rate self))).

(** The record that the Factory Droid extractor leaves for a transcript
    with the text [content]; the cache count of [ctx] is kept. *)
Definition droid_record (self : FactoryDroidAgent.t) (content : string)
           (ctx : AgentContext) : AgentContext :=
  mkContext (FactoryDroidAgent.num (droid_input self))
            (FactoryDroidAgent.num (droid_output content))
            (n_cache_tokens ctx)
            (droid_cost self content)
            (Some (FactoryDroidAgent.result_metadata self content)).

(** The metadata that the Factory Droid extractor records when the
    transcript is absent and a command output has the text [content]. *)
Definition droid_sample_metadata (self : FactoryDroidAgent.t) (content : string)
  : metadata_t :=
  [ ("error", MStr "No main output file");
    ("command_output_sample", MStr (Str.take 500 content));
    ("droid_model", MStr (FactoryDroidAgent.droid_model self)) ].

(** Does the metadata carry an error marker? *)
Definition has_error_marker (ctx : AgentContext) : bool :=
  match metadata ctx with
  | Some m => Py.dict_mem "error" m
  | None => false
  end.

(** A log directory with one file, and two agents, for running the model. *)
Definition single_file (path : string) (f : file) : logs :=
  fun p => if String.eqb p path then f else Missing.

Definition sample_pi : PiMonoAgent.t :=
  PiMonoAgent.mkAgent "openai" (Some "gpt-4o") "json" false 1800.

Definition sample_droid : FactoryDroidAgent.t :=
  FactoryDroidAgent.mkAgent None "gpt-5-codex" "medium" 1800 None.

(** What a transcript line is to the scan of the pi-mono extractor: skipped
    without decoding, not decodable, an object that is not a usage event of
    the assistant, such an event with its usage value, or a line on which
    the scan raises. *)
Inductive line_kind : Type :=
| Skipped
| Undecodable
| OtherEvent
| UsageEvent (usage : json)
| Faulty (e : exn).

Definition classify (loads : string -> outcome json) (line : string) : line_kind :=
  let text := Str.strip line in
  if Str.is_empty text || negb (Str.startswith "{" text) then Skipped
  else
    match loads text with
    | Raise JSONDecodeError => Undecodable
    | Raise e => Faulty e
    | Ok event =>
        match PiMonoAgent.is_usage_event event with
        | Raise e => Faulty e
        | Ok false => OtherEvent
        | Ok true =>
            match (message <- Py.getitem event "message" ;;
                   Py.getitem message "usage") with
            | Ok usage => UsageEvent usage
            | Raise e => Faulty e
            end
        end
    end.

(** The usage values of the usage events of a transcript, in order. *)
Fixpoint usage_events (loads : string -> outcome json) (lines : list string)
  : list json :=
  match lines with
  | [] => []
  | line :: rest =>
      match classify loads line with
      | UsageEvent usage => usage :: usage_events loads rest
      | _ => usage_events loads rest
      end
  end.

(** A line that is neither a usage event nor faulty. *)
Definition plain (loads : string -> outcome json) (line : string) : bool :=
  match classify loads line with
  | Skipped | Undecodable | OtherEvent => true
  | _ => false
  end.

(** The sum of [values], added to [start] from left to right. *)
Fixpoint sum_values (start : pynum) (values : list json) : outcome pynum :=
  match values with
  | [] => Ok start
  | v :: rest => t <- Py.add start v ;; sum_values t rest
  end.

(** The field [key] of a usage object, 0 when it is absent. *)
Definition field (key : string) (usage : json) : json :=
  match usage with
  | JDict d =>
      match Py.dict_lookup key d with
      | Some v => v
      | None => JInt 0
      end
  | _ => JInt 0
  end.

(** The cost fields of the usage objects, in order. *)
Fixpoint cost_fields (usages : list json) : list json :=
  match usages with
  | [] => []
  | JDict d :: rest =>
      match Py.dict_lookup "cost" d with
      | Some c => c :: cost_fields rest
      | None => cost_fields rest
      end
  | _ :: rest => cost_fields rest
  end.

(** The amount of a cost field: the [total] of an object (0 when it has
    none), the bare value otherwise. *)
Definition cost_amount (c : json) : json :=
  match c with
  | JDict d =>
      match Py.dict_lookup "total" d with
      | Some t => t
      | None => JInt 0
      end
  | _ => c
  end.

(** Totals that differ from [acc] in the cache-write count only. *)
Definition with_cache_write (w : pynum) (acc : PiMonoAgent.totals)
  : PiMonoAgent.totals :=
  PiMonoAgent.mkTotals (PiMonoAgent.total_input_tokens acc)
                       (PiMonoAgent.total_output_tokens acc)
                       (PiMonoAgent.total_cache_read_tokens acc)
                       w
                       (PiMonoAgent.total_cost acc).

(** A transcript with the given JSON lines, each written with backquotes
    for the double quotes and ended by a newline. *)
Fixpoint transcript (lines : list string) : string :=
  match lines with
  | [] => EmptyString
  | line :: rest => json_text line ++ String Str.newline (transcript rest)
  end.

(** The log directory of a pi-mono run with that transcript. *)
Definition pi_logs (lines : list string) : logs :=
  single_file "pi_output.log" (Text (transcript lines)).

(** A float that is a zero, or carries the sign [s] and is not NaN. *)
Definition has_sign (s : bool) (f : Float64.float) : Prop :=
  match f with
  | S754_zero _ => True
  | S754_infinity s' => s' = s
  | S754_finite s' _ _ => s' = s
  | S754_nan => False
  end.

(** A finite float above zero. *)
Definition positive_finite (f : Float64.float) : Prop :=
  match f with
  | S754_finite false _ _ => True
  | _ => False
  end.

(** A decoded number that is not negative. *)
Definition json_nonneg (v : json) : bool :=
  match v with
  | JInt z => 0 <=? z
  | JFloat f => Float64.nonneg f
  | JBool _ => true
  | _ => false
  end.

(** A usage object whose input, output, cache-read and cost fields are
    numbers that are not negative. *)
Definition usage_nonneg (usage : json) : bool :=
  json_nonneg (field "input" usage)
  && json_nonneg (field "output" usage)
  && json_nonneg (field "cacheRead" usage)
  && forallb json_nonneg (map cost_amount (cost_fields [usage])).

Definition count_nonneg (v : option pynum) : bool :=
  match v with
  | Some n => Py.nonneg n
  | None => true
  end.

(** A record whose counts and cost, where set, are not negative. *)
Definition record_nonneg (ctx : AgentContext) : bool :=
  count_nonneg (n_input_tokens ctx)
  && count_nonneg (n_output_tokens ctx)
  && count_nonneg (n_cache_tokens ctx)
  && count_nonneg (cost_usd ctx).

(** A non-empty word of characters that the shell takes literally. *)
Definition plain_word (w : string) : bool :=
  negb (Str.is_empty w) && Shlex.all_safe w.

(** The words of the [pi] invocation before the instruction. *)
Definition pi_options (self : PiMonoAgent.t) : list string :=
  (["pi"]
   ++ (if Str.is_empty (PiMonoAgent.provider self) then []
       else ["--provider"; PiMonoAgent.provider self])
   ++ (match PiMonoAgent.pi_model self with
       | Some (String c m) => ["--model"; String c m]
       | _ => []
       end)
   ++ ["--mode"; PiMonoAgent.output_mode self]
   ++ (if PiMonoAgent.no_session self then ["--no-session"] else []))%list.

(** The words of the [droid] invocation before the instruction. *)
Definition droid_options (self : FactoryDroidAgent.t) : list string :=
  (["droid"; "exec"; "-m"; FactoryDroidAgent.droid_model self]
   ++ (if FactoryDroidAgent.effort_given self
       then ["-r"; FactoryDroidAgent.reasoning_effort self] else [])
   ++ ["--auto"; if FactoryDroidAgent.effort_given self
                 then FactoryDroidAgent.reasoning_effort self else "high"])%list.

(** The tokens that a shell is to find in the main command of pi-mono and
    of Factory Droid, the instruction being one word. *)
Definition pi_tokens (self : PiMonoAgent.t) (instruction : string)
  : list Shell.token :=
  ([ Shell.Word "cd"; Shell.Word "/workspace"; Shell.Operator "&&";
     Shell.Word "timeout"; Shell.Word (Str.of_Z (PiMonoAgent.timeout_seconds self)) ]
   ++ map Shell.Word (pi_options self)
   ++ [ Shell.Word instruction;
        Shell.IoNumber "2"; Shell.Operator ">&"; Shell.Word "1";
        Shell.Operator "|"; Shell.Word "tee"; Shell.Word "/logs/agent/pi_output.log" ])%list.

Definition droid_tokens (self : FactoryDroidAgent.t) (instruction : string)
  : list Shell.token :=
  ([ Shell.Word "timeout";
     Shell.Word (Str.of_Z (FactoryDroidAgent.timeout_seconds self)) ]
   ++ map Shell.Word (droid_options self)
   ++ [ Shell.Word instruction;
        Shell.IoNumber "2"; Shell.Operator ">&"; Shell.Word "1";
        Shell.Operator "|"; Shell.Word "tee";
        Shell.Word "/logs/agent/droid_output.log";
        Shell.Operator "||"; Shell.Word "echo";
        Shell.Word "Factory Droid failed - likely due to authentication requirements" ])%list.

(** The word being built after the characters of [w] are added to it. *)
Fixpoint push_all (w : string) (cur : option string) : option string :=
  match w with
  | EmptyString => cur
  | String c t => push_all t (Shell.push c cur)
  end.

(** ** Further notions, for the properties beyond the stated claims *)

(** A line that the fallback pass of pi-mono counts: it shows both markers
    and the length of its content can be taken. *)
Definition counted (loads : string -> outcome json) (repr : json -> string)
           (line : string) : bool :=
  Str.contains PiMonoAgent.role_marker line
  && Str.contains PiMonoAgent.content_marker line
  && match PiMonoAgent.content_chars loads repr line with
     | Ok _ => true
     | Raise _ => false
     end.

(** The variables that the pi-mono command builder passes through whenever
    the process environment has them. *)
Definition pi_pass_through_keys : list string :=
  [ "ANTHROPIC_API_KEY"; "OPENAI_API_KEY"; "GEMINI_API_KEY";
    "OPENAI_USER_EMAIL"; "OPENAI_ORG"; "OPENAI_ORG_ID";
    "OPENAI_PROJECT"; "OPENAI_PROJECT_ID"; "OPENAI_API_BASE" ].

(** The number of occurrences of the character [c] in [s]. *)
Fixpoint count_char (c : ascii) (s : string) : nat :=
  match s with
  | EmptyString => O
  | String d t => (if Ascii.eqb d c then 1 else 0) + count_char c t
  end.

(** A value of the environment that Python takes as true: a set, non-empty
    string. *)
Definition nonempty (value : option string) : option string :=
  match value with
  | Some (String c v) => Some (String c v)
  | _ => None
  end.

(** The API key variables that Factory Droid reads when it builds its
    commands. *)
Definition droid_api_keys : list string :=
  [ "FACTORY_API_KEY"; "ANTHROPIC_API_KEY"; "OPENAI_API_KEY" ].

(** The Factory model that a short name stands for. *)
Definition droid_model_of (short_model : string) : string :=
  match Py.dict_lookup short_model FactoryDroidAgent._model_id_map with
  | Some id => id
  | None => short_model
  end.

(** ** Setup of the agents

    [setup] prepares the execution environment.  What it does there is a
    sequence of calls: the installation [super().setup(environment)], the
    uploads [environment.upload_file] and the writing of the patched
    configuration.  The calls are recorded in the order in which they are
    made, whether they return or raise. *)
Inductive event : Type :=
| Install
| WriteText (path content : string)
| UploadFile (source_path target_path : string).

Module Text.

(** [s.replace(old, new)] for a non-empty [old]: the occurrences are
    replaced from the left and do not overlap; [skip] counts the characters
    of an occurrence that are still to be passed over. *)
Fixpoint replace_from (old new : string) (skip : nat) (s : string) : string :=
  match s with
  | EmptyString => EmptyString
  | String c t =>
      match skip with
      | S k => replace_from old new k t
      | O =>
          if Str.startswith old s
          then new ++ replace_from old new (Nat.pred (String.length old)) t
          else String c (replace_from old new O t)
      end
  end.

Definition replace (old new s : string) : string := replace_from old new O s.

End Text.

Module PiMonoSetup.

Section Setup.

(** The directory of the module, whether the bundle is there, and the two
    calls into the harness. *)
Variable agent_dir : string.
Variable bundle_exists : bool.
Variable upload_file : string -> string -> outcome unit.
Variable super_setup : outcome unit.

Definition bundle : string := agent_dir ++ "/pi-bundle.tgz".

Definition setup : list event * outcome unit :=
  if bundle_exists then
    match upload_file bundle "/tmp/pi-bundle.tgz" with
    | Ok _ => ([UploadFile bundle "/tmp/pi-bundle.tgz"; Install], super_setup)
    | Raise e => ([UploadFile bundle "/tmp/pi-bundle.tgz"], Raise e)
    end
  else ([Install], super_setup).

End Setup.

End PiMonoSetup.

Module FactoryDroidSetup.

Section Setup.

(** The home directory of the host, its files, whether a directory
    exists, the process environment, and the calls into the harness and the
    file system. *)
Variable home : string.
Variable host : logs.
Variable dir_exists : string -> bool.
Variable environ : environ_t.
Variable super_setup : outcome unit.
Variable upload_file : string -> string -> outcome unit.
Variable write_text : string -> string -> outcome unit.

Definition factory_dir : string := home ++ "/.factory".

Definition essential_files : list string :=
  ["auth.json"; "settings.json"; "config.json"].

Definition tmp_path : string := "/tmp/factory_config_patched.json".

(** The configuration with the placeholders of the keys that are set. *)
Definition patch (config_data : string) : string :=
  let config_data :=
    match environ "OPENAI_API_KEY" with
    | Some (String c k) => Text.replace "${OPENAI_API_KEY}" (String c k) config_data
    | _ => config_data
    end in
  match environ "OLLAMA_API_KEY" with
  | Some (String c k) => Text.replace "${OLLAMA_API_KEY}" (String c k) config_data
  | _ => config_data
  end.

(** The inner [try] of [config.json]: the calls made and the path to
    upload. *)
Definition patched_config (source_file : string) : list event * string :=
  match Fs.read host source_file with
  | Ok config_data =>
      match write_text tmp_path (patch config_data) with
      | Ok _ => ([WriteText tmp_path (patch config_data)], tmp_path)
      | Raise _ => ([WriteText tmp_path (patch config_data)], source_file)
      end
  | Raise _ => ([], source_file)
  end.

(** One round of the loop: the calls made and whether the file counts as
    uploaded. *)
Definition upload_entry (filename : string) : list event * bool :=
  let source_file := factory_dir ++ "/" ++ filename in
  if Fs.exists_ host source_file then
    let target_path := "/root/.factory/" ++ filename in
    let '(events, source_path) :=
      if String.eqb filename "config.json" then patched_config source_file
      else ([], source_file) in
    ((events ++ [UploadFile source_path target_path])%list,
     match upload_file source_path target_path with
     | Ok _ => true
     | Raise _ => false
     end)
  else ([], false).

(** The loop over the essential files: the calls made and
    [uploaded_count]. *)
Fixpoint upload_all (filenames : list string) : list event * Z :=
  match filenames with
  | [] => ([], 0)
  | filename :: rest =>
      let '(events, uploaded) := upload_entry filename in
      let '(events', uploaded_count) := upload_all rest in
      ((events ++ events')%list, (if uploaded then 1 else 0) + uploaded_count)
  end.

Definition setup : list event * outcome unit :=
  match super_setup with
  | Raise e => ([Install], Raise e)
  | Ok _ =>
      if negb (dir_exists factory_dir) then ([Install], Ok tt)
      else (Install :: fst (upload_all essential_files), Ok tt)
  end.

End Setup.

End FactoryDroidSetup.

(** The uploads among the calls, as pairs of source and target. *)
Fixpoint uploads (events : list event) : list (string * string) :=
  match events with
  | [] => []
  | UploadFile source_path target_path :: rest =>
      (source_path, target_path) :: uploads rest
  | _ :: rest => uploads rest
  end.

(** Every variable of [env_vars] has its value from the environment. *)
Definition from_environ (environ : environ_t) (env_vars : list (string * string))
  : Prop :=
  forall k v, Py.dict_lookup k env_vars = Some v -> environ k = Some v.

(** ** What the fallback pass counts

    The content of the assistant message on a transcript line: the line
    holds both [role:assistant] and [content] in the compact JSON form,
    quoted and without a space after the colon, and its stripped text
    decodes to an object whose [message] is an object with the key
    [content]. *)
Definition assistant_content (loads : string -> outcome json) (line : string)
  : option json :=
  if Str.contains (json_text "`role`:`assistant`") line
     && Str.contains (json_text "`content`") line
  then
    match loads (Str.strip line) with
    | Ok (JDict event) =>
        match Py.dict_lookup "message" event with
        | Some (JDict message) => Py.dict_lookup "content" message
        | _ => None
        end
    | _ => None
    end
  else None.

(** The number of characters of [str(v)]: of the text itself for a string,
    of the [repr] for every other value. *)
Definition text_length (repr : json -> string) (v : json) : Z :=
  match v with
  | JStr s => Z.of_nat (String.length s)
  | _ => Z.of_nat (String.length (repr v))
  end.

(** The characters of assistant content on a line, and in a transcript. *)
Definition line_content_length (loads : string -> outcome json) (repr : json -> string)
           (line : string) : Z :=
  match assistant_content loads line with
  | Some content => text_length repr content
  | None => 0
  end.

Definition content_length (loads : string -> outcome json) (repr : json -> string)
           (lines : list string) : Z :=
  fold_right Z.add 0 (map (line_content_length loads repr) lines).

(** [s * n] *)
Fixpoint repeat_text (s : string) (n : nat) : string :=
  match n with
  | O => EmptyString
  | S n' => s ++ repeat_text s n'
  end.

(** * Properties *)

(** ** Strings *)

Lemma split_once_none (sep : ascii) (s : string) :
  Str.split_once sep s = None <-> Str.contains (String sep EmptyString) s = false.
Proof.
  induction s as [|c t IH]; simpl.
  - split; reflexivity.
  - rewrite Ascii.eqb_sym. destruct (Ascii.eqb sep c) eqn:E; simpl.
    + split; discriminate.
    + destruct (Str.split_once sep t) as [[a b]|].
      * split; [discriminate|]. intros H. apply IH in H. discriminate.
      * split; [|reflexivity]. intros _. apply IH. reflexivity.
Qed.

Lemma split_once_app (sep : ascii) (a b : string) :
  Str.contains (String sep EmptyString) a = false ->
  Str.split_once sep (a ++ String sep b) = Some (a, b).
Proof.
  induction a as [|c t IH]; simpl; intros H.
  - rewrite Ascii.eqb_refl. reflexivity.
  - rewrite Ascii.eqb_sym.
    destruct (Ascii.eqb sep c) eqn:E; simpl in H; [discriminate|].
    rewrite IH by exact H. reflexivity.
Qed.

(** ** Agent configuration *)

(** C9. Constructing the pi-mono agent with provider [openai] and model
    string [openai/gpt-5.1-codex] yields the model identifier
    [gpt-5.1-codex]; [_normalize_model_id] removes the segment before the
    first slash exactly when its lower-case form equals that of the
    provider, and returns the model unchanged otherwise. *)
Theorem normalize_model_id_strips_own_provider :
  (forall mode session timeout,
      exists agent,
        PiMonoAgent.__init__ (Some "openai/gpt-5.1-codex")
          (PiMonoAgent.mkKwargs (Some "openai") None mode session timeout)
        = Ok agent
        /\ PiMonoAgent.provider agent = "openai"
        /\ PiMonoAgent.pi_model agent = Some "gpt-5.1-codex")
  /\ (forall provider prefix rest,
         Str.contains "/" prefix = false ->
         PiMonoAgent._normalize_model_id provider (Some (prefix ++ "/" ++ rest))
         = if String.eqb (Str.lower prefix) (Str.lower provider)
           then Some rest
           else Some (prefix ++ "/" ++ rest))
  /\ (forall provider model,
         Str.contains "/" model = false ->
         PiMonoAgent._normalize_model_id provider (Some model) = Some model)
  /\ (forall provider, PiMonoAgent._normalize_model_id provider None = None).
Proof.
  repeat split.
  - intros mode session timeout. eexists. split; [reflexivity|]. split; reflexivity.
  - intros provider prefix rest H. unfold PiMonoAgent._normalize_model_id.
    change (prefix ++ "/" ++ rest) with (prefix ++ String "/" rest).
    rewrite split_once_app by exact H. reflexivity.
  - intros provider model H. unfold PiMonoAgent._normalize_model_id.
    apply split_once_none in H. rewrite H. reflexivity.
Qed.

Lemma normalize_model_id_strips_own_provider_witness :
  Str.contains "/" "OpenAI" = false
  /\ PiMonoAgent._normalize_model_id "openai" (Some ("OpenAI" ++ "/" ++ "gpt-5.1-codex"))
     = Some "gpt-5.1-codex"
  /\ Str.contains "/" "gpt-5.1-codex" = false
  /\ PiMonoAgent._normalize_model_id "openai" (Some "gpt-5.1-codex")
     = Some "gpt-5.1-codex".
Proof.
  destruct normalize_model_id_strips_own_provider as (_ & Hstrip & Hkeep & _).
  split; [reflexivity|]. split.
  - exact (Hstrip "openai" "OpenAI" "gpt-5.1-codex" eq_refl).
  - split; [reflexivity|]. exact (Hkeep "openai" "gpt-5.1-codex" eq_refl).
Defined.

Lemma dict_lookup_none {V : Type} (key : string) (d : list (string * V)) :
  Py.dict_lookup key d = None <-> ~ In key (map fst d).
Proof.
  induction d as [|[k v] d IH]; simpl.
  - split; [intros _ []|reflexivity].
  - destruct (String.eqb k key) eqn:E.
    + apply String.eqb_eq in E. split; [discriminate|]. intros H. exfalso. auto.
    + apply String.eqb_neq in E. rewrite IH. split.
      * intros H [H1|H1]; auto.
      * intros H H1. apply H. right. exact H1.
Qed.

Lemma dict_lookup_in {V : Type} (key : string) (v : V) (d : list (string * V)) :
  Py.dict_lookup key d = Some v -> In (key, v) d.
Proof.
  induction d as [|[k w] d IH]; simpl; [discriminate|].
  destruct (String.eqb k key) eqn:E.
  - apply String.eqb_eq in E. intros H. inversion H. subst. left. reflexivity.
  - intros H. right. apply IH. exact H.
Qed.

Lemma provider_map_identity (p q : string) :
  Py.dict_lookup p PiMonoAgent.provider_map = Some q -> q = p /\ In p allow_list.
Proof.
  intros H. apply dict_lookup_in in H. split.
  - unfold PiMonoAgent.provider_map in H.
    repeat (destruct H as [H|H]; [inversion H; reflexivity|]). destruct H.
  - unfold allow_list. change p with (fst (p, q)). apply in_map. exact H.
Qed.

Lemma init_unknown (model_name : option string) (kw : PiMonoAgent.kwargs)
      (provider model : string) :
  PiMonoAgent.resolve model_name kw = Ok (provider, model) ->
  Py.dict_lookup provider PiMonoAgent.provider_map = None ->
  PiMonoAgent.__init__ model_name kw
  = Raise (ValueError ("Unknown provider '" ++ provider ++ "' for pi-mono agent.")).
Proof.
  intros Hres Hout. unfold PiMonoAgent.__init__. rewrite Hres. cbn [bind].
  rewrite Hout. reflexivity.
Qed.

Lemma resolve_keyword (model_name : option string) (kw : PiMonoAgent.kwargs)
      (c : ascii) (p : string) :
  PiMonoAgent.kw_provider kw = Some (String c p) ->
  exists model, PiMonoAgent.resolve model_name kw = Ok (String c p, model).
Proof.
  intros Hkw. unfold PiMonoAgent.resolve. rewrite Hkw. cbn [Py.truthy negb Py.str_or].
  eexists. reflexivity.
Qed.

(** C5 (amended). The pi-mono constructor raises [ValueError] for every
    provider outside its allow-list, whether given by keyword or as the
    prefix of the model name, so every constructed pi-mono agent has a
    listed provider; the Factory Droid constructor has no allow-list and
    constructs an agent for every model name. *)
Theorem pi_mono_rejects_unlisted_provider :
  (forall model_name kw provider,
      PiMonoAgent.kw_provider kw = Some provider ->
      provider <> EmptyString ->
      ~ In provider allow_list ->
      PiMonoAgent.__init__ model_name kw
      = Raise (ValueError ("Unknown provider '" ++ provider ++ "' for pi-mono agent.")))
  /\ (forall kw provider model,
         Py.truthy (PiMonoAgent.kw_provider kw) = false ->
         Str.contains "/" provider = false ->
         ~ In provider allow_list ->
         PiMonoAgent.__init__ (Some (provider ++ "/" ++ model)) kw
         = Raise (ValueError ("Unknown provider '" ++ provider ++ "' for pi-mono agent.")))
  /\ (forall model_name kw agent,
         PiMonoAgent.__init__ model_name kw = Ok agent ->
         In (PiMonoAgent.provider agent) allow_list)
  /\ (forall environ model_name kw,
         exists agent, FactoryDroidAgent.__init__ environ model_name kw = Ok agent).
Proof.
  repeat split.
  - intros model_name kw provider Hkw Hne Hout.
    destruct provider as [|c p]; [contradiction|].
    apply resolve_keyword with (model_name := model_name) in Hkw.
    destruct Hkw as [model Hres].
    rewrite (init_unknown _ _ _ _ Hres); [reflexivity|].
    apply dict_lookup_none. exact Hout.
  - intros kw provider model Hkw Hslash Hout.
    rewrite (init_unknown _ _ provider model); [reflexivity| |].
    + unfold PiMonoAgent.resolve. rewrite Hkw. cbn [negb].
      change (provider ++ "/" ++ model) with (provider ++ String "/" model).
      rewrite split_once_app by exact Hslash. reflexivity.
    + apply dict_lookup_none. exact Hout.
  - intros model_name kw agent. unfold PiMonoAgent.__init__.
    destruct (PiMonoAgent.resolve model_name kw) as [[provider model]|e];
      cbn [bind]; [|discriminate].
    destruct (Py.dict_lookup provider PiMonoAgent.provider_map) as [q|] eqn:E;
      [|discriminate].
    intros H. inversion H; subst agent. cbn [PiMonoAgent.provider].
    apply provider_map_identity in E. destruct E as [-> Hin]. exact Hin.
  - intros environ model_name kw. eexists. reflexivity.
Qed.

Lemma pi_mono_rejects_unlisted_provider_witness :
  PiMonoAgent.__init__ (Some "gpt-4o")
    (PiMonoAgent.mkKwargs (Some "azure") None None None None)
  = Raise (ValueError "Unknown provider 'azure' for pi-mono agent.")
  /\ PiMonoAgent.__init__ (Some ("mistral" ++ "/" ++ "large"))
       (PiMonoAgent.mkKwargs None None None None None)
     = Raise (ValueError "Unknown provider 'mistral' for pi-mono agent.")
  /\ In "openai" allow_list.
Proof.
  destruct pi_mono_rejects_unlisted_provider as (Hkw & Hname & Hok & _).
  split; [|split].
  - apply (Hkw (Some "gpt-4o") (PiMonoAgent.mkKwargs (Some "azure") None None None None)
               "azure" eq_refl).
    + discriminate.
    + unfold allow_list. simpl. intros H.
      repeat (destruct H as [H|H]; [discriminate|]). exact H.
  - apply (Hname (PiMonoAgent.mkKwargs None None None None None) "mistral" "large"
                 eq_refl eq_refl).
    unfold allow_list. simpl. intros H.
    repeat (destruct H as [H|H]; [discriminate|]). exact H.
  - exact (Hok (Some "openai/gpt-4o") (PiMonoAgent.mkKwargs None None None None None)
               _ eq_refl).
Defined.

(** C5, as stated, fails for Factory Droid: the provider [nonesuch] is in
    no list, and the constructor returns an agent with the default model. *)
Lemma factory_droid_accepts_unlisted_provider :
  ~ In "nonesuch" allow_list
  /\ FactoryDroidAgent.__init__ (fun _ => None) (Some "nonesuch/model")
       (FactoryDroidAgent.mkKwargs None None None)
     = Ok (FactoryDroidAgent.mkAgent None "claude-sonnet-4-20250514" "medium" 1800 None).
Proof.
  split.
  - unfold allow_list. simpl. intros H.
    repeat (destruct H as [H|H]; [discriminate|]). exact H.
  - reflexivity.
Qed.

(** ** The pi-mono extractor in closed form *)

Section PiMonoExtractor.

Variable loads : string -> outcome json.
Variable repr : json -> string.

Lemma has_error_text_empty : PiMonoAgent.has_error_text EmptyString = false.
Proof. reflexivity. Qed.

Lemma take_lines_padding (n : nat) :
  exists l, PiMonoAgent.take_lines n [] None = Ok l
            /\ existsb PiMonoAgent.has_error_text l = false.
Proof.
  induction n as [|n [l [Hl He]]]; simpl.
  - exists []. split; reflexivity.
  - rewrite Hl. simpl. eexists. split; [reflexivity|]. simpl. exact He.
Qed.

Lemma take_lines_total (n : nat) (lines : list string) :
  exists l, PiMonoAgent.take_lines n lines None = Ok l
            /\ existsb PiMonoAgent.has_error_text l
               = existsb PiMonoAgent.has_error_text (firstn n lines).
Proof.
  revert lines. induction n as [|n IH]; intros lines.
  - exists []. split; reflexivity.
  - destruct lines as [|line rest].
    + destruct (take_lines_padding (S n)) as [l [Hl He]].
      exists l. split; [exact Hl|]. rewrite He. reflexivity.
    + destruct (IH rest) as [l [Hl He]]. simpl. rewrite Hl. simpl.
      eexists. split; [reflexivity|]. simpl. rewrite He. reflexivity.
Qed.

Lemma add_keeps_float (f : Float64.float) (v : json) (r : pynum) :
  Py.add (PFloat f) v = Ok r -> exists g, r = PFloat g.
Proof.
  destruct v; simpl; try discriminate.
  - intros H. inversion H. eexists. reflexivity.
  - destruct (Py.float_of_int z); simpl; [|discriminate].
    intros H. inversion H. eexists. reflexivity.
  - intros H. inversion H. eexists. reflexivity.
Qed.

Lemma add_cost_keeps_float (f : Float64.float) (usage : json) (r : pynum) :
  PiMonoAgent.add_cost (PFloat f) usage = Ok r -> exists g, r = PFloat g.
Proof.
  unfold PiMonoAgent.add_cost.
  destruct (Py.contains "cost" usage) as [[|]|]; cbn [bind]; try discriminate.
  - destruct (Py.getitem usage "cost") as [cost|]; cbn [bind]; [|discriminate].
    destruct (Py.is_dict cost).
    + destruct (Py.get cost "total" (JInt 0)); cbn [bind]; [|discriminate].
      apply add_keeps_float.
    + apply add_keeps_float.
  - intros H. inversion H. eexists. reflexivity.
Qed.

Lemma accumulate_keeps_float (acc acc' : PiMonoAgent.totals) (usage : json) :
  PiMonoAgent.accumulate acc usage = Ok acc' ->
  (exists f, PiMonoAgent.total_cost acc = PFloat f) ->
  exists g, PiMonoAgent.total_cost acc' = PFloat g.
Proof.
  unfold PiMonoAgent.accumulate. intros H [f Hf].
  repeat match type of H with
         | bind ?m _ = Ok _ =>
             let E := fresh "E" in
             destruct m eqn:E; cbn [bind] in H; [|discriminate]
         end.
  inversion H. cbn [PiMonoAgent.total_cost]. rewrite Hf in *.
  eapply add_cost_keeps_float. eassumption.
Qed.

Lemma process_event_keeps_float (acc acc' : PiMonoAgent.totals) (event : json) :
  PiMonoAgent.process_event acc event = Ok acc' ->
  (exists f, PiMonoAgent.total_cost acc = PFloat f) ->
  exists g, PiMonoAgent.total_cost acc' = PFloat g.
Proof.
  unfold PiMonoAgent.process_event. intros H Hf.
  destruct (PiMonoAgent.is_usage_event event) as [[|]|]; cbn [bind] in H;
    try discriminate.
  - destruct (Py.getitem event "message") as [message|]; cbn [bind] in H;
      [|discriminate].
    destruct (Py.getitem message "usage") as [usage|]; cbn [bind] in H;
      [|discriminate].
    eapply accumulate_keeps_float; eassumption.
  - inversion H. subst. exact Hf.
Qed.

Lemma scan_line_keeps_float (acc acc' : PiMonoAgent.totals) (line : string) :
  PiMonoAgent.scan_line loads acc line = Ok acc' ->
  (exists f, PiMonoAgent.total_cost acc = PFloat f) ->
  exists g, PiMonoAgent.total_cost acc' = PFloat g.
Proof.
  unfold PiMonoAgent.scan_line. intros H Hf.
  destruct (Str.is_empty (Str.strip line) || negb (Str.startswith "{" (Str.strip line))).
  - inversion H. subst. exact Hf.
  - destruct (loads (Str.strip line)) as [event|e]; cbn [bind] in H.
    + destruct (PiMonoAgent.process_event acc event) as [a|e] eqn:E.
      * inversion H. subst. eapply process_event_keeps_float; eassumption.
      * destruct e; try discriminate. inversion H. subst. exact Hf.
    + destruct e; try discriminate. inversion H. subst. exact Hf.
Qed.

Lemma scan_keeps_float (lines : list string) (acc acc' : PiMonoAgent.totals) :
  PiMonoAgent.scan loads acc lines = Ok acc' ->
  (exists f, PiMonoAgent.total_cost acc = PFloat f) ->
  exists g, PiMonoAgent.total_cost acc' = PFloat g.
Proof.
  revert acc. induction lines as [|line rest IH]; intros acc H Hf; simpl in H.
  - inversion H. subst. exact Hf.
  - destruct (PiMonoAgent.scan_line loads acc line) as [a|e] eqn:E; cbn [bind] in H;
      [|discriminate].
    eapply IH; [exact H|]. eapply scan_line_keeps_float; eassumption.
Qed.

(** What follows a successful scan never raises and overwrites every
    attribute of the context. *)
Lemma report_closed_form (self : PiMonoAgent.t) (fs : logs) (file : string)
      (lines : list string) (acc : PiMonoAgent.totals) (ctx : AgentContext) :
  Fs.iter_lines fs file = Ok (lines, None) ->
  (exists f, PiMonoAgent.total_cost acc = PFloat f) ->
  PiMonoAgent.report loads repr self fs file acc ctx
  = (pi_record loads repr self lines acc, Ok tt).
Proof.
  intros Hiter [f Hf].
  destruct (take_lines_total 20 lines) as [l [Hl He]].
  unfold PiMonoAgent.report, PiMonoAgent.fallback, PiMonoAgent.first_lines,
    PiMonoAgent.readlines, pi_record, no_counts.
  unfold Act.bind, Act.assign, Act.lift, Act.read, Act.ret.
  rewrite Hiter. cbn [bind fst snd]. rewrite Hl.
  destruct (Py.is_zero (PiMonoAgent.total_input_tokens acc)
            && Py.is_zero (PiMonoAgent.total_output_tokens acc)).
  - cbn. rewrite He. reflexivity.
  - cbn. rewrite Hf, He. reflexivity.
Qed.

Lemma populate_missing (self : PiMonoAgent.t) (fs : logs) (ctx : AgentContext) :
  fs (PiMonoAgent.locate fs) = Missing ->
  PiMonoAgent.populate_context_post_run loads repr self fs ctx
  = (set_metadata (PiMonoAgent.error_metadata self (MStr "No output file found")) ctx,
     Ok tt).
Proof.
  intros H. unfold PiMonoAgent.populate_context_post_run, Fs.exists_ at 1.
  rewrite H. reflexivity.
Qed.

Lemma populate_text (self : PiMonoAgent.t) (fs : logs) (ctx : AgentContext)
      (content : string) :
  fs (PiMonoAgent.locate fs) = Text content ->
  PiMonoAgent.populate_context_post_run loads repr self fs ctx
  = match PiMonoAgent.scan loads PiMonoAgent.initial_totals (Str.readlines content) with
    | Ok acc => (pi_record loads repr self (Str.readlines content) acc, Ok tt)
    | Raise e => (pi_error_record self e ctx, Ok tt)
    end.
Proof.
  intros H. unfold PiMonoAgent.populate_context_post_run, Fs.exists_ at 1.
  rewrite H. cbn [negb]. unfold Act.try_except, PiMonoAgent.parse, Act.bind, Act.lift.
  unfold PiMonoAgent.scan_file, Fs.iter_lines at 1. rewrite H. cbn [bind fst snd].
  destruct (PiMonoAgent.scan loads PiMonoAgent.initial_totals (Str.readlines content))
    as [acc|e] eqn:E; cbn [bind]; [|reflexivity].
  rewrite (report_closed_form self fs _ (Str.readlines content)).
  - reflexivity.
  - unfold Fs.iter_lines. rewrite H. reflexivity.
  - eapply scan_keeps_float; [exact E|]. eexists. reflexivity.
Qed.

Lemma populate_broken (self : PiMonoAgent.t) (fs : logs) (ctx : AgentContext)
      (prefix : string) (e : exn) :
  fs (PiMonoAgent.locate fs) = Broken prefix e ->
  PiMonoAgent.populate_context_post_run loads repr self fs ctx
  = match PiMonoAgent.scan loads PiMonoAgent.initial_totals (Str.readlines prefix) with
    | Ok _ => (pi_error_record self e ctx, Ok tt)
    | Raise e' => (pi_error_record self e' ctx, Ok tt)
    end.
Proof.
  intros H. unfold PiMonoAgent.populate_context_post_run, Fs.exists_ at 1.
  rewrite H. cbn [negb]. unfold Act.try_except, PiMonoAgent.parse, Act.bind, Act.lift.
  unfold PiMonoAgent.scan_file, Fs.iter_lines at 1. rewrite H. cbn [bind fst snd].
  destruct (PiMonoAgent.scan loads PiMonoAgent.initial_totals (Str.readlines prefix));
    reflexivity.
Qed.

End PiMonoExtractor.

(** ** The Factory Droid extractor in closed form *)

Lemma droid_parse_text (self : FactoryDroidAgent.t) (fs : logs) (file content : string)
      (ctx : AgentContext) :
  fs file = Text content ->
  FactoryDroidAgent.parse self fs file ctx = (droid_record self content ctx, Ok tt).
Proof.
  intros H. unfold FactoryDroidAgent.parse, Act.bind, Act.lift, Act.assign, Fs.read.
  rewrite H. reflexivity.
Qed.

Lemma droid_parse_broken (self : FactoryDroidAgent.t) (fs : logs) (file prefix : string)
      (e : exn) (ctx : AgentContext) :
  fs file = Broken prefix e ->
  FactoryDroidAgent.parse self fs file ctx = (ctx, Raise e).
Proof.
  intros H. unfold FactoryDroidAgent.parse, Act.bind, Act.lift, Fs.read.
  rewrite H. reflexivity.
Qed.

Lemma droid_skips_absent_outputs (self : FactoryDroidAgent.t) (fs : logs)
      (before rest : list string) (ctx : AgentContext) :
  Forall (no_sample fs) before ->
  FactoryDroidAgent.check_command_outputs self fs (before ++ rest)%list ctx
  = FactoryDroidAgent.check_command_outputs self fs rest ctx.
Proof.
  induction 1 as [|path before [Hp|Hp] _ IH]; [reflexivity| |]; simpl.
  - unfold Fs.exists_. rewrite Hp. exact IH.
  - unfold Fs.exists_, Act.bind, Act.lift, Fs.read. rewrite Hp. exact IH.
Qed.

(** ** Error handling of the extractors *)

(** C2 (amended). When the transcript is absent, the pi-mono extractor
    returns with the error marker [No output file found]; the Factory Droid
    extractor returns with the error marker [No main output file] and a
    sample when one of the five command outputs has text and those before
    it are absent or empty, and returns the context unchanged when all five
    are absent or empty. *)
Theorem absent_transcript_is_reported :
  (forall loads repr self fs ctx,
      Fs.exists_ fs "pi_output.log" = false ->
      Fs.exists_ fs "command-1/pi_output.log" = false ->
      PiMonoAgent.populate_context_post_run loads repr self fs ctx
      = (set_metadata (PiMonoAgent.error_metadata self (MStr "No output file found")) ctx,
         Ok tt))
  /\ (forall self fs ctx before path after content,
         Fs.exists_ fs FactoryDroidAgent.output_file = false ->
         FactoryDroidAgent.command_output_paths = (before ++ path :: after)%list ->
         Forall (no_sample fs) before ->
         fs path = Text content ->
         content <> EmptyString ->
         FactoryDroidAgent.populate_context_post_run self fs ctx
         = (set_metadata (droid_sample_metadata self content) ctx, Ok tt))
  /\ (forall self fs ctx,
         Fs.exists_ fs FactoryDroidAgent.output_file = false ->
         Forall (no_sample fs) FactoryDroidAgent.command_output_paths ->
         FactoryDroidAgent.populate_context_post_run self fs ctx = (ctx, Ok tt)).
Proof.
  repeat split.
  - intros loads repr self fs ctx H1 H2. apply populate_missing.
    unfold PiMonoAgent.locate. rewrite H1.
    unfold Fs.exists_ in H2.
    destruct (fs "command-1/pi_output.log"); [reflexivity|discriminate|discriminate].
  - intros self fs ctx before path after content Hmiss Hpaths Hbefore Hpath Hne.
    unfold FactoryDroidAgent.populate_context_post_run. rewrite Hmiss, Hpaths.
    rewrite droid_skips_absent_outputs by exact Hbefore.
    simpl. unfold Fs.exists_, Act.bind, Act.lift, Fs.read. rewrite Hpath.
    destruct content as [|c content]; [contradiction|]. reflexivity.
  - intros self fs ctx Hmiss Hall.
    unfold FactoryDroidAgent.populate_context_post_run. rewrite Hmiss.
    rewrite <- (app_nil_r FactoryDroidAgent.command_output_paths).
    rewrite droid_skips_absent_outputs by exact Hall. reflexivity.
Qed.

Lemma absent_transcript_is_reported_witness :
  PiMonoAgent.populate_context_post_run Json.loads Repr.of_json
    (PiMonoAgent.mkAgent "openai" (Some "gpt-4o") "json" false 1800)
    (fun _ => Missing) empty_context
  = (mkContext None None None None
       (Some [ ("error", MStr "No output file found");
               ("provider", MStr "openai");
               ("model", MStr "gpt-4o") ]),
     Ok tt)
  /\ FactoryDroidAgent.populate_context_post_run
       (FactoryDroidAgent.mkAgent None "gpt-5-codex" "medium" 1800 None)
       (fun path => if String.eqb path "command-1/stdout.txt" then Text "Auth file found"
                    else Missing)
       empty_context
     = (mkContext None None None None
          (Some [ ("error", MStr "No main output file");
                  ("command_output_sample", MStr "Auth file found");
                  ("droid_model", MStr "gpt-5-codex") ]),
        Ok tt)
  /\ FactoryDroidAgent.populate_context_post_run
       (FactoryDroidAgent.mkAgent None "gpt-5-codex" "medium" 1800 None)
       (fun path => if String.eqb path "command-0/stdout.txt" then Text EmptyString
                    else Missing)
       empty_context
     = (empty_context, Ok tt).
Proof.
  destruct absent_transcript_is_reported as (Hpi & Hsample & Hnone).
  split; [|split].
  - exact (Hpi Json.loads Repr.of_json
               (PiMonoAgent.mkAgent "openai" (Some "gpt-4o") "json" false 1800)
               (fun _ => Missing) empty_context eq_refl eq_refl).
  - apply (Hsample (FactoryDroidAgent.mkAgent None "gpt-5-codex" "medium" 1800 None)
                   _ empty_context ["command-0/stdout.txt"] "command-1/stdout.txt"
                   ["command-2/stdout.txt"; "command-3/stdout.txt"; "command-4/stdout.txt"]
                   "Auth file found").
    + reflexivity.
    + reflexivity.
    + constructor; [left; reflexivity|constructor].
    + reflexivity.
    + discriminate.
  - apply (Hnone (FactoryDroidAgent.mkAgent None "gpt-5-codex" "medium" 1800 None)
                 _ empty_context).
    + reflexivity.
    + repeat constructor; (left; reflexivity) || (right; reflexivity).
Defined.

(** C2, as stated, fails for Factory Droid: with an empty log directory
    the extractor returns the context as it was, without error marker; and
    with an unreadable command output it raises. *)
Lemma factory_droid_absent_transcript_unreported :
  FactoryDroidAgent.populate_context_post_run
    (FactoryDroidAgent.mkAgent None "claude-sonnet-4-20250514" "medium" 1800 None)
    (fun _ => Missing) empty_context
  = (empty_context, Ok tt)
  /\ has_error_marker empty_context = false
  /\ FactoryDroidAgent.populate_context_post_run
       (FactoryDroidAgent.mkAgent None "claude-sonnet-4-20250514" "medium" 1800 None)
       (fun path => if String.eqb path "command-0/stdout.txt"
                    then Broken EmptyString UnicodeDecodeError else Missing)
       empty_context
     = (empty_context, Raise UnicodeDecodeError).
Proof. repeat split. Qed.

Lemma pi_parse_raise_keeps_context (loads : string -> outcome json)
      (repr : json -> string) (self : PiMonoAgent.t) (fs : logs) (file : string)
      (ctx mid : AgentContext) (e : exn) :
  PiMonoAgent.parse loads repr self fs file ctx = (mid, Raise e) -> mid = ctx.
Proof.
  unfold PiMonoAgent.parse, Act.bind, Act.lift, PiMonoAgent.scan_file.
  destruct (Fs.iter_lines fs file) as [[lines err]|e0] eqn:Hiter; cbn [bind fst snd].
  - destruct (PiMonoAgent.scan loads PiMonoAgent.initial_totals lines) as [acc|e1] eqn:E;
      cbn [bind].
    + destruct err as [e2|].
      * intros H. inversion H. reflexivity.
      * rewrite (report_closed_form loads repr self fs file lines).
        -- discriminate.
        -- exact Hiter.
        -- eapply scan_keeps_float; [exact E|]. eexists. reflexivity.
    + intros H. inversion H. reflexivity.
  - intros H. inversion H. reflexivity.
Qed.

Lemma droid_parse_raise_keeps_context (self : FactoryDroidAgent.t) (fs : logs)
      (file : string) (ctx mid : AgentContext) (e : exn) :
  FactoryDroidAgent.parse self fs file ctx = (mid, Raise e) -> mid = ctx.
Proof.
  unfold FactoryDroidAgent.parse, Act.bind, Act.lift, Act.assign.
  destruct (Fs.read fs file); cbn.
  - discriminate.
  - intros H. inversion H. reflexivity.
Qed.

(** X22. The pi-mono extractor returns to its caller without an exception
    for every log directory, whether the transcript is absent, readable or
    not readable to its end.  The Factory Droid extractor does so whenever
    its transcript exists.  In both, an exception raised inside the [try]
    block is turned into a record that differs from the incoming context in
    its metadata only, which holds the error. *)
Theorem extractor_never_raises (loads : string -> outcome json) (repr : json -> string) :
  (forall self fs ctx,
      exists ctx',
        PiMonoAgent.populate_context_post_run loads repr self fs ctx = (ctx', Ok tt))
  /\ (forall self fs ctx mid e,
         Fs.exists_ fs (PiMonoAgent.locate fs) = true ->
         PiMonoAgent.parse loads repr self fs (PiMonoAgent.locate fs) ctx = (mid, Raise e) ->
         PiMonoAgent.populate_context_post_run loads repr self fs ctx
         = (pi_error_record self e ctx, Ok tt))
  /\ (forall self fs ctx,
         Fs.exists_ fs FactoryDroidAgent.output_file = true ->
         exists ctx',
           FactoryDroidAgent.populate_context_post_run self fs ctx = (ctx', Ok tt))
  /\ (forall self fs ctx mid e,
         Fs.exists_ fs FactoryDroidAgent.output_file = true ->
         FactoryDroidAgent.parse self fs FactoryDroidAgent.output_file ctx = (mid, Raise e) ->
         FactoryDroidAgent.populate_context_post_run self fs ctx
         = (droid_error_record self e ctx, Ok tt)).
Proof.
  repeat split.
  - intros self fs ctx.
    destruct (fs (PiMonoAgent.locate fs)) as [|content|prefix e] eqn:H.
    + rewrite (populate_missing loads repr self fs ctx H). eexists. reflexivity.
    + rewrite (populate_text loads repr self fs ctx content H).
      destruct (PiMonoAgent.scan loads PiMonoAgent.initial_totals (Str.readlines content));
        eexists; reflexivity.
    + rewrite (populate_broken loads repr self fs ctx prefix e H).
      destruct (PiMonoAgent.scan loads PiMonoAgent.initial_totals (Str.readlines prefix));
        eexists; reflexivity.
  - intros self fs ctx mid e Hex Hparse.
    pose proof (pi_parse_raise_keeps_context _ _ _ _ _ _ _ _ Hparse) as Hmid. subst mid.
    unfold PiMonoAgent.populate_context_post_run. rewrite Hex. cbn [negb].
    unfold Act.try_except. rewrite Hparse. reflexivity.
  - intros self fs ctx Hex. unfold FactoryDroidAgent.populate_context_post_run.
    rewrite Hex. unfold Act.try_except.
    destruct (FactoryDroidAgent.parse self fs FactoryDroidAgent.output_file ctx)
      as [mid [[]|e]]; eexists; reflexivity.
  - intros self fs ctx mid e Hex Hparse.
    pose proof (droid_parse_raise_keeps_context _ _ _ _ _ _ Hparse) as Hmid. subst mid.
    unfold FactoryDroidAgent.populate_context_post_run. rewrite Hex.
    unfold Act.try_except. rewrite Hparse. reflexivity.
Qed.

Lemma extractor_never_raises_witness :
  PiMonoAgent.populate_context_post_run Json.loads Repr.of_json sample_pi
    (single_file "pi_output.log"
       (Text (json_text "{`type`:`message_end`,`message`:null}")))
    empty_context
  = (mkContext None None None None
       (Some [ ("error", MExnText AttributeError);
               ("provider", MStr "openai");
               ("model", MStr "gpt-4o") ]),
     Ok tt)
  /\ FactoryDroidAgent.populate_context_post_run sample_droid
       (single_file "command-2/droid_output.log" (Broken "partial" UnicodeDecodeError))
       empty_context
     = (mkContext None None None None
          (Some [ ("error", MExnText UnicodeDecodeError);
                  ("droid_model", MStr "gpt-5-codex") ]),
        Ok tt).
Proof.
  destruct (extractor_never_raises Json.loads Repr.of_json) as (_ & Hpi & _ & Hdroid).
  split.
  - exact (Hpi sample_pi
               (single_file "pi_output.log"
                  (Text (json_text "{`type`:`message_end`,`message`:null}")))
               empty_context empty_context AttributeError eq_refl eq_refl).
  - exact (Hdroid sample_droid
                  (single_file "command-2/droid_output.log"
                     (Broken "partial" UnicodeDecodeError))
                  empty_context empty_context UnicodeDecodeError eq_refl eq_refl).
Defined.

(** C1. The claim fails on the Factory Droid extractor.  When the
    transcript is absent it reads the outputs of the commands outside any
    [try]: the first of them that exists, after outputs that are absent or
    empty, is read, and when this reading raises, the exception reaches the
    caller and the context is left as it was.  The same file in the place
    of the transcript is read inside the [try], and its exception becomes
    an error record. *)
Theorem unreadable_command_output_reaches_caller
        (self : FactoryDroidAgent.t) (fs : logs) (ctx : AgentContext)
        (before rest : list string) (path prefix : string) (e : exn) :
  fs FactoryDroidAgent.output_file = Missing ->
  FactoryDroidAgent.command_output_paths = (before ++ path :: rest)%list ->
  Forall (no_sample fs) before ->
  fs path = Broken prefix e ->
  FactoryDroidAgent.populate_context_post_run self fs ctx = (ctx, Raise e)
  /\ FactoryDroidAgent.populate_context_post_run self
       (single_file FactoryDroidAgent.output_file (Broken prefix e)) ctx
     = (droid_error_record self e ctx, Ok tt).
Proof.
  intros Habsent Hpaths Hbefore Hpath. split.
  - unfold FactoryDroidAgent.populate_context_post_run, Fs.exists_.
    rewrite Habsent, Hpaths, (droid_skips_absent_outputs self fs before _ ctx Hbefore).
    cbn [FactoryDroidAgent.check_command_outputs].
    unfold Fs.exists_, Act.bind, Act.lift, Fs.read. rewrite Hpath. reflexivity.
  - assert (Hfile : single_file FactoryDroidAgent.output_file (Broken prefix e)
                      FactoryDroidAgent.output_file = Broken prefix e).
    { unfold single_file. rewrite String.eqb_refl. reflexivity. }
    unfold FactoryDroidAgent.populate_context_post_run, Fs.exists_. rewrite Hfile.
    unfold Act.try_except.
    rewrite (droid_parse_broken self _ _ prefix e ctx Hfile). reflexivity.
Qed.

Lemma unreadable_command_output_reaches_caller_witness :
  FactoryDroidAgent.populate_context_post_run sample_droid
    (single_file "command-3/stdout.txt" (Broken "total 8" UnicodeDecodeError))
    empty_context
  = (empty_context, Raise UnicodeDecodeError)
  /\ FactoryDroidAgent.populate_context_post_run sample_droid
       (single_file FactoryDroidAgent.output_file (Broken "total 8" UnicodeDecodeError))
       empty_context
     = (droid_error_record sample_droid UnicodeDecodeError empty_context, Ok tt).
Proof.
  apply (unreadable_command_output_reaches_caller sample_droid
           (single_file "command-3/stdout.txt" (Broken "total 8" UnicodeDecodeError))
           empty_context
           ["command-0/stdout.txt"; "command-1/stdout.txt"; "command-2/stdout.txt"]
           ["command-4/stdout.txt"] "command-3/stdout.txt" "total 8" UnicodeDecodeError).
  - reflexivity.
  - reflexivity.
  - repeat constructor; left; reflexivity.
  - reflexivity.
Defined.

(** ** The scan of the pi-mono extractor, line by line *)

(** The operations on decoded values never raise a decoding error. *)

Lemma get_no_decode_error (v : json) (key : string) (default : json) (e : exn) :
  Py.get v key default = Raise e -> e <> JSONDecodeError.
Proof.
  destruct v; simpl; try (intros H; inversion H; discriminate).
  destruct (Py.dict_lookup key d); discriminate.
Qed.

Lemma contains_no_decode_error (key : string) (v : json) (e : exn) :
  Py.contains key v = Raise e -> e <> JSONDecodeError.
Proof. destruct v; simpl; intros H; inversion H; discriminate. Qed.

Lemma getitem_no_decode_error (v : json) (key : string) (e : exn) :
  Py.getitem v key = Raise e -> e <> JSONDecodeError.
Proof.
  destruct v; simpl; try (intros H; inversion H; discriminate).
  destruct (Py.dict_lookup key d); intros H; inversion H; discriminate.
Qed.

Lemma add_no_decode_error (t : pynum) (v : json) (e : exn) :
  Py.add t v = Raise e -> e <> JSONDecodeError.
Proof.
  unfold Py.add, Py.float_of_int.
  destruct t, v; simpl; try (intros H; inversion H; discriminate).
  - destruct (Float64.is_finite (Float64.of_Z z)); simpl; intros H; inversion H;
      discriminate.
  - destruct (Float64.is_finite (Float64.of_Z z)); simpl; intros H; inversion H;
      discriminate.
Qed.

Lemma bind_raise {A B : Type} (m : outcome A) (k : A -> outcome B) (e : exn) :
  bind m k = Raise e -> m = Raise e \/ exists a, m = Ok a /\ k a = Raise e.
Proof.
  destruct m as [a|e0]; simpl; intros H.
  - right. exists a. split; [reflexivity|exact H].
  - left. inversion H. reflexivity.
Qed.

Lemma bind_ok {A B : Type} (m : outcome A) (k : A -> outcome B) (b : B) :
  bind m k = Ok b -> exists a, m = Ok a /\ k a = Ok b.
Proof.
  destruct m as [a|e0]; simpl; intros H; [|discriminate].
  exists a. split; [reflexivity|exact H].
Qed.

Lemma add_cost_no_decode_error (t : pynum) (usage : json) (e : exn) :
  PiMonoAgent.add_cost t usage = Raise e -> e <> JSONDecodeError.
Proof.
  unfold PiMonoAgent.add_cost. intros H.
  apply bind_raise in H. destruct H as [H|[b [_ H]]];
    [eapply contains_no_decode_error; exact H|].
  destruct b; [|discriminate].
  apply bind_raise in H. destruct H as [H|[c [_ H]]];
    [eapply getitem_no_decode_error; exact H|].
  destruct (Py.is_dict c).
  - apply bind_raise in H. destruct H as [H|[x [_ H]]];
      [eapply get_no_decode_error; exact H|eapply add_no_decode_error; exact H].
  - eapply add_no_decode_error; exact H.
Qed.

Lemma accumulate_no_decode_error (acc : PiMonoAgent.totals) (usage : json) (e : exn) :
  PiMonoAgent.accumulate acc usage = Raise e -> e <> JSONDecodeError.
Proof.
  unfold PiMonoAgent.accumulate. intros H.
  repeat (apply bind_raise in H;
          destruct H as [H|[? [_ H]]];
          [first [eapply get_no_decode_error; exact H
                 |eapply add_no_decode_error; exact H
                 |eapply add_cost_no_decode_error; exact H]|]).
  discriminate.
Qed.

Lemma is_usage_event_no_decode_error (event : json) (e : exn) :
  PiMonoAgent.is_usage_event event = Raise e -> e <> JSONDecodeError.
Proof.
  unfold PiMonoAgent.is_usage_event. intros H.
  apply bind_raise in H. destruct H as [H|[ty [_ H]]];
    [eapply get_no_decode_error; exact H|].
  destruct (negb (Py.eq_str ty "message_end")); [discriminate|].
  apply bind_raise in H. destruct H as [H|[b [_ H]]];
    [eapply contains_no_decode_error; exact H|].
  destruct (negb b); [discriminate|].
  apply bind_raise in H. destruct H as [H|[message [_ H]]];
    [eapply getitem_no_decode_error; exact H|].
  apply bind_raise in H. destruct H as [H|[role [_ H]]];
    [eapply get_no_decode_error; exact H|].
  destruct (negb (Py.eq_str role "assistant")); [discriminate|].
  eapply contains_no_decode_error; exact H.
Qed.

(** Only [json.loads] raises the decoding error that the inner handler
    catches. *)
Lemma process_event_no_decode_error (acc : PiMonoAgent.totals) (event : json) (e : exn) :
  PiMonoAgent.process_event acc event = Raise e -> e <> JSONDecodeError.
Proof.
  unfold PiMonoAgent.process_event. intros H.
  apply bind_raise in H. destruct H as [H|[b [_ H]]];
    [eapply is_usage_event_no_decode_error; exact H|].
  destruct b; [|discriminate].
  apply bind_raise in H. destruct H as [H|[message [_ H]]];
    [eapply getitem_no_decode_error; exact H|].
  apply bind_raise in H. destruct H as [H|[usage [_ H]]];
    [eapply getitem_no_decode_error; exact H|].
  eapply accumulate_no_decode_error; exact H.
Qed.

(** One step of the scan, by the kind of the line. *)
Lemma scan_line_by_kind (loads : string -> outcome json) (acc : PiMonoAgent.totals)
      (line : string) :
  PiMonoAgent.scan_line loads acc line
  = match classify loads line with
    | Skipped | Undecodable | OtherEvent => Ok acc
    | UsageEvent usage => PiMonoAgent.accumulate acc usage
    | Faulty e => Raise e
    end.
Proof.
  unfold PiMonoAgent.scan_line, classify.
  destruct (Str.is_empty (Str.strip line) || negb (Str.startswith "{" (Str.strip line)));
    [reflexivity|].
  destruct (loads (Str.strip line)) as [event|e]; cbn [bind].
  - unfold PiMonoAgent.process_event.
    destruct (PiMonoAgent.is_usage_event event) as [[|]|e] eqn:Hsel; cbn [bind].
    + destruct (Py.getitem event "message") as [message|e] eqn:Hm; cbn [bind].
      * destruct (Py.getitem message "usage") as [usage|e] eqn:Hu; cbn [bind].
        -- destruct (PiMonoAgent.accumulate acc usage) as [a|e] eqn:Hacc; [reflexivity|].
           apply accumulate_no_decode_error in Hacc. destruct e; congruence.
        -- apply getitem_no_decode_error in Hu. destruct e; congruence.
      * apply getitem_no_decode_error in Hm. destruct e; congruence.
    + reflexivity.
    + apply is_usage_event_no_decode_error in Hsel. destruct e; congruence.
  - destruct e; reflexivity.
Qed.

Lemma get_field (usage : json) (key : string) (v : json) :
  Py.get usage key (JInt 0) = Ok v -> v = field key usage /\ exists d, usage = JDict d.
Proof.
  destruct usage; simpl; try discriminate.
  destruct (Py.dict_lookup key d); intros H; inversion H; split;
    try reflexivity; eexists; reflexivity.
Qed.

Lemma add_cost_amount (t t' : pynum) (d : list (string * json)) :
  PiMonoAgent.add_cost t (JDict d) = Ok t' ->
  sum_values t (map cost_amount (cost_fields [JDict d])) = Ok t'.
Proof.
  unfold PiMonoAgent.add_cost. cbn [Py.contains Py.getitem bind cost_fields].
  unfold Py.dict_mem. destruct (Py.dict_lookup "cost" d) as [c|]; cbn [bind map].
  - destruct c; cbn [Py.is_dict cost_amount sum_values]; intros H;
      try (rewrite H; reflexivity).
    cbn [Py.get] in H. destruct (Py.dict_lookup "total" d0); cbn [bind] in H;
      rewrite H; reflexivity.
  - intros H. exact H.
Qed.

(** What one usage object adds to each total. *)
Lemma accumulate_fields (acc acc' : PiMonoAgent.totals) (usage : json) :
  PiMonoAgent.accumulate acc usage = Ok acc' ->
  Py.add (PiMonoAgent.total_input_tokens acc) (field "input" usage)
  = Ok (PiMonoAgent.total_input_tokens acc')
  /\ Py.add (PiMonoAgent.total_output_tokens acc) (field "output" usage)
     = Ok (PiMonoAgent.total_output_tokens acc')
  /\ Py.add (PiMonoAgent.total_cache_read_tokens acc) (field "cacheRead" usage)
     = Ok (PiMonoAgent.total_cache_read_tokens acc')
  /\ sum_values (PiMonoAgent.total_cost acc) (map cost_amount (cost_fields [usage]))
     = Ok (PiMonoAgent.total_cost acc').
Proof.
  unfold PiMonoAgent.accumulate. intros H.
  apply bind_ok in H. destruct H as [input [Hi H]].
  apply bind_ok in H. destruct H as [ti [Hti H]].
  apply bind_ok in H. destruct H as [output [Ho H]].
  apply bind_ok in H. destruct H as [to [Hto H]].
  apply bind_ok in H. destruct H as [cache_read [Hr H]].
  apply bind_ok in H. destruct H as [tr [Htr H]].
  apply bind_ok in H. destruct H as [cache_write [Hw H]].
  apply bind_ok in H. destruct H as [tw [Htw H]].
  apply bind_ok in H. destruct H as [tc [Htc H]].
  inversion H. subst acc'. cbn.
  apply get_field in Hi. destruct Hi as [-> [d ->]].
  apply get_field in Ho. destruct Ho as [-> _].
  apply get_field in Hr. destruct Hr as [-> _].
  repeat split; try assumption.
  apply add_cost_amount. exact Htc.
Qed.

Lemma sum_values_app (start : pynum) (a b : list json) :
  sum_values start (a ++ b)%list = (t <- sum_values start a ;; sum_values t b).
Proof.
  revert start. induction a as [|v a IH]; intros start; simpl; [reflexivity|].
  destruct (Py.add start v); cbn [bind]; [apply IH|reflexivity].
Qed.

Lemma cost_fields_cons (usage : json) (rest : list json) :
  cost_fields (usage :: rest) = (cost_fields [usage] ++ cost_fields rest)%list.
Proof.
  destruct usage; try reflexivity. simpl.
  destruct (Py.dict_lookup "cost" d); reflexivity.
Qed.

(** A scan that completes has summed, over the usage events in order, the
    input, output and cache-read fields and the amounts of the cost
    fields. *)
Lemma scan_sums (loads : string -> outcome json) (lines : list string)
      (acc acc' : PiMonoAgent.totals) :
  PiMonoAgent.scan loads acc lines = Ok acc' ->
  sum_values (PiMonoAgent.total_input_tokens acc)
             (map (field "input") (usage_events loads lines))
  = Ok (PiMonoAgent.total_input_tokens acc')
  /\ sum_values (PiMonoAgent.total_output_tokens acc)
                (map (field "output") (usage_events loads lines))
     = Ok (PiMonoAgent.total_output_tokens acc')
  /\ sum_values (PiMonoAgent.total_cache_read_tokens acc)
                (map (field "cacheRead") (usage_events loads lines))
     = Ok (PiMonoAgent.total_cache_read_tokens acc')
  /\ sum_values (PiMonoAgent.total_cost acc)
                (map cost_amount (cost_fields (usage_events loads lines)))
     = Ok (PiMonoAgent.total_cost acc').
Proof.
  revert acc. induction lines as [|line rest IH]; intros acc H.
  - simpl in H. inversion H. subst. repeat split; reflexivity.
  - cbn [PiMonoAgent.scan] in H. apply bind_ok in H. destruct H as [mid [Hline Hrest]].
    rewrite scan_line_by_kind in Hline. cbn [usage_events].
    destruct (classify loads line) as [| | |usage|e];
      try (inversion Hline; subst mid; apply IH; exact Hrest).
    apply accumulate_fields in Hline. destruct Hline as (Hi & Ho & Hr & Hc).
    destruct (IH mid Hrest) as (Hi' & Ho' & Hr' & Hc').
    cbn [map sum_values]. rewrite Hi, Ho, Hr. cbn [bind].
    repeat split; try assumption.
    rewrite cost_fields_cons, map_app, sum_values_app, Hc. exact Hc'.
Qed.

(** A scan over plain lines leaves the totals as they were. *)
Lemma scan_plain (loads : string -> outcome json) (lines : list string)
      (acc : PiMonoAgent.totals) :
  forallb (plain loads) lines = true ->
  PiMonoAgent.scan loads acc lines = Ok acc.
Proof.
  induction lines as [|line rest IH]; simpl; [reflexivity|].
  intros H. apply andb_prop in H. destruct H as [Hline Hrest].
  rewrite scan_line_by_kind. unfold plain in Hline.
  destruct (classify loads line); try discriminate; cbn [bind]; apply IH; exact Hrest.
Qed.

(** ** What the pi-mono extractor reports *)

Lemma report_ignores_cache_write (loads : string -> outcome json) (repr : json -> string)
      (self : PiMonoAgent.t) (fs : logs) (file : string) (acc : PiMonoAgent.totals)
      (w : pynum) :
  PiMonoAgent.report loads repr self fs file (with_cache_write w acc)
  = PiMonoAgent.report loads repr self fs file acc.
Proof. destruct acc. reflexivity. Qed.



Lemma no_error_text (lines : list string) :
  existsb PiMonoAgent.has_error_text lines = false
  <-> forall line, In line lines ->
        Str.contains "error" (Str.lower line) = false
        /\ Str.contains "failed" (Str.lower line) = false.
Proof.
  induction lines as [|l lines IH]; simpl.
  - split; [intros _ line []|reflexivity].
  - rewrite orb_false_iff, IH. unfold PiMonoAgent.has_error_text.
    rewrite orb_false_iff. split.
    + intros [Hl Hrest] line [<-|Hin]; [exact Hl|apply Hrest; exact Hin].
    + intros H. split; [apply H; left; reflexivity|].
      intros line Hin. apply H. right. exact Hin.
Qed.

(** C6 (amended). For every transcript whose scan completes, the pi-mono
    extractor sets the success flag from the first 20 lines alone: the flag
    is true exactly when none of them contains [error] or [failed] in any
    letter case and the output-token total of the scan is positive.  The
    Factory Droid extractor sets the flag exactly when the transcript
    contains the text [Factory Droid Session Complete]. *)
Theorem success_flag_of_each_agent :
  (forall loads repr self fs ctx content acc,
      fs (PiMonoAgent.locate fs) = Text content ->
      PiMonoAgent.scan loads PiMonoAgent.initial_totals (Str.readlines content) = Ok acc ->
      exists m flag,
        metadata (fst (PiMonoAgent.populate_context_post_run loads repr self fs ctx))
        = Some m
        /\ Py.dict_lookup "success" m = Some (MBool flag)
        /\ (flag = true <->
            (forall line, In line (firstn 20 (Str.readlines content)) ->
                Str.contains "error" (Str.lower line) = false
                /\ Str.contains "failed" (Str.lower line) = false)
            /\ Py.is_positive (PiMonoAgent.total_output_tokens acc) = true))
  /\ (forall self fs ctx content,
         fs FactoryDroidAgent.output_file = Text content ->
         exists m,
           metadata (fst (FactoryDroidAgent.populate_context_post_run self fs ctx))
           = Some m
           /\ Py.dict_lookup "success" m
              = Some (MBool (Str.contains "Factory Droid Session Complete" content))).
Proof.
  split.
  - intros loads repr self fs ctx content acc Hfile Hscan.
    rewrite (populate_text loads repr self fs ctx content Hfile), Hscan.
    eexists. eexists. split; [|split].
    + unfold pi_record. destruct (no_counts acc); reflexivity.
    + reflexivity.
    + rewrite andb_true_iff, negb_true_iff, no_error_text. reflexivity.
  - intros self fs ctx content Hfile.
    unfold FactoryDroidAgent.populate_context_post_run, Fs.exists_. rewrite Hfile.
    unfold Act.try_except. rewrite (droid_parse_text self fs _ content ctx Hfile).
    eexists. split; reflexivity.
Qed.

Lemma success_flag_of_each_agent_witness :
  (exists m flag,
      metadata
        (fst (PiMonoAgent.populate_context_post_run Json.loads Repr.of_json sample_pi
                (pi_logs
                   [ "{`type`:`message_end`,`message`:{`role`:`assistant`,`usage`:{`input`:10,`output`:4}}}" ])
                empty_context))
      = Some m
      /\ Py.dict_lookup "success" m = Some (MBool flag))
  /\ (exists m,
         metadata
           (fst (FactoryDroidAgent.populate_context_post_run sample_droid
                   (single_file "command-2/droid_output.log" (Text "all good"))
                   empty_context))
         = Some m
         /\ Py.dict_lookup "success" m = Some (MBool false)).
Proof.
  destruct success_flag_of_each_agent as [Hpi Hdroid]. split.
  - destruct (Hpi Json.loads Repr.of_json sample_pi
                (pi_logs
                   [ "{`type`:`message_end`,`message`:{`role`:`assistant`,`usage`:{`input`:10,`output`:4}}}" ])
                empty_context _
                (PiMonoAgent.mkTotals (PInt 10) (PInt 4) (PInt 0) (PInt 0)
                   (PFloat Float64.zero))
                eq_refl) as [m [flag [Hm [Hflag _]]]].
    + vm_compute. reflexivity.
    + exists m, flag. split; assumption.
  - exact (Hdroid sample_droid
                  (single_file "command-2/droid_output.log" (Text "all good"))
                  empty_context "all good" eq_refl).
Defined.

(** C6, as stated, fails.  For Factory Droid the transcript [all good] has
    no error text and yields a positive output-token count, and the flag is
    false; for pi-mono a transcript on which the scan raises gets no flag
    at all. *)
Lemma success_flag_not_from_error_scan :
  FactoryDroidAgent.populate_context_post_run sample_droid
    (single_file "command-2/droid_output.log" (Text "all good")) empty_context
  = (mkContext None (Some (PInt 2)) None
       (Some (PFloat (Float64.mul (Py.true_div 2 1000) (Float64.of_decimal 3 (-3)))))
       (Some [ ("droid_model", MStr "gpt-5-codex");
               ("reasoning_effort", MStr "medium");
               ("success", MBool false);
               ("output_lines", MInt 1);
               ("errors", MNone) ]),
     Ok tt)
  /\ PiMonoAgent.has_error_text "all good" = false
  /\ PiMonoAgent.populate_context_post_run Json.loads Repr.of_json sample_pi
       (pi_logs [ "{`type`:`message_end`,`message`:null}" ]) empty_context
     = (mkContext None None None None
          (Some [ ("error", MExnText AttributeError);
                  ("provider", MStr "openai");
                  ("model", MStr "gpt-4o") ]),
        Ok tt).
Proof. repeat split. Qed.

Lemma sum_bare_then_object :
  sum_values (PFloat Float64.zero)
    (map cost_amount
       [ JFloat (Float64.of_decimal 2 (-2));
         JDict [("total", JFloat (Float64.of_decimal 3 (-2)))] ])
  = Ok (PFloat (Float64.of_decimal 5 (-2))).
Proof. vm_compute. reflexivity. Qed.

Lemma sum_object_then_bare :
  sum_values (PFloat Float64.zero)
    (map cost_amount
       [ JDict [("total", JFloat (Float64.of_decimal 3 (-2)))];
         JFloat (Float64.of_decimal 2 (-2)) ])
  = Ok (PFloat (Float64.of_decimal 5 (-2))).
Proof. vm_compute. reflexivity. Qed.

(** C4 (amended). For every transcript whose scan completes, the cost total
    is the sum of the amounts of the cost fields of the usage events, a bare
    number counting as itself and an object as its [total]; with the bare
    number 0.02 on one event and the object with total 0.03 on another, in
    either order, and no other cost field, the total is 0.05.  The
    extractor reports the total as the cost whenever the input and output
    token totals are not both zero. *)
Theorem cost_forms_are_summed (loads : string -> outcome json) (repr : json -> string)
        (self : PiMonoAgent.t) (fs : logs) (ctx : AgentContext) (content : string)
        (acc : PiMonoAgent.totals) :
  fs (PiMonoAgent.locate fs) = Text content ->
  PiMonoAgent.scan loads PiMonoAgent.initial_totals (Str.readlines content) = Ok acc ->
  sum_values (PFloat Float64.zero)
    (map cost_amount (cost_fields (usage_events loads (Str.readlines content))))
  = Ok (PiMonoAgent.total_cost acc)
  /\ (no_counts acc = false ->
      cost_usd (fst (PiMonoAgent.populate_context_post_run loads repr self fs ctx))
      = Some (PiMonoAgent.total_cost acc))
  /\ (cost_fields (usage_events loads (Str.readlines content))
      = [ JFloat (Float64.of_decimal 2 (-2));
          JDict [("total", JFloat (Float64.of_decimal 3 (-2)))] ]
      \/ cost_fields (usage_events loads (Str.readlines content))
         = [ JDict [("total", JFloat (Float64.of_decimal 3 (-2)))];
             JFloat (Float64.of_decimal 2 (-2)) ] ->
      PiMonoAgent.total_cost acc = PFloat (Float64.of_decimal 5 (-2))).
Proof.
  intros Hfile Hscan.
  pose proof (scan_sums loads _ _ _ Hscan) as (_ & _ & _ & Hcost).
  change (PiMonoAgent.total_cost PiMonoAgent.initial_totals)
    with (PFloat Float64.zero) in Hcost.
  split; [exact Hcost|]. split.
  - intros Hcounts. rewrite (populate_text loads repr self fs ctx content Hfile), Hscan.
    unfold pi_record. rewrite Hcounts. reflexivity.
  - intros [Hfields|Hfields]; rewrite Hfields in Hcost.
    + rewrite sum_bare_then_object in Hcost. inversion Hcost. reflexivity.
    + rewrite sum_object_then_bare in Hcost. inversion Hcost. reflexivity.
Qed.

Lemma cost_forms_are_summed_witness :
  cost_usd
    (fst (PiMonoAgent.populate_context_post_run Json.loads Repr.of_json sample_pi
            (pi_logs
               [ "{`type`:`message_end`,`message`:{`role`:`assistant`,`usage`:{`input`:10,`output`:4,`cost`:0.02}}}";
                 "{`type`:`message_end`,`message`:{`role`:`assistant`,`usage`:{`input`:3,`output`:2,`cost`:{`total`:0.03}}}}" ])
            empty_context))
  = Some (PFloat (Float64.of_decimal 5 (-2))).
Proof.
  destruct (cost_forms_are_summed Json.loads Repr.of_json sample_pi
              (pi_logs
                 [ "{`type`:`message_end`,`message`:{`role`:`assistant`,`usage`:{`input`:10,`output`:4,`cost`:0.02}}}";
                   "{`type`:`message_end`,`message`:{`role`:`assistant`,`usage`:{`input`:3,`output`:2,`cost`:{`total`:0.03}}}}" ])
              empty_context _
              (PiMonoAgent.mkTotals (PInt 13) (PInt 6) (PInt 0) (PInt 0)
                 (PFloat (Float64.of_decimal 5 (-2))))
              eq_refl) as (_ & Hreport & _).
  - vm_compute. reflexivity.
  - apply Hreport. reflexivity.
Defined.

(** C4, as stated, fails: when the two usage events report no tokens, the
    fallback estimate replaces the accumulated cost 0.05 with 0.0004. *)
Lemma accumulated_cost_replaced_by_estimate :
  cost_fields
    (usage_events Json.loads
       (Str.readlines
          (transcript
             [ "{`type`:`message_end`,`message`:{`role`:`assistant`,`usage`:{`input`:0,`output`:0,`cacheRead`:0,`cacheWrite`:0,`cost`:0.02}}}";
               "{`type`:`message_end`,`message`:{`role`:`assistant`,`usage`:{`input`:0,`output`:0,`cacheRead`:0,`cacheWrite`:0,`cost`:{`total`:0.03}}}}" ])))
  = [ JFloat (Float64.of_decimal 2 (-2));
      JDict [("total", JFloat (Float64.of_decimal 3 (-2)))] ]
  /\ PiMonoAgent.populate_context_post_run Json.loads Repr.of_json sample_pi
       (pi_logs
          [ "{`type`:`message_end`,`message`:{`role`:`assistant`,`usage`:{`input`:0,`output`:0,`cacheRead`:0,`cacheWrite`:0,`cost`:0.02}}}";
            "{`type`:`message_end`,`message`:{`role`:`assistant`,`usage`:{`input`:0,`output`:0,`cacheRead`:0,`cacheWrite`:0,`cost`:{`total`:0.03}}}}" ])
       empty_context
     = (mkContext (Some (PInt 500)) (Some (PInt 100)) (Some (PInt 0))
          (Some (PFloat (Float64.of_decimal 4 (-4))))
          (Some [ ("provider", MStr "openai");
                  ("model", MStr "gpt-4o");
                  ("output_mode", MStr "json");
                  ("success", MBool false);
                  ("session_saved", MBool true);
                  ("actual_api_usage", MBool false) ]),
        Ok tt)
  /\ Float64.eqb (Float64.of_decimal 4 (-4)) (Float64.of_decimal 5 (-2)) = false.
Proof. split; [|split]; vm_compute; reflexivity. Qed.

Lemma droid_never_reports_zero (self : FactoryDroidAgent.t) (content : string) :
  FactoryDroidAgent.num (droid_input self) <> Some (PInt 0)
  /\ FactoryDroidAgent.num (droid_output content) <> Some (PInt 0).
Proof.
  split.
  - unfold droid_input.
    destruct (FactoryDroidAgent._last_instruction self) as [[|c i]|]; simpl;
      try discriminate.
    intros H. inversion H. lia.
  - unfold droid_output. destruct (0 <? Str.len content / 4) eqn:E; simpl;
      [|discriminate].
    intros H. inversion H as [H0]. rewrite H0 in E. discriminate.
Qed.

Lemma count_line_adds_content (loads : string -> outcome json) (repr : json -> string)
      (chars : Z) (line : string) :
  PiMonoAgent.count_line loads repr chars line
  = chars + line_content_length loads repr line.
Proof.
  unfold PiMonoAgent.count_line, line_content_length, assistant_content.
  change (json_text "`role`:`assistant`") with PiMonoAgent.role_marker.
  change (json_text "`content`") with PiMonoAgent.content_marker.
  destruct (Str.contains PiMonoAgent.role_marker line
            && Str.contains PiMonoAgent.content_marker line); [|lia].
  unfold PiMonoAgent.content_chars.
  destruct (loads (Str.strip line)) as [event|e]; cbn [bind]; [|lia].
  destruct event as [| b | z | f | s | l | d]; cbn [Py.contains bind]; try lia.
  - destruct (Str.contains "message" s); cbn [negb Py.getitem bind]; lia.
  - destruct (existsb (fun x => Py.eq_str x "message") l); cbn [negb Py.getitem bind]; lia.
  - unfold Py.dict_mem.
    destruct (Py.dict_lookup "message" d) as [message|] eqn:Hm; cbn [negb]; [|lia].
    cbn [Py.getitem]. rewrite Hm. cbn [bind].
    destruct message as [| b | z | f | s | l | m]; cbn [Py.contains bind]; try lia.
    + destruct (Str.contains "content" s); cbn [negb Py.getitem bind]; lia.
    + destruct (existsb (fun x => Py.eq_str x "content") l);
        cbn [negb Py.getitem bind]; lia.
    + unfold Py.dict_mem.
      destruct (Py.dict_lookup "content" m) as [content|] eqn:Hc; cbn [negb]; [|lia].
      cbn [Py.getitem bind]. rewrite Hc. cbn [bind].
      unfold text_length, Str.len, PiMonoAgent.py_str. destruct content; reflexivity.
Qed.

Lemma count_fold_is_content_length (loads : string -> outcome json)
      (repr : json -> string) (lines : list string) (start : Z) :
  fold_left (PiMonoAgent.count_line loads repr) lines start
  = start + content_length loads repr lines.
Proof.
  revert start. induction lines as [|line rest IH]; intros start.
  - unfold content_length. simpl. lia.
  - cbn [fold_left]. rewrite IH, count_line_adds_content.
    unfold content_length. cbn [map fold_right]. lia.
Qed.

Lemma fallback_output_counts_content (loads : string -> outcome json)
      (repr : json -> string) (lines : list string) :
  fallback_output loads repr lines
  = Z.max (content_length loads repr lines / 4) 100.
Proof.
  unfold fallback_output. rewrite count_fold_is_content_length. reflexivity.
Qed.




(** ** Signs and finiteness of binary64 results *)

Lemma nonneg_has_sign (f : Float64.float) :
  Float64.nonneg f = true <-> has_sign false f.
Proof.
  destruct f as [s|[|]| |[|] m e]; simpl; unfold Float64.nonneg, Float64.leb, SFleb;
    simpl; split; intros H; auto; try discriminate; try contradiction.
Qed.

Lemma shr_1_bounds (mrs : shr_record) :
  0 <= shr_m mrs -> 0 <= shr_m (shr_1 mrs) <= shr_m mrs.
Proof.
  destruct mrs as [m r s]. destruct m as [|[p|p|]|p]; simpl; lia.
Qed.

Lemma iter_shr_1_bounds (p : positive) (mrs : shr_record) :
  0 <= shr_m mrs -> 0 <= shr_m (iter_pos shr_1 p mrs) <= shr_m mrs.
Proof.
  revert mrs. induction p as [p IH|p IH|]; intros mrs H; simpl.
  - pose proof (shr_1_bounds mrs H) as H1.
    pose proof (IH (shr_1 mrs) (proj1 H1)) as H2.
    pose proof (IH _ (proj1 H2)) as H3. lia.
  - pose proof (IH mrs H) as H2.
    pose proof (IH _ (proj1 H2)) as H3. lia.
  - apply shr_1_bounds. exact H.
Qed.

Lemma shr_fexp_bounds (m e : Z) (l : location) :
  0 <= m ->
  0 <= shr_m (fst (shr_fexp Float64.prec Float64.emax m e l)) <= m
  /\ (snd (shr_fexp Float64.prec Float64.emax m e l) = e
      \/ snd (shr_fexp Float64.prec Float64.emax m e l)
         = fexp Float64.prec Float64.emax (Zdigits2 m + e)).
Proof.
  intros Hm. unfold shr_fexp, shr.
  assert (Hrec : shr_m (shr_record_of_loc m l) = m)
    by (destruct l as [|[| |]]; reflexivity).
  destruct (fexp Float64.prec Float64.emax (Zdigits2 m + e) - e) as [|p|p] eqn:En;
    cbn [fst snd].
  - rewrite Hrec. split; [lia|left; reflexivity].
  - split.
    + rewrite <- Hrec at 3. apply iter_shr_1_bounds. rewrite Hrec. exact Hm.
    + right. lia.
  - rewrite Hrec. split; [lia|left; reflexivity].
Qed.

Lemma round_nearest_even_bounds (m : Z) (l : location) :
  0 <= m -> 0 <= round_nearest_even m l <= m + 1.
Proof.
  intros Hm. unfold round_nearest_even.
  destruct l as [|[| |]]; try lia. destruct (Z.even m); lia.
Qed.

(** Rounding keeps the sign and never yields NaN. *)
Lemma binary_round_aux_sign (s : bool) (m e : Z) (l : location) :
  0 <= m -> has_sign s (binary_round_aux Float64.prec Float64.emax s m e l).
Proof.
  intros Hm. unfold binary_round_aux.
  pose proof (shr_fexp_bounds m e l Hm) as [H1 _].
  destruct (shr_fexp Float64.prec Float64.emax m e l) as [mrs' e']. cbn [fst] in H1.
  pose proof (round_nearest_even_bounds (shr_m mrs') (loc_of_shr_record mrs') (proj1 H1))
    as H2.
  pose proof (shr_fexp_bounds _ e' loc_Exact (proj1 H2)) as [H3 _].
  destruct (shr_fexp Float64.prec Float64.emax
              (round_nearest_even (shr_m mrs') (loc_of_shr_record mrs')) e' loc_Exact)
    as [mrs'' e'']. cbn [fst] in H3.
  destruct (shr_m mrs'') as [|p|p]; simpl.
  - exact I.
  - destruct (e'' <=? 971); simpl; reflexivity.
  - lia.
Qed.

Lemma add_nonneg (f g : Float64.float) :
  has_sign false f -> has_sign false g -> has_sign false (Float64.add f g).
Proof.
  destruct f as [sf|sf| |sf mf ef]; destruct g as [sg|sg| |sg mg eg]; simpl;
    intros Hf Hg; subst; try exact I; try reflexivity; try contradiction.
  - destruct sf, sg; exact I.
  - unfold Float64.add, SFadd. cbn [cond_Zopp].
    unfold binary_normalize.
    destruct (shl_align mf ef (Z.min ef eg)) as [a ea].
    destruct (shl_align mg eg (Z.min ef eg)) as [b eb]. cbn [fst].
    change (Z.pos a + Z.pos b) with (Z.pos (a + b)).
    unfold binary_round.
    destruct (shl_align (a + b) (Z.min ef eg)
                (fexp Float64.prec Float64.emax
                   (Z.pos (digits2_pos (a + b)) + Z.min ef eg))) as [mz ez].
    apply binary_round_aux_sign. lia.
Qed.

Lemma of_Z_nonneg (z : Z) : 0 <= z -> has_sign false (Float64.of_Z z).
Proof.
  intros Hz. unfold Float64.of_Z, binary_normalize.
  destruct z as [|p|p]; [exact I| |lia].
  unfold binary_round.
  destruct (shl_align p 0 (fexp Float64.prec Float64.emax (Z.pos (digits2_pos p) + 0)))
    as [mz ez].
  apply binary_round_aux_sign. lia.
Qed.

Lemma div_core_nonneg (p q : Z) :
  0 <= p -> 0 < q ->
  0 <= fst (fst (SFdiv_core_binary Float64.prec Float64.emax p 0 q 0)).
Proof.
  intros Hp Hq. unfold SFdiv_core_binary.
  set (e' := Z.min _ _). set (m' := match 0 - 0 - e' with Z0 => p | _ => _ end).
  assert (Hm' : 0 <= m').
  { unfold m'. destruct (0 - 0 - e'); [exact Hp| |lia].
    apply Z.shiftl_nonneg. exact Hp. }
  pose proof (Z.div_pos m' q Hm' Hq) as Hdiv. unfold Z.div in Hdiv.
  destruct (Z.div_eucl m' q) as [quo r]. exact Hdiv.
Qed.

Lemma of_ratio_nonneg (p q : Z) :
  0 <= p -> 0 < q -> has_sign false (Float64.of_ratio p q).
Proof.
  intros Hp Hq. unfold Float64.of_ratio.
  destruct p as [|p|p]; [exact I| |lia].
  pose proof (div_core_nonneg (Z.pos p) q Hp Hq) as H.
  change (Z.abs (Z.pos p)) with (Z.pos p).
  destruct (SFdiv_core_binary Float64.prec Float64.emax (Z.pos p) 0 q 0) as [[mz ez] lz].
  cbn [fst] in H. change (Z.pos p <? 0) with false.
  apply binary_round_aux_sign. exact H.
Qed.

Lemma mul_nonneg_positive (f g : Float64.float) :
  has_sign false f -> positive_finite g -> has_sign false (Float64.mul f g).
Proof.
  destruct f as [sf|sf| |sf mf ef]; destruct g as [sg|sg| |[|] mg eg]; simpl;
    intros Hf Hg; subst; try exact I; try reflexivity; try contradiction.
  unfold Float64.mul, SFmul. cbn [xorb]. apply binary_round_aux_sign. lia.
Qed.

Lemma mul_finite_nonneg (f g : Float64.float) :
  has_sign false f -> Float64.is_finite f = true ->
  has_sign false g -> Float64.is_finite g = true ->
  has_sign false (Float64.mul f g).
Proof.
  destruct f as [sf|sf| |sf mf ef]; destruct g as [sg|sg| |sg mg eg]; simpl;
    intros Hf Ff Hg Fg; subst; try exact I; try discriminate.
  unfold Float64.mul, SFmul. cbn [xorb]. apply binary_round_aux_sign. lia.
Qed.

Lemma digits2_pos_size (p : positive) : digits2_pos p = Pos.size p.
Proof. induction p as [p IH|p IH|]; simpl; rewrite ?IH; reflexivity. Qed.

Lemma Zdigits2_bound (m k : Z) : 0 <= m < 2 ^ k -> 0 <= k -> Zdigits2 m <= k.
Proof.
  intros [Hm Hlt] Hk. destruct m as [|p|p]; simpl; [exact Hk| |lia].
  rewrite digits2_pos_size.
  pose proof (Pos.size_le p) as Hsize.
  assert (H : 2 ^ Z.pos (Pos.size p) <= 2 * Z.pos p).
  { change (2 * Z.pos p) with (Z.pos p~0). rewrite <- Pos2Z.inj_pow.
    apply Pos2Z.pos_le_pos. exact Hsize. }
  assert (H2 : 2 ^ Z.pos (Pos.size p) < 2 ^ (k + 1)).
  { rewrite Z.pow_add_r by lia. change (2 ^ 1) with 2. lia. }
  apply Z.pow_lt_mono_r_iff in H2; lia.
Qed.

(** Rounding a mantissa below [2 ^ K] at an exponent of at most [E] gives a
    finite float when [2 * K + E] is within the exponent range. *)
Lemma binary_round_aux_finite (s : bool) (m e K E : Z) (l : location) :
  0 <= m < 2 ^ K -> 0 <= K -> 0 <= E -> e <= E -> 2 * K + E <= 971 ->
  Float64.is_finite (binary_round_aux Float64.prec Float64.emax s m e l) = true.
Proof.
  intros [Hm Hlt] HK HE He Hrange. unfold binary_round_aux.
  pose proof (shr_fexp_bounds m e l Hm) as [H1 He1].
  pose proof (Zdigits2_bound m K (conj Hm Hlt) HK) as Hd.
  destruct (shr_fexp Float64.prec Float64.emax m e l) as [mrs' e'].
  cbn [fst snd] in H1, He1.
  pose proof (round_nearest_even_bounds (shr_m mrs') (loc_of_shr_record mrs') (proj1 H1))
    as H2.
  set (m2 := round_nearest_even (shr_m mrs') (loc_of_shr_record mrs')) in *.
  pose proof (shr_fexp_bounds m2 e' loc_Exact (proj1 H2)) as [H3 He2].
  assert (Hd2 : Zdigits2 m2 <= K + 1).
  { apply Zdigits2_bound; [|lia]. split; [lia|].
    rewrite Z.pow_add_r by lia. change (2 ^ 1) with 2. lia. }
  destruct (shr_fexp Float64.prec Float64.emax m2 e' loc_Exact) as [mrs'' e''].
  cbn [fst snd] in H3, He2.
  unfold fexp, emin, Float64.prec, Float64.emax in He1, He2.
  assert (Hbound : e'' <= 971) by lia.
  destruct (shr_m mrs'') as [|p|p]; [reflexivity| |lia].
  apply Z.leb_le in Hbound. change (Float64.emax - Float64.prec) with 971.
  rewrite Hbound. reflexivity.
Qed.

(** The true division by 1000 of a count below [2 ^ 63] does not overflow. *)
Lemma of_ratio_finite (p : Z) :
  0 <= p < 2 ^ 63 -> Float64.is_finite (Float64.of_ratio p 1000) = true.
Proof.
  intros [Hp Hlt]. unfold Float64.of_ratio.
  destruct p as [|p|p]; [reflexivity| |lia].
  change (Z.abs (Z.pos p)) with (Z.pos p). unfold SFdiv_core_binary.
  change (Zdigits2 1000) with 10.
  assert (Hd : 1 <= Zdigits2 (Z.pos p)) by (simpl; lia).
  set (d := Zdigits2 (Z.pos p)) in *.
  set (e' := Z.min (fexp Float64.prec Float64.emax (d + 0 - (10 + 0))) (0 - 0)).
  assert (He' : -62 <= e' <= 0)
    by (unfold e', fexp, emin, Float64.prec, Float64.emax; lia).
  set (m' := match 0 - 0 - e' with
             | 0 => Z.pos p
             | Z.pos _ => Z.shiftl (Z.pos p) (0 - 0 - e')
             | Z.neg _ => 0
             end).
  assert (Hm' : 0 <= m' < 2 ^ 125).
  { unfold m'. destruct (0 - 0 - e') as [|n|n] eqn:Es.
    - split; [lia|]. apply Z.lt_trans with (2 ^ 63); [exact Hlt|].
      apply Z.pow_lt_mono_r; lia.
    - rewrite Z.shiftl_mul_pow2 by lia. split; [apply Z.mul_nonneg_nonneg; lia|].
      assert (Hpow : 2 ^ Z.pos n <= 2 ^ 62) by (apply Z.pow_le_mono_r; lia).
      replace (2 ^ 125) with (2 ^ 63 * 2 ^ 62) by (rewrite <- Z.pow_add_r; reflexivity || lia).
      assert (0 < 2 ^ Z.pos n) by (apply Z.pow_pos_nonneg; lia).
      nia.
    - split; [lia|]. apply Z.pow_pos_nonneg; lia. }
  pose proof (Z.div_pos m' 1000 (proj1 Hm') ltac:(lia)) as Hq.
  assert (Hq2 : m' / 1000 < 2 ^ 125)
    by (apply Z.div_lt_upper_bound; [lia|]; pose proof (proj2 Hm'); lia).
  unfold Z.div in Hq, Hq2.
  destruct (Z.div_eucl m' 1000) as [quo r].
  apply (binary_round_aux_finite _ quo e' 125 0); lia.
Qed.

Lemma pi_rate_cases (self : PiMonoAgent.t) :
  In (fallback_rate self)
     [ Float64.of_decimal 15 (-3); Float64.of_decimal 2 (-3);
       Float64.of_decimal 1 (-3); Float64.zero ].
Proof.
  unfold fallback_rate.
  destruct (Py.dict_lookup (PiMonoAgent.provider self) PiMonoAgent.cost_per_1k_out_table)
    as [rate|] eqn:E.
  - apply dict_lookup_in in E. unfold PiMonoAgent.cost_per_1k_out_table in E.
    simpl in E. simpl.
    repeat (destruct E as [E|E]; [inversion E; tauto|]). destruct E.
  - simpl. tauto.
Qed.

(** The fallback cost of pi-mono is not negative. *)
Lemma fallback_cost_nonneg (self : PiMonoAgent.t) (n : Z) :
  0 <= n < 2 ^ 63 -> has_sign false (fallback_cost self n).
Proof.
  intros Hn. unfold fallback_cost, Py.true_div.
  pose proof (of_ratio_nonneg n 1000 (proj1 Hn) ltac:(lia)) as Hsign.
  pose proof (of_ratio_finite n Hn) as Hfin.
  destruct (pi_rate_cases self) as [<-|[<-|[<-|[<-|[]]]]];
    (apply add_nonneg;
     [vm_compute; first [exact I|reflexivity]
     |first [apply mul_nonneg_positive; [exact Hsign|exact I]
            |apply mul_finite_nonneg; [exact Hsign|exact Hfin|exact I|reflexivity]]]).
Qed.

Lemma droid_rate_positive (self : FactoryDroidAgent.t) :
  positive_finite (droid_rate self).
Proof.
  unfold droid_rate.
  destruct (Py.dict_lookup (FactoryDroidAgent.droid_model self)
              FactoryDroidAgent.cost_per_1k_tokens) as [rate|] eqn:E.
  - apply dict_lookup_in in E. unfold FactoryDroidAgent.cost_per_1k_tokens in E.
    repeat (destruct E as [E|E]; [inversion E; exact I|]). destruct E.
  - exact I.
Qed.

(** ** Non-negative counts *)

Lemma py_nonneg_float (f : Float64.float) :
  has_sign false f -> Py.nonneg (PFloat f) = true.
Proof. intros H. apply nonneg_has_sign. exact H. Qed.

Lemma add_keeps_nonneg (t t' : pynum) (v : json) :
  Py.nonneg t = true -> json_nonneg v = true -> Py.add t v = Ok t' ->
  Py.nonneg t' = true.
Proof.
  unfold Py.add, Py.float_of_int.
  destruct t as [x|f]; destruct v as [|b|y|g| | |]; simpl; try discriminate;
    intros Ht Hv H.
  - inversion H. simpl. destruct b; simpl; lia.
  - inversion H. simpl. lia.
  - destruct (Float64.is_finite (Float64.of_Z x)); simpl in H; [|discriminate].
    inversion H. apply py_nonneg_float. apply add_nonneg.
    + apply of_Z_nonneg. lia.
    + apply nonneg_has_sign. exact Hv.
  - inversion H. apply py_nonneg_float. apply add_nonneg.
    + apply nonneg_has_sign. exact Ht.
    + apply of_Z_nonneg. destruct b; simpl; lia.
  - destruct (Float64.is_finite (Float64.of_Z y)); simpl in H; [|discriminate].
    inversion H. apply py_nonneg_float. apply add_nonneg.
    + apply nonneg_has_sign. exact Ht.
    + apply of_Z_nonneg. lia.
  - inversion H. apply py_nonneg_float. apply add_nonneg; apply nonneg_has_sign; assumption.
Qed.

Lemma sum_values_nonneg (values : list json) (start t : pynum) :
  Py.nonneg start = true -> forallb json_nonneg values = true ->
  sum_values start values = Ok t -> Py.nonneg t = true.
Proof.
  revert start. induction values as [|v values IH]; intros start Hs Hv H; simpl in *.
  - inversion H. subst. exact Hs.
  - apply andb_prop in Hv. destruct Hv as [Hv Hrest].
    apply bind_ok in H. destruct H as [mid [Hadd Hsum]].
    apply (IH mid); [|exact Hrest|exact Hsum].
    eapply add_keeps_nonneg; eassumption.
Qed.

Lemma usage_fields_nonneg (usages : list json) :
  forallb usage_nonneg usages = true ->
  forallb json_nonneg (map (field "input") usages) = true
  /\ forallb json_nonneg (map (field "output") usages) = true
  /\ forallb json_nonneg (map (field "cacheRead") usages) = true
  /\ forallb json_nonneg (map cost_amount (cost_fields usages)) = true.
Proof.
  induction usages as [|u usages IH]; intros H.
  - repeat split.
  - cbn [forallb] in H. apply andb_prop in H. destruct H as [Hu Hrest].
    destruct (IH Hrest) as (Hi & Ho & Hr & Hc).
    unfold usage_nonneg in Hu. repeat rewrite andb_true_iff in Hu.
    destruct Hu as [[[Hui Huo] Hur] Huc].
    cbn [map forallb]. rewrite Hui, Huo, Hur, Hi, Ho, Hr.
    repeat split.
    rewrite cost_fields_cons, map_app, forallb_app, Huc, Hc. reflexivity.
Qed.

(** With non-negative fields a completed scan has non-negative totals. *)
Lemma scan_nonneg (loads : string -> outcome json) (lines : list string)
      (acc : PiMonoAgent.totals) :
  forallb usage_nonneg (usage_events loads lines) = true ->
  PiMonoAgent.scan loads PiMonoAgent.initial_totals lines = Ok acc ->
  Py.nonneg (PiMonoAgent.total_input_tokens acc) = true
  /\ Py.nonneg (PiMonoAgent.total_output_tokens acc) = true
  /\ Py.nonneg (PiMonoAgent.total_cache_read_tokens acc) = true
  /\ Py.nonneg (PiMonoAgent.total_cost acc) = true.
Proof.
  intros Hall Hscan.
  destruct (usage_fields_nonneg _ Hall) as (Hi & Ho & Hr & Hc).
  destruct (scan_sums loads _ _ _ Hscan) as (Si & So & Sr & Sc).
  repeat split.
  - apply (sum_values_nonneg _ _ _ (eq_refl : Py.nonneg (PInt 0) = true) Hi Si).
  - apply (sum_values_nonneg _ _ _ (eq_refl : Py.nonneg (PInt 0) = true) Ho So).
  - apply (sum_values_nonneg _ _ _ (eq_refl : Py.nonneg (PInt 0) = true) Hr Sr).
  - apply (sum_values_nonneg _ _ _
             (eq_refl : Py.nonneg (PFloat Float64.zero) = true) Hc Sc).
Qed.

Lemma set_metadata_nonneg (m : metadata_t) (ctx : AgentContext) :
  record_nonneg (set_metadata m ctx) = record_nonneg ctx.
Proof. reflexivity. Qed.

Lemma droid_outputs_keep_counts (self : FactoryDroidAgent.t) (fs : logs)
      (paths : list string) (ctx : AgentContext) :
  record_nonneg (fst (FactoryDroidAgent.check_command_outputs self fs paths ctx))
  = record_nonneg ctx.
Proof.
  induction paths as [|path paths IH]; simpl; [reflexivity|].
  destruct (Fs.exists_ fs path); [|exact IH].
  unfold Act.bind, Act.lift. destruct (Fs.read fs path) as [content|e]; [|reflexivity].
  destruct (negb (Str.is_empty content)); [reflexivity|exact IH].
Qed.

Lemma droid_record_nonneg (self : FactoryDroidAgent.t) (content : string)
      (ctx : AgentContext) :
  record_nonneg ctx = true -> record_nonneg (droid_record self content ctx) = true.
Proof.
  unfold record_nonneg. intros H. repeat rewrite andb_true_iff in H.
  destruct H as [[[_ _] Hc] _]. cbn [droid_record n_input_tokens n_output_tokens
                                      n_cache_tokens cost_usd].
  rewrite Hc. repeat rewrite andb_true_iff. repeat split.
  - unfold droid_input.
    destruct (FactoryDroidAgent._last_instruction self) as [[|c i]|]; simpl;
      try reflexivity. lia.
  - unfold droid_output. destruct (0 <? Str.len content / 4) eqn:E; simpl;
      [|reflexivity]. lia.
  - unfold droid_cost.
    set (total := FactoryDroidAgent.or_zero (droid_input self)
                  + FactoryDroidAgent.or_zero (droid_output content)).
    assert (Htotal : 0 <= total).
    { unfold total, droid_input, droid_output.
      destruct (FactoryDroidAgent._last_instruction self) as [[|c i]|];
        destruct (0 <? Str.len content / 4) eqn:E; simpl; lia. }
    destruct (total =? 0); [reflexivity|].
    cbn [count_nonneg]. apply py_nonneg_float. apply mul_nonneg_positive.
    + apply of_ratio_nonneg; lia.
    + apply droid_rate_positive.
Qed.

Lemma fallback_output_bounds (loads : string -> outcome json) (repr : json -> string)
      (lines : list string) :
  100 <= fallback_output loads repr lines.
Proof. unfold fallback_output. apply Z.le_max_r. Qed.

(** C8 (amended). For every transcript whose usage events carry only
    non-negative numbers in their input, output, cacheRead and cost fields,
    and whose fallback output estimate is below [2 ^ 63], as every count of
    characters of a Python string is, the record that the pi-mono
    extractor leaves has non-negative token counts, cache count and cost
    wherever these are set; the record of the Factory Droid extractor is
    non-negative for every transcript. *)
Theorem nonnegative_usage_gives_nonnegative_record :
  (forall loads repr self fs ctx,
      record_nonneg ctx = true ->
      (forall content,
          fs (PiMonoAgent.locate fs) = Text content ->
          forallb usage_nonneg (usage_events loads (Str.readlines content)) = true
          /\ fallback_output loads repr (Str.readlines content) < 2 ^ 63) ->
      record_nonneg (fst (PiMonoAgent.populate_context_post_run loads repr self fs ctx))
      = true)
  /\ (forall self fs ctx,
         record_nonneg ctx = true ->
         record_nonneg (fst (FactoryDroidAgent.populate_context_post_run self fs ctx))
         = true).
Proof.
  split.
  - intros loads repr self fs ctx Hctx Hfields.
    destruct (fs (PiMonoAgent.locate fs)) as [|content|prefix e] eqn:Hfile.
    + rewrite (populate_missing loads repr self fs ctx Hfile). exact Hctx.
    + rewrite (populate_text loads repr self fs ctx content Hfile).
      destruct (Hfields content eq_refl) as [Hall Hbound].
      destruct (PiMonoAgent.scan loads PiMonoAgent.initial_totals (Str.readlines content))
        as [acc|e] eqn:Hscan; [|exact Hctx].
      destruct (scan_nonneg loads _ _ Hall Hscan) as (Hi & Ho & Hr & Hc).
      cbn [fst]. unfold pi_record, record_nonneg.
      pose proof (fallback_output_bounds loads repr (Str.readlines content)) as Hlow.
      destruct (no_counts acc);
        cbn [n_input_tokens n_output_tokens n_cache_tokens cost_usd count_nonneg].
      * rewrite Hr. repeat rewrite andb_true_iff. repeat split.
        -- simpl. lia.
        -- apply py_nonneg_float. apply fallback_cost_nonneg. lia.
      * rewrite Hi, Ho, Hr, Hc. reflexivity.
    + rewrite (populate_broken loads repr self fs ctx prefix e Hfile).
      destruct (PiMonoAgent.scan loads PiMonoAgent.initial_totals (Str.readlines prefix));
        exact Hctx.
  - intros self fs ctx Hctx. unfold FactoryDroidAgent.populate_context_post_run.
    destruct (Fs.exists_ fs FactoryDroidAgent.output_file) eqn:Hex.
    + unfold Act.try_except.
      destruct (fs FactoryDroidAgent.output_file) as [|content|prefix e] eqn:Hfile.
      * unfold Fs.exists_ in Hex. rewrite Hfile in Hex. discriminate.
      * rewrite (droid_parse_text self fs _ content ctx Hfile).
        apply droid_record_nonneg. exact Hctx.
      * rewrite (droid_parse_broken self fs _ prefix e ctx Hfile). exact Hctx.
    + rewrite droid_outputs_keep_counts. exact Hctx.
Qed.

Lemma nonnegative_usage_gives_nonnegative_record_witness :
  record_nonneg
    (fst (PiMonoAgent.populate_context_post_run Json.loads Repr.of_json sample_pi
            (pi_logs
               [ "{`type`:`message_end`,`message`:{`role`:`assistant`,`usage`:{`input`:10,`output`:4,`cacheRead`:7,`cost`:0.02}}}" ])
            empty_context))
  = true.
Proof.
  destruct nonnegative_usage_gives_nonnegative_record as [Hpi _].
  apply (Hpi Json.loads Repr.of_json sample_pi
             (pi_logs
                [ "{`type`:`message_end`,`message`:{`role`:`assistant`,`usage`:{`input`:10,`output`:4,`cacheRead`:7,`cost`:0.02}}}" ])
             empty_context).
  - reflexivity.
  - intros content Hcontent. inversion Hcontent. split; vm_compute; reflexivity.
Defined.

(** C8, as stated, fails: negative fields of a usage event flow into the
    record unchanged. *)
Lemma negative_usage_gives_negative_record :
  PiMonoAgent.populate_context_post_run Json.loads Repr.of_json sample_pi
    (pi_logs
       [ "{`type`:`message_end`,`message`:{`role`:`assistant`,`usage`:{`input`:-5,`output`:10,`cacheRead`:-1,`cacheWrite`:0,`cost`:-0.5}}}" ])
    empty_context
  = (mkContext (Some (PInt (-5))) (Some (PInt 10)) (Some (PInt (-1)))
       (Some (PFloat (SFopp (Float64.of_decimal 5 (-1)))))
       (Some [ ("provider", MStr "openai");
               ("model", MStr "gpt-4o");
               ("output_mode", MStr "json");
               ("success", MBool true);
               ("session_saved", MBool true);
               ("actual_api_usage", MBool true) ]),
     Ok tt)
  /\ Py.nonneg (PInt (-5)) = false
  /\ Py.nonneg (PInt (-1)) = false
  /\ Py.nonneg (PFloat (SFopp (Float64.of_decimal 5 (-1)))) = false.
Proof. repeat split; vm_compute; reflexivity. Qed.

(** ** Quoting of the instruction *)

Lemma run_app (st : Shell.lexer) (a b : string) :
  Shell.run st (a ++ b)
  = match Shell.run st a with
    | Some st' => Shell.run st' b
    | None => None
    end.
Proof.
  revert st. induction a as [|c a IH]; intros st; simpl; [reflexivity|].
  destruct (Shell.step st c); [apply IH|reflexivity].
Qed.

Lemma safe_char_is_literal (toks : list Shell.token) (cur : option string) (c : ascii) :
  Shlex.is_safe c = true ->
  Shell.plain_step toks cur c = Some (Shell.mkLexer toks (Shell.push c cur) Shell.Plain).
Proof.
  destruct c as [[|] [|] [|] [|] [|] [|] [|] [|]]; intros H;
    try discriminate H; reflexivity.
Qed.

Lemma run_safe (w : string) (toks : list Shell.token) (cur : option string) :
  Shlex.all_safe w = true ->
  Shell.run (Shell.mkLexer toks cur Shell.Plain) w
  = Some (Shell.mkLexer toks (push_all w cur) Shell.Plain).
Proof.
  revert cur. induction w as [|c w IH]; intros cur H; simpl; [reflexivity|].
  simpl in H. apply andb_prop in H. destruct H as [Hc Hw].
  unfold Shell.step. cbn [Shell.state Shell.emitted Shell.current].
  rewrite safe_char_is_literal by exact Hc. apply IH. exact Hw.
Qed.

Lemma push_all_some (w acc : string) : push_all w (Some acc) = Some (acc ++ w).
Proof.
  revert acc. induction w as [|c w IH]; intros acc; simpl.
  - f_equal. induction acc as [|a acc IHa]; simpl; [reflexivity|].
    f_equal. exact IHa.
  - rewrite IH. f_equal.
    induction acc as [|a acc IHa]; simpl; [reflexivity|]. f_equal. exact IHa.
Qed.

Lemma push_all_none (c : ascii) (w : string) :
  push_all (String c w) None = Some (String c w).
Proof. simpl. apply push_all_some. Qed.

Lemma append_char (acc : string) (c : ascii) (s : string) :
  (acc ++ String c EmptyString) ++ s = acc ++ String c s.
Proof. induction acc as [|a acc IH]; simpl; [reflexivity|]. f_equal. exact IH. Qed.

(** Inside single quotes the replaced text is read back as the text. *)
Lemma run_replaced (s acc : string) (toks : list Shell.token) :
  Shell.run (Shell.mkLexer toks (Some acc) Shell.InSingle)
    (Str.replace_char "'" ("'" ++ dquote ++ "'" ++ dquote ++ "'") s)
  = Some (Shell.mkLexer toks (Some (acc ++ s)) Shell.InSingle).
Proof.
  revert acc. induction s as [|c s IH]; intros acc.
  - simpl. f_equal. f_equal. f_equal.
    induction acc as [|a acc IHa]; simpl; [reflexivity|]. f_equal. exact IHa.
  - cbn [Str.replace_char]. destruct (Ascii.eqb c "'") eqn:E.
    + apply Ascii.eqb_eq in E. subst c.
      change (("'" ++ dquote ++ "'" ++ dquote ++ "'")
              ++ Str.replace_char "'" ("'" ++ dquote ++ "'" ++ dquote ++ "'") s)
        with (String "'" (String (ascii_of_N 34) (String "'" (String (ascii_of_N 34)
               (String "'"
                  (Str.replace_char "'" ("'" ++ dquote ++ "'" ++ dquote ++ "'") s)))))).
      cbn [Shell.run]. cbv [Shell.step Shell.state Shell.emitted Shell.current].
      cbn [Shell.eqc String.eqb Ascii.eqb Bool.eqb andb orb Shell.plain_step dquote
           ascii_of_N ascii_of_pos Ascii.shift Ascii.one Ascii.zero Shell.started Shell.push].
      rewrite IH. rewrite append_char. reflexivity.
    + cbn [Shell.run]. cbv [Shell.step Shell.state Shell.emitted Shell.current].
      assert (Hq : Shell.eqc c "'" = false).
      { unfold Shell.eqc. simpl. rewrite E. reflexivity. }
      rewrite Hq. cbn [Shell.push]. rewrite IH. rewrite append_char. reflexivity.
Qed.

(** The shell reads the quoted instruction back as one word, the
    instruction. *)
Lemma run_quote (s : string) (toks : list Shell.token) :
  Shell.run (Shell.mkLexer toks None Shell.Plain) (Shlex.quote s)
  = Some (Shell.mkLexer toks (Some s) Shell.Plain).
Proof.
  unfold Shlex.quote. destruct s as [|c s]; [reflexivity|].
  cbn [Str.is_empty]. destruct (Shlex.all_safe (String c s)) eqn:E.
  - rewrite run_safe by exact E. rewrite push_all_none. reflexivity.
  - change ("'" ++ Str.replace_char "'" ("'" ++ dquote ++ "'" ++ dquote ++ "'") (String c s)
                ++ "'")
      with (String "'"
              (Str.replace_char "'" ("'" ++ dquote ++ "'" ++ dquote ++ "'") (String c s)
               ++ "'")).
    cbn [Shell.run]. change (Shell.step (Shell.mkLexer toks None Shell.Plain) "'")
      with (Some (Shell.mkLexer toks (Some EmptyString) Shell.InSingle)).
    cbv iota. rewrite run_app, run_replaced. reflexivity.
Qed.

Lemma run_word_space (w rest : string) (toks : list Shell.token) :
  plain_word w = true ->
  Shell.run (Shell.mkLexer toks None Shell.Plain) (w ++ " " ++ rest)
  = Shell.run (Shell.mkLexer (Shell.Word w :: toks) None Shell.Plain) rest.
Proof.
  unfold plain_word. intros H. apply andb_prop in H. destruct H as [Hne Hsafe].
  destruct w as [|c w]; [discriminate|].
  rewrite run_app, run_safe by exact Hsafe. rewrite push_all_none. reflexivity.
Qed.

Lemma join_cons (w : string) (ws : list string) (last : string) :
  Str.join " " (w :: ws ++ [last])%list = w ++ " " ++ Str.join " " (ws ++ [last])%list.
Proof. destruct ws; reflexivity. Qed.

Lemma append_assoc (a b c : string) : (a ++ b) ++ c = a ++ b ++ c.
Proof. induction a as [|x a IH]; simpl; [reflexivity|]. f_equal. exact IH. Qed.

Lemma run_words (ws : list string) (last rest : string) (toks : list Shell.token) :
  forallb plain_word ws = true ->
  Shell.run (Shell.mkLexer toks None Shell.Plain)
            (Str.join " " (ws ++ [last])%list ++ rest)
  = Shell.run (Shell.mkLexer (rev (map Shell.Word ws) ++ toks)%list None Shell.Plain)
              (last ++ rest).
Proof.
  revert toks. induction ws as [|w ws IH]; intros toks H.
  - reflexivity.
  - cbn [forallb] in H. apply andb_prop in H. destruct H as [Hw Hws].
    change ((w :: ws) ++ [last])%list with (w :: ws ++ [last])%list.
    rewrite join_cons, !append_assoc, run_word_space by exact Hw.
    rewrite IH by exact Hws. cbn [map rev]. rewrite <- app_assoc. reflexivity.
Qed.

Lemma uint_digits_safe (d : Decimal.uint) :
  Shlex.all_safe (NilEmpty.string_of_uint d) = true.
Proof. induction d; simpl; try reflexivity; exact IHd. Qed.

Lemma uint_string_plain (d : Decimal.uint) :
  negb (Str.is_empty (NilZero.string_of_uint d)) = true
  /\ Shlex.all_safe (NilZero.string_of_uint d) = true.
Proof.
  destruct d; split; try reflexivity;
    unfold NilZero.string_of_uint; simpl; apply uint_digits_safe.
Qed.

Lemma of_Z_plain (z : Z) : plain_word (Str.of_Z z) = true.
Proof.
  unfold Str.of_Z, NilZero.string_of_int, plain_word.
  destruct (Z.to_int z) as [d|d]; destruct (uint_string_plain d) as [Hne Hsafe].
  - rewrite Hne, Hsafe. reflexivity.
  - cbn [Str.is_empty negb Shlex.all_safe]. rewrite Hsafe. reflexivity.
Qed.

Lemma pi_parts_split (self : PiMonoAgent.t) (instruction : string) :
  PiMonoAgent.pi_command_parts self instruction
  = (pi_options self ++ [Shlex.quote instruction])%list.
Proof.
  unfold PiMonoAgent.pi_command_parts, pi_options.
  repeat rewrite <- app_assoc. reflexivity.
Qed.

Lemma droid_parts_split (self : FactoryDroidAgent.t) (instruction : string) :
  FactoryDroidAgent.droid_cmd_parts self instruction
  = (droid_options self ++ [Shlex.quote instruction])%list.
Proof.
  unfold FactoryDroidAgent.droid_cmd_parts, droid_options.
  repeat rewrite <- app_assoc. reflexivity.
Qed.

Lemma run_literal (lit rest : string) (st st' : Shell.lexer) :
  Shell.run st lit = Some st' ->
  Shell.run st (lit ++ rest) = Shell.run st' rest.
Proof. intros H. rewrite run_app, H. reflexivity. Qed.

Lemma pi_prefix :
  Shell.run Shell.initial "cd /workspace && "
  = Some (Shell.mkLexer
            [ Shell.Operator "&&"; Shell.Word "/workspace"; Shell.Word "cd" ]
            None Shell.Plain).
Proof. reflexivity. Qed.

Lemma timeout_prefix (toks : list Shell.token) :
  Shell.run (Shell.mkLexer toks None Shell.Plain) "timeout "
  = Some (Shell.mkLexer (Shell.Word "timeout" :: toks) None Shell.Plain).
Proof. reflexivity. Qed.

Lemma pi_suffix (toks : list Shell.token) (w : string) :
  Shell.run (Shell.mkLexer toks (Some w) Shell.Plain)
            (" " ++ "2>&1 | tee /logs/agent/pi_output.log")
  = Some (Shell.mkLexer
            (Shell.Word "tee" :: Shell.Operator "|" :: Shell.Word "1"
             :: Shell.Operator ">&" :: Shell.IoNumber "2" :: Shell.Word w :: toks)
            (Some "/logs/agent/pi_output.log") Shell.Plain).
Proof. reflexivity. Qed.

Lemma droid_suffix (toks : list Shell.token) (w : string) :
  Shell.run (Shell.mkLexer toks (Some w) Shell.Plain)
            (" " ++ "2>&1 | tee /logs/agent/droid_output.log || "
             ++ "echo 'Factory Droid failed - likely due to authentication requirements'")
  = Some (Shell.mkLexer
            (Shell.Word "echo" :: Shell.Operator "||"
             :: Shell.Word "/logs/agent/droid_output.log"
             :: Shell.Word "tee" :: Shell.Operator "|" :: Shell.Word "1"
             :: Shell.Operator ">&" :: Shell.IoNumber "2" :: Shell.Word w :: toks)
            (Some "Factory Droid failed - likely due to authentication requirements")
            Shell.Plain).
Proof. reflexivity. Qed.

Lemma pi_main_command_tokens (self : PiMonoAgent.t) (instruction : string) :
  forallb plain_word (pi_options self) = true ->
  Shell.tokens (PiMonoAgent.main_command self instruction)
  = Some (pi_tokens self instruction).
Proof.
  intros Hplain. unfold Shell.tokens, PiMonoAgent.main_command.
  rewrite pi_parts_split.
  rewrite (run_literal _ _ _ _ pi_prefix).
  rewrite (run_literal _ _ _ _ (timeout_prefix _)).
  rewrite run_word_space by apply of_Z_plain.
  rewrite run_words by exact Hplain.
  rewrite run_app, run_quote, pi_suffix. unfold pi_tokens, Shell.finish.
  cbn [Shell.state Shell.emitted Shell.current Shell.flush rev].
  rewrite rev_app_distr, rev_involutive. cbn [rev app].
  repeat rewrite <- app_assoc. cbn [app]. reflexivity.
Qed.

Lemma droid_main_command_tokens (self : FactoryDroidAgent.t) (instruction : string) :
  forallb plain_word (droid_options self) = true ->
  Shell.tokens (FactoryDroidAgent.main_command self instruction)
  = Some (droid_tokens self instruction).
Proof.
  intros Hplain. unfold Shell.tokens, FactoryDroidAgent.main_command.
  rewrite droid_parts_split. unfold Shell.initial.
  rewrite (run_literal _ _ _ _ (timeout_prefix _)).
  rewrite run_word_space by apply of_Z_plain.
  rewrite run_words by exact Hplain.
  rewrite run_app, run_quote, droid_suffix. unfold droid_tokens, Shell.finish.
  cbn [Shell.state Shell.emitted Shell.current Shell.flush rev].
  rewrite rev_app_distr, rev_involutive. cbn [rev app].
  repeat rewrite <- app_assoc. cbn [app]. reflexivity.
Qed.

(** C7 (amended). For every instruction string, and every agent whose
    other values on the command line are non-empty words of characters
    that the shell takes literally, a POSIX shell splits the main command
    of [create_run_agent_commands] into the expected words and operators,
    the instruction being one word, character for character. *)
Theorem instruction_is_one_shell_word :
  (forall self environ instruction,
      forallb plain_word (pi_options self) = true ->
      Shell.tokens (PiMonoAgent.main_command self instruction)
      = Some (pi_tokens self instruction)
      /\ option_map command
           (nth_error (PiMonoAgent.create_run_agent_commands self environ instruction) 1)
         = Some (PiMonoAgent.main_command self instruction))
  /\ (forall self environ instruction,
         forallb plain_word (droid_options self) = true ->
         Shell.tokens (FactoryDroidAgent.main_command self instruction)
         = Some (droid_tokens self instruction)
         /\ option_map command
              (nth_error
                 (snd (FactoryDroidAgent.create_run_agent_commands self environ instruction))
                 2)
            = Some (FactoryDroidAgent.main_command self instruction)).
Proof.
  split.
  - intros self environ instruction Hplain. split; [|reflexivity].
    apply pi_main_command_tokens. exact Hplain.
  - intros self environ instruction Hplain. split; [|reflexivity].
    apply droid_main_command_tokens. exact Hplain.
Qed.

Lemma instruction_is_one_shell_word_witness :
  Shell.tokens
    (PiMonoAgent.main_command sample_pi
       ("it's a `test` of " ++ dquote ++ "quotes" ++ dquote ++ " and $HOME"))
  = Some (pi_tokens sample_pi
            ("it's a `test` of " ++ dquote ++ "quotes" ++ dquote ++ " and $HOME"))
  /\ Shell.tokens
       (FactoryDroidAgent.main_command sample_droid
          ("it's a `test` of " ++ dquote ++ "quotes" ++ dquote ++ " and $HOME"))
     = Some (droid_tokens sample_droid
               ("it's a `test` of " ++ dquote ++ "quotes" ++ dquote ++ " and $HOME")).
Proof.
  destruct instruction_is_one_shell_word as [Hpi Hdroid]. split.
  - apply (Hpi sample_pi (fun _ => None)). reflexivity.
  - apply (Hdroid sample_droid (fun _ => None)). reflexivity.
Defined.

(** C7, as stated, fails for an agent whose model value is not a plain
    word: only the instruction is quoted.  With the model [local #1] the
    shell takes the rest of the line, the instruction included, as a
    comment; with the model [o'neil] the quotes do not balance and the
    shell rejects the line. *)
Lemma unquoted_model_hides_instruction :
  PiMonoAgent.__init__ (Some "openai/gpt-4o")
    (PiMonoAgent.mkKwargs None (Some "local #1") None None None)
  = Ok (PiMonoAgent.mkAgent "openai" (Some "local #1") "json" false 1800)
  /\ Shell.tokens
       (PiMonoAgent.main_command
          (PiMonoAgent.mkAgent "openai" (Some "local #1") "json" false 1800)
          "fix the bug")
     = Some [ Shell.Word "cd"; Shell.Word "/workspace"; Shell.Operator "&&";
              Shell.Word "timeout"; Shell.Word "1800"; Shell.Word "pi";
              Shell.Word "--provider"; Shell.Word "openai";
              Shell.Word "--model"; Shell.Word "local" ]
  /\ Shell.tokens
       (PiMonoAgent.main_command
          (PiMonoAgent.mkAgent "openai" (Some "o'neil") "json" false 1800)
          "fix the bug")
     = None
  /\ Shell.tokens
       (FactoryDroidAgent.main_command
          (FactoryDroidAgent.mkAgent None "local #1" "medium" 1800 None)
          "fix the bug")
     = Some [ Shell.Word "timeout"; Shell.Word "1800"; Shell.Word "droid";
              Shell.Word "exec"; Shell.Word "-m"; Shell.Word "local" ].
Proof. repeat split; vm_compute; reflexivity. Qed.

(** * Further properties of the code *)

(** ** The scan of the pi-mono transcript *)


Lemma scan_app (loads : string -> outcome json) (before after : list string)
      (acc : PiMonoAgent.totals) :
  PiMonoAgent.scan loads acc (before ++ after)%list
  = (mid <- PiMonoAgent.scan loads acc before ;; PiMonoAgent.scan loads mid after).
Proof.
  revert acc. induction before as [|line rest IH]; intros acc; [reflexivity|].
  cbn [app PiMonoAgent.scan].
  destruct (PiMonoAgent.scan_line loads acc line); cbn [bind]; [apply IH|reflexivity].
Qed.

(** X2. The first line on which the scan raises decides the outcome: when
    the lines before it were scanned without exception, the extractor
    leaves the error record of that line's exception, whatever follows it
    in the transcript. *)
Theorem first_faulty_line_decides (loads : string -> outcome json)
        (repr : json -> string) (self : PiMonoAgent.t) (fs : logs) (ctx : AgentContext)
        (content : string) (before after : list string) (line : string)
        (mid : PiMonoAgent.totals) (e : exn) :
  fs (PiMonoAgent.locate fs) = Text content ->
  Str.readlines content = (before ++ line :: after)%list ->
  PiMonoAgent.scan loads PiMonoAgent.initial_totals before = Ok mid ->
  PiMonoAgent.scan_line loads mid line = Raise e ->
  PiMonoAgent.populate_context_post_run loads repr self fs ctx
  = (pi_error_record self e ctx, Ok tt).
Proof.
  intros Hfile Hlines Hbefore Hline.
  rewrite (populate_text loads repr self fs ctx content Hfile), Hlines.
  rewrite scan_app, Hbefore. cbn [bind PiMonoAgent.scan].
  rewrite Hline. reflexivity.
Qed.

Lemma first_faulty_line_decides_witness :
  PiMonoAgent.populate_context_post_run Json.loads Repr.of_json sample_pi
    (pi_logs
       [ "{`type`:`message_end`,`message`:{`role`:`assistant`,`usage`:{`input`:10,`output`:4}}}";
         "{`type`:`message_end`,`message`:{`role`:`assistant`,`usage`:{`input`:`many`}}}";
         "{`type`:`message_end`,`message`:null}" ])
    empty_context
  = (pi_error_record sample_pi TypeError empty_context, Ok tt).
Proof.
  apply (first_faulty_line_decides Json.loads Repr.of_json sample_pi _ empty_context
           (transcript
              [ "{`type`:`message_end`,`message`:{`role`:`assistant`,`usage`:{`input`:10,`output`:4}}}";
                "{`type`:`message_end`,`message`:{`role`:`assistant`,`usage`:{`input`:`many`}}}";
                "{`type`:`message_end`,`message`:null}" ])
           [ json_text "{`type`:`message_end`,`message`:{`role`:`assistant`,`usage`:{`input`:10,`output`:4}}}"
             ++ String Str.newline EmptyString ]
           [ json_text "{`type`:`message_end`,`message`:null}"
             ++ String Str.newline EmptyString ]
           (json_text "{`type`:`message_end`,`message`:{`role`:`assistant`,`usage`:{`input`:`many`}}}"
            ++ String Str.newline EmptyString)
           (PiMonoAgent.mkTotals (PInt 10) (PInt 4) (PInt 0) (PInt 0)
              (PFloat Float64.zero))
           TypeError); vm_compute; reflexivity.
Defined.

(** X3. When the scan completes and found a token count, the input and
    output counts of the record are the sums of the [input] and [output]
    fields of the usage events, a missing field counting as 0. *)
Theorem token_counts_are_field_sums (loads : string -> outcome json)
        (repr : json -> string) (self : PiMonoAgent.t) (fs : logs) (ctx : AgentContext)
        (content : string) (acc : PiMonoAgent.totals) :
  fs (PiMonoAgent.locate fs) = Text content ->
  PiMonoAgent.scan loads PiMonoAgent.initial_totals (Str.readlines content) = Ok acc ->
  no_counts acc = false ->
  exists t_in t_out,
    sum_values (PInt 0) (map (field "input") (usage_events loads (Str.readlines content)))
    = Ok t_in
    /\ sum_values (PInt 0)
         (map (field "output") (usage_events loads (Str.readlines content)))
       = Ok t_out
    /\ n_input_tokens (fst (PiMonoAgent.populate_context_post_run loads repr self fs ctx))
       = Some t_in
    /\ n_output_tokens (fst (PiMonoAgent.populate_context_post_run loads repr self fs ctx))
       = Some t_out.
Proof.
  intros Hfile Hscan Hcounts.
  destruct (scan_sums loads _ _ _ Hscan) as (Hi & Ho & _ & _).
  exists (PiMonoAgent.total_input_tokens acc), (PiMonoAgent.total_output_tokens acc).
  rewrite (populate_text loads repr self fs ctx content Hfile), Hscan.
  unfold pi_record. rewrite Hcounts. repeat split; assumption.
Qed.

Lemma token_counts_are_field_sums_witness :
  exists t_in t_out,
    n_input_tokens
      (fst (PiMonoAgent.populate_context_post_run Json.loads Repr.of_json sample_pi
              (pi_logs
                 [ "{`type`:`message_end`,`message`:{`role`:`assistant`,`usage`:{`input`:10,`output`:4}}}";
                   "plain text";
                   "{`type`:`message_end`,`message`:{`role`:`assistant`,`usage`:{`output`:2.5}}}" ])
              empty_context))
    = Some t_in
    /\ n_output_tokens
         (fst (PiMonoAgent.populate_context_post_run Json.loads Repr.of_json sample_pi
                 (pi_logs
                    [ "{`type`:`message_end`,`message`:{`role`:`assistant`,`usage`:{`input`:10,`output`:4}}}";
                      "plain text";
                      "{`type`:`message_end`,`message`:{`role`:`assistant`,`usage`:{`output`:2.5}}}" ])
                 empty_context))
       = Some t_out.
Proof.
  destruct (token_counts_are_field_sums Json.loads Repr.of_json sample_pi
              (pi_logs
                 [ "{`type`:`message_end`,`message`:{`role`:`assistant`,`usage`:{`input`:10,`output`:4}}}";
                   "plain text";
                   "{`type`:`message_end`,`message`:{`role`:`assistant`,`usage`:{`output`:2.5}}}" ])
              empty_context _
              (PiMonoAgent.mkTotals (PInt 10) (PFloat (Float64.of_decimal 65 (-1)))
                 (PInt 0) (PInt 0) (PFloat Float64.zero))
              eq_refl)
    as [t_in [t_out (_ & _ & Hin & Hout)]].
  - vm_compute. reflexivity.
  - reflexivity.
  - exists t_in, t_out. split; assumption.
Defined.

Lemma count_line_counted (loads : string -> outcome json) (repr : json -> string)
      (chars : Z) (line : string) :
  counted loads repr line = false ->
  PiMonoAgent.count_line loads repr chars line = chars.
Proof.
  unfold counted, PiMonoAgent.count_line.
  destruct (Str.contains PiMonoAgent.role_marker line
            && Str.contains PiMonoAgent.content_marker line); [|reflexivity].
  destruct (PiMonoAgent.content_chars loads repr line); [discriminate|reflexivity].
Qed.

Lemma content_chars_nonneg (loads : string -> outcome json) (repr : json -> string)
      (line : string) (n : Z) :
  PiMonoAgent.content_chars loads repr line = Ok n -> 0 <= n.
Proof.
  unfold PiMonoAgent.content_chars. intros H.
  apply bind_ok in H. destruct H as [event [_ H]].
  apply bind_ok in H. destruct H as [b [_ H]].
  destruct (negb b); [inversion H; lia|].
  apply bind_ok in H. destruct H as [message [_ H]].
  apply bind_ok in H. destruct H as [b2 [_ H]].
  destruct (negb b2); [inversion H; lia|].
  apply bind_ok in H. destruct H as [message2 [_ H]].
  apply bind_ok in H. destruct H as [content [_ H]].
  inversion H. unfold Str.len. lia.
Qed.

Lemma count_line_grows (loads : string -> outcome json) (repr : json -> string)
      (chars : Z) (line : string) :
  chars <= PiMonoAgent.count_line loads repr chars line.
Proof.
  unfold PiMonoAgent.count_line.
  destruct (Str.contains PiMonoAgent.role_marker line
            && Str.contains PiMonoAgent.content_marker line); [|lia].
  destruct (PiMonoAgent.content_chars loads repr line) as [n|e] eqn:E; [|lia].
  apply content_chars_nonneg in E. lia.
Qed.

(** X4. The fallback pass cannot fail on a line: a line without both
    markers, or on which decoding or a lookup raises, adds nothing to the
    character count, so such lines can be dropped from or added to the
    transcript without changing the count; the count is never negative and
    the output estimate is 100 whenever fewer than 400 characters are
    counted. *)
Theorem fallback_count_ignores_uncounted_lines (loads : string -> outcome json)
        (repr : json -> string) (lines : list string) :
  (forall start,
      fold_left (PiMonoAgent.count_line loads repr) lines start
      = fold_left (PiMonoAgent.count_line loads repr)
                  (filter (counted loads repr) lines) start)
  /\ 0 <= fold_left (PiMonoAgent.count_line loads repr) lines 0
  /\ (fold_left (PiMonoAgent.count_line loads repr) lines 0 < 400 ->
      fallback_output loads repr lines = 100).
Proof.
  split; [|split].
  - induction lines as [|line rest IH]; intros start; [reflexivity|].
    cbn [filter fold_left]. destruct (counted loads repr line) eqn:E.
    + cbn [fold_left]. apply IH.
    + rewrite count_line_counted by exact E. apply IH.
  - assert (H : forall start, start <= fold_left (PiMonoAgent.count_line loads repr)
                                                 lines start).
    { induction lines as [|line rest IH]; intros start; cbn [fold_left]; [lia|].
      pose proof (count_line_grows loads repr start line).
      pose proof (IH (PiMonoAgent.count_line loads repr start line)). lia. }
    apply H.
  - intros H. unfold fallback_output.
    assert (Hq : fold_left (PiMonoAgent.count_line loads repr) lines 0 / 4 < 100)
      by (apply Z.div_lt_upper_bound; lia).
    lia.
Qed.

Lemma fallback_count_ignores_uncounted_lines_witness :
  fallback_output Json.loads Repr.of_json
    (Str.readlines
       (transcript
          [ "{`role`:`assistant`,`content`:`truncated";
            "{`type`:`message_update`,`message`:{`role`:`assistant`,`content`:`hello`}}" ]))
  = 100.
Proof.
  destruct (fallback_count_ignores_uncounted_lines Json.loads Repr.of_json
              (Str.readlines
                 (transcript
                    [ "{`role`:`assistant`,`content`:`truncated";
                      "{`type`:`message_update`,`message`:{`role`:`assistant`,`content`:`hello`}}" ])))
    as (_ & _ & H).
  apply H. vm_compute. reflexivity.
Defined.

(** ** The record and its metadata *)

Lemma positive_is_not_zero (n : pynum) :
  Py.is_positive n = true -> Py.is_zero n = false.
Proof.
  destruct n as [z|f]; simpl.
  - intros H. apply Z.ltb_lt in H. apply Z.eqb_neq. lia.
  - destruct f as [s|[|]| |[|] m e]; simpl; unfold Float64.ltb, Float64.eqb, SFltb, SFeqb;
      simpl; try discriminate; reflexivity.
Qed.

(** X5. In the metadata that pi-mono writes after a completed scan, the
    success flag implies the flag [actual_api_usage], and that flag implies
    that the counts and the cost of the record are the totals of the scan
    and not the fallback estimate. *)
Theorem actual_usage_means_no_estimate (loads : string -> outcome json)
        (repr : json -> string) (self : PiMonoAgent.t) (fs : logs) (ctx : AgentContext)
        (content : string) (acc : PiMonoAgent.totals) :
  fs (PiMonoAgent.locate fs) = Text content ->
  PiMonoAgent.scan loads PiMonoAgent.initial_totals (Str.readlines content) = Ok acc ->
  exists m,
    metadata (fst (PiMonoAgent.populate_context_post_run loads repr self fs ctx)) = Some m
    /\ (Py.dict_lookup "success" m = Some (MBool true) ->
        Py.dict_lookup "actual_api_usage" m = Some (MBool true))
    /\ (Py.dict_lookup "actual_api_usage" m = Some (MBool true) ->
        n_input_tokens (fst (PiMonoAgent.populate_context_post_run loads repr self fs ctx))
        = Some (PiMonoAgent.total_input_tokens acc)
        /\ n_output_tokens
             (fst (PiMonoAgent.populate_context_post_run loads repr self fs ctx))
           = Some (PiMonoAgent.total_output_tokens acc)
        /\ cost_usd (fst (PiMonoAgent.populate_context_post_run loads repr self fs ctx))
           = Some (PiMonoAgent.total_cost acc)).
Proof.
  intros Hfile Hscan.
  rewrite (populate_text loads repr self fs ctx content Hfile), Hscan.
  unfold pi_record. cbv zeta.
  generalize (existsb PiMonoAgent.has_error_text (firstn 20 (Str.readlines content))).
  intros he. exists (PiMonoAgent.success_metadata self acc he).
  split; [destruct (no_counts acc); reflexivity|].
  change (Py.dict_lookup "success" (PiMonoAgent.success_metadata self acc he))
    with (Some (MBool (negb he && Py.is_positive (PiMonoAgent.total_output_tokens acc)))).
  change (Py.dict_lookup "actual_api_usage" (PiMonoAgent.success_metadata self acc he))
    with (Some (MBool (Py.is_positive (PiMonoAgent.total_input_tokens acc)
                       || Py.is_positive (PiMonoAgent.total_output_tokens acc)))).
  split.
  - intros H. injection H as H0. apply andb_prop in H0. destruct H0 as [_ Hpos].
    rewrite Hpos, orb_true_r. reflexivity.
  - intros H. injection H as H0.
    assert (Hcounts : no_counts acc = false).
    { unfold no_counts. apply orb_prop in H0. destruct H0 as [Hp|Hp];
        apply positive_is_not_zero in Hp; rewrite Hp;
        [reflexivity|apply andb_false_r]. }
    rewrite Hcounts. repeat split.
Qed.

Lemma actual_usage_means_no_estimate_witness :
  exists m,
    metadata
      (fst (PiMonoAgent.populate_context_post_run Json.loads Repr.of_json sample_pi
              (pi_logs
                 [ "{`type`:`message_end`,`message`:{`role`:`assistant`,`usage`:{`input`:10,`output`:4}}}" ])
              empty_context))
    = Some m
    /\ Py.dict_lookup "actual_api_usage" m = Some (MBool true).
Proof.
  destruct (actual_usage_means_no_estimate Json.loads Repr.of_json sample_pi
              (pi_logs
                 [ "{`type`:`message_end`,`message`:{`role`:`assistant`,`usage`:{`input`:10,`output`:4}}}" ])
              empty_context _
              (PiMonoAgent.mkTotals (PInt 10) (PInt 4) (PInt 0) (PInt 0)
                 (PFloat Float64.zero))
              eq_refl) as [m (Hm & Hsuccess & _)].
  - vm_compute. reflexivity.
  - exists m. split; [exact Hm|]. apply Hsuccess.
    pose proof Hm as Hm2. vm_compute in Hm2. injection Hm2 as Hm2.
    rewrite <- Hm2. reflexivity.
Defined.

(** X6. The metadata that pi-mono leaves always tells success from
    failure: it has the key [success] exactly when the transcript could be
    read and scanned to its end, and the key [error] exactly otherwise,
    never both. *)
Theorem metadata_has_error_or_success (loads : string -> outcome json)
        (repr : json -> string) (self : PiMonoAgent.t) (fs : logs) (ctx : AgentContext) :
  exists m,
    metadata (fst (PiMonoAgent.populate_context_post_run loads repr self fs ctx)) = Some m
    /\ Py.dict_mem "error" m = negb (Py.dict_mem "success" m)
    /\ (Py.dict_mem "success" m = true <->
        exists content acc,
          fs (PiMonoAgent.locate fs) = Text content
          /\ PiMonoAgent.scan loads PiMonoAgent.initial_totals (Str.readlines content)
             = Ok acc).
Proof.
  destruct (fs (PiMonoAgent.locate fs)) as [|content|prefix e] eqn:Hfile.
  - rewrite (populate_missing loads repr self fs ctx Hfile).
    eexists. split; [reflexivity|]. split; [reflexivity|]. split; [discriminate|].
    intros (content & acc & H & _). discriminate.
  - rewrite (populate_text loads repr self fs ctx content Hfile).
    destruct (PiMonoAgent.scan loads PiMonoAgent.initial_totals (Str.readlines content))
      as [acc|e] eqn:Hscan.
    + exists (PiMonoAgent.success_metadata self acc
                (existsb PiMonoAgent.has_error_text (firstn 20 (Str.readlines content)))).
      split; [unfold pi_record; destruct (no_counts acc); reflexivity|].
      split; [reflexivity|]. split; [|reflexivity].
      intros _. exists content, acc. split; [reflexivity|exact Hscan].
    + eexists. split; [reflexivity|]. split; [reflexivity|]. split; [discriminate|].
      intros (content' & acc & H & Hscan'). inversion H. subst content'.
      rewrite Hscan in Hscan'. discriminate.
  - rewrite (populate_broken loads repr self fs ctx prefix e Hfile).
    destruct (PiMonoAgent.scan loads PiMonoAgent.initial_totals (Str.readlines prefix));
      (eexists; split; [reflexivity|]; split; [reflexivity|]; split; [discriminate|];
       intros (content & acc & H & _); discriminate).
Qed.

(** X7. Running the pi-mono extractor a second time on the same log
    directory changes nothing: the record after two runs is the record
    after one. *)
Theorem pi_mono_extractor_is_idempotent (loads : string -> outcome json)
        (repr : json -> string) (self : PiMonoAgent.t) (fs : logs) (ctx : AgentContext) :
  PiMonoAgent.populate_context_post_run loads repr self fs
    (fst (PiMonoAgent.populate_context_post_run loads repr self fs ctx))
  = PiMonoAgent.populate_context_post_run loads repr self fs ctx.
Proof.
  destruct (fs (PiMonoAgent.locate fs)) as [|content|prefix e] eqn:Hfile.
  - rewrite !(populate_missing loads repr self fs _ Hfile). reflexivity.
  - rewrite !(populate_text loads repr self fs _ content Hfile).
    destruct (PiMonoAgent.scan loads PiMonoAgent.initial_totals (Str.readlines content));
      reflexivity.
  - rewrite !(populate_broken loads repr self fs _ prefix e Hfile).
    destruct (PiMonoAgent.scan loads PiMonoAgent.initial_totals (Str.readlines prefix));
      reflexivity.
Qed.

(** X8. The pi-mono extractor reads the transcript at the direct path
    whenever it exists: two log directories with the same file there give
    the same record, whatever else they hold, in particular whatever the
    directory of the main command holds. *)
Theorem direct_transcript_is_preferred (loads : string -> outcome json)
        (repr : json -> string) (self : PiMonoAgent.t) (fs1 fs2 : logs)
        (ctx : AgentContext) :
  fs1 "pi_output.log" = fs2 "pi_output.log" ->
  fs1 "pi_output.log" <> Missing ->
  PiMonoAgent.populate_context_post_run loads repr self fs1 ctx
  = PiMonoAgent.populate_context_post_run loads repr self fs2 ctx.
Proof.
  intros Hsame Hexists.
  assert (H1 : PiMonoAgent.locate fs1 = "pi_output.log").
  { unfold PiMonoAgent.locate, Fs.exists_.
    destruct (fs1 "pi_output.log"); [contradiction|reflexivity|reflexivity]. }
  assert (H2 : PiMonoAgent.locate fs2 = "pi_output.log").
  { unfold PiMonoAgent.locate, Fs.exists_. rewrite <- Hsame.
    destruct (fs1 "pi_output.log"); [contradiction|reflexivity|reflexivity]. }
  destruct (fs1 "pi_output.log") as [|content|prefix e] eqn:Hfile; [contradiction| |].
  - rewrite (populate_text loads repr self fs1 ctx content)
      by (rewrite H1; exact Hfile).
    rewrite (populate_text loads repr self fs2 ctx content)
      by (rewrite H2; symmetry; exact Hsame).
    reflexivity.
  - rewrite (populate_broken loads repr self fs1 ctx prefix e)
      by (rewrite H1; exact Hfile).
    rewrite (populate_broken loads repr self fs2 ctx prefix e)
      by (rewrite H2; symmetry; exact Hsame).
    reflexivity.
Qed.

Lemma direct_transcript_is_preferred_witness :
  PiMonoAgent.populate_context_post_run Json.loads Repr.of_json sample_pi
    (pi_logs [ "{`type`:`message_end`,`message`:null}" ]) empty_context
  = PiMonoAgent.populate_context_post_run Json.loads Repr.of_json sample_pi
      (fun path => if String.eqb path "command-1/pi_output.log" then Text "other"
                   else pi_logs [ "{`type`:`message_end`,`message`:null}" ] path)
      empty_context.
Proof.
  apply direct_transcript_is_preferred.
  - reflexivity.
  - discriminate.
Defined.

(** ** Environment variables of the commands *)

Lemma dict_lookup_set_same {V : Type} (key : string) (v : V) (d : list (string * V)) :
  Py.dict_lookup key (Py.dict_set key v d) = Some v.
Proof.
  induction d as [|[k w] d IH]; simpl.
  - rewrite String.eqb_refl. reflexivity.
  - destruct (String.eqb k key) eqn:E; simpl; rewrite E; [reflexivity|exact IH].
Qed.

Lemma dict_lookup_set_other {V : Type} (key k : string) (v : V) (d : list (string * V)) :
  key <> k ->
  Py.dict_lookup k (Py.dict_set key v d) = Py.dict_lookup k d.
Proof.
  intros Hne. induction d as [|[k' w] d IH]; simpl.
  - apply String.eqb_neq in Hne. rewrite Hne. reflexivity.
  - destruct (String.eqb k' key) eqn:E; simpl.
    + apply String.eqb_eq in E. subst k'.
      apply String.eqb_neq in Hne. rewrite Hne. reflexivity.
    + destruct (String.eqb k' k); [reflexivity|exact IH].
Qed.

Lemma dict_lookup_set {V : Type} (key k : string) (v : V) (d : list (string * V)) :
  Py.dict_lookup k (Py.dict_set key v d)
  = if String.eqb key k then Some v else Py.dict_lookup k d.
Proof.
  destruct (String.eqb key k) eqn:E.
  - apply String.eqb_eq in E. subst k. apply dict_lookup_set_same.
  - apply String.eqb_neq in E. apply dict_lookup_set_other. exact E.
Qed.

Section PiMonoEnvironment.

Variable environ : environ_t.

Lemma first_available_sound (names : list string) :
  from_environ environ (PiMonoAgent.first_available environ names).
Proof.
  induction names as [|name rest IH]; intros k v; simpl; [discriminate|].
  destruct (environ name) as [[|c value]|] eqn:E; try apply IH.
  simpl. destruct (String.eqb name k) eqn:Ek; [|discriminate].
  apply String.eqb_eq in Ek. subst k. intros H. inversion H. subst v. exact E.
Qed.

Lemma pass_common_sound (env_vars : list (string * string)) (key : string) :
  from_environ environ env_vars ->
  from_environ environ (PiMonoAgent.pass_common environ env_vars key).
Proof.
  intros Hs k v. unfold PiMonoAgent.pass_common.
  destruct (negb (Py.dict_mem key env_vars)); [|apply Hs].
  destruct (environ key) as [value|] eqn:E; [|apply Hs].
  rewrite dict_lookup_set. destruct (String.eqb key k) eqn:Ek; [|apply Hs].
  apply String.eqb_eq in Ek. subst k. intros H. inversion H. subst v. exact E.
Qed.

Lemma pass_through_sound (env_vars : list (string * string)) (key : string) :
  from_environ environ env_vars ->
  from_environ environ (PiMonoAgent.pass_through environ env_vars key).
Proof.
  intros Hs k v. unfold PiMonoAgent.pass_through.
  destruct (environ key) as [value|] eqn:E; [|apply Hs].
  rewrite dict_lookup_set. destruct (String.eqb key k) eqn:Ek; [|apply Hs].
  apply String.eqb_eq in Ek. subst k. intros H. inversion H. subst v. exact E.
Qed.

Lemma fold_sound (step : list (string * string) -> string -> list (string * string))
      (keys : list string) (env_vars : list (string * string)) :
  (forall e key, from_environ environ e -> from_environ environ (step e key)) ->
  from_environ environ env_vars ->
  from_environ environ (fold_left step keys env_vars).
Proof.
  intros Hstep. revert env_vars.
  induction keys as [|key keys IH]; intros env_vars Hs; simpl; [exact Hs|].
  apply IH. apply Hstep. exact Hs.
Qed.

Lemma build_env_sound (self : PiMonoAgent.t) :
  from_environ environ (PiMonoAgent.build_env self environ).
Proof.
  unfold PiMonoAgent.build_env.
  apply fold_sound; [intros e key; apply pass_through_sound|].
  apply fold_sound; [intros e key; apply pass_common_sound|].
  destruct (Py.dict_lookup (PiMonoAgent.provider self) PiMonoAgent.api_key_mapping).
  - apply first_available_sound.
  - intros k v H. discriminate.
Qed.

(** A variable that [env_vars] holds with its environment value stays so. *)
Lemma pass_common_keeps (env_vars : list (string * string)) (key k v : string) :
  from_environ environ env_vars ->
  environ k = Some v ->
  (Py.dict_lookup k env_vars = Some v \/ key = k) ->
  Py.dict_lookup k (PiMonoAgent.pass_common environ env_vars key) = Some v.
Proof.
  intros Hs Hk H. unfold PiMonoAgent.pass_common, Py.dict_mem.
  destruct (String.eqb key k) eqn:Ek.
  - apply String.eqb_eq in Ek. subst key.
    destruct (Py.dict_lookup k env_vars) as [w|] eqn:E; cbn [negb].
    + rewrite E. f_equal. apply Hs in E. congruence.
    + rewrite Hk. apply dict_lookup_set_same.
  - apply String.eqb_neq in Ek. destruct H as [H|H]; [|contradiction].
    destruct (negb match Py.dict_lookup key env_vars with Some _ => true | None => false end);
      [|exact H].
    destruct (environ key); [|exact H].
    rewrite dict_lookup_set_other by exact Ek. exact H.
Qed.

Lemma pass_through_keeps (env_vars : list (string * string)) (key k v : string) :
  environ k = Some v ->
  (Py.dict_lookup k env_vars = Some v \/ key = k) ->
  Py.dict_lookup k (PiMonoAgent.pass_through environ env_vars key) = Some v.
Proof.
  intros Hk H. unfold PiMonoAgent.pass_through.
  destruct (String.eqb key k) eqn:Ek.
  - apply String.eqb_eq in Ek. subst key. rewrite Hk. apply dict_lookup_set_same.
  - apply String.eqb_neq in Ek. destruct H as [H|H]; [|contradiction].
    destruct (environ key); [|exact H].
    rewrite dict_lookup_set_other by exact Ek. exact H.
Qed.

Lemma fold_common_keeps (keys : list string) (env_vars : list (string * string))
      (k v : string) :
  from_environ environ env_vars ->
  environ k = Some v ->
  (Py.dict_lookup k env_vars = Some v \/ In k keys) ->
  Py.dict_lookup k (fold_left (PiMonoAgent.pass_common environ) keys env_vars) = Some v.
Proof.
  revert env_vars. induction keys as [|key keys IH]; intros env_vars Hs Hk H; simpl.
  - destruct H as [H|[]]. exact H.
  - apply IH; [apply pass_common_sound; exact Hs|exact Hk|].
    destruct H as [H|[H|H]].
    + left. apply pass_common_keeps; [exact Hs|exact Hk|left; exact H].
    + left. apply pass_common_keeps; [exact Hs|exact Hk|right; exact H].
    + right. exact H.
Qed.

Lemma fold_through_keeps (keys : list string) (env_vars : list (string * string))
      (k v : string) :
  environ k = Some v ->
  (Py.dict_lookup k env_vars = Some v \/ In k keys) ->
  Py.dict_lookup k (fold_left (PiMonoAgent.pass_through environ) keys env_vars) = Some v.
Proof.
  revert env_vars. induction keys as [|key keys IH]; intros env_vars Hk H; simpl.
  - destruct H as [H|[]]. exact H.
  - apply IH; [exact Hk|].
    destruct H as [H|[H|H]].
    + left. apply pass_through_keeps; [exact Hk|left; exact H].
    + left. apply pass_through_keeps; [exact Hk|right; exact H].
    + right. exact H.
Qed.

End PiMonoEnvironment.

(** X9. The environment that pi-mono hands to its commands holds only
    variables of the process environment, each with the value it has there,
    and it holds every one of the nine pass-through variables that the
    process environment has; all commands of a run share it. *)
Theorem pi_mono_forwards_environment (self : PiMonoAgent.t) (environ : environ_t) :
  (forall k v,
      Py.dict_lookup k (PiMonoAgent.build_env self environ) = Some v ->
      environ k = Some v)
  /\ (forall k v,
         In k pi_pass_through_keys -> environ k = Some v ->
         Py.dict_lookup k (PiMonoAgent.build_env self environ) = Some v)
  /\ (forall instruction cmd,
         In cmd (PiMonoAgent.create_run_agent_commands self environ instruction) ->
         env cmd = env_or_none (PiMonoAgent.build_env self environ)).
Proof.
  split; [apply build_env_sound|]. split.
  - intros k v Hin Hk. unfold PiMonoAgent.build_env.
    set (first := match Py.dict_lookup (PiMonoAgent.provider self)
                                       PiMonoAgent.api_key_mapping with
                  | Some names => PiMonoAgent.first_available environ names
                  | None => []
                  end).
    assert (Hfirst : forall k v, Py.dict_lookup k first = Some v -> environ k = Some v).
    { unfold first.
      destruct (Py.dict_lookup (PiMonoAgent.provider self) PiMonoAgent.api_key_mapping).
      - apply first_available_sound.
      - intros k' v' H. discriminate. }
    apply fold_through_keeps; [exact Hk|].
    unfold pi_pass_through_keys in Hin.
    destruct Hin as [H|[H|[H|Hin]]].
    + left. apply fold_common_keeps; [exact Hfirst|exact Hk|].
      right. left. exact H.
    + left. apply fold_common_keeps; [exact Hfirst|exact Hk|].
      right. right. left. exact H.
    + left. apply fold_common_keeps; [exact Hfirst|exact Hk|].
      right. right. right. left. exact H.
    + right. exact Hin.
  - intros instruction cmd Hin. unfold PiMonoAgent.create_run_agent_commands in Hin.
    destruct (String.eqb (PiMonoAgent.output_mode self) "json"); simpl in Hin;
      repeat (destruct Hin as [<-|Hin]; [reflexivity|]); destruct Hin.
Qed.

Lemma pi_mono_forwards_environment_witness :
  Py.dict_lookup "OPENAI_ORG"
    (PiMonoAgent.build_env sample_pi
       (fun k => if String.eqb k "OPENAI_ORG" then Some "org-1"
                 else if String.eqb k "HOME" then Some "/root" else None))
  = Some "org-1".
Proof.
  destruct (pi_mono_forwards_environment sample_pi
              (fun k => if String.eqb k "OPENAI_ORG" then Some "org-1"
                        else if String.eqb k "HOME" then Some "/root" else None))
    as (_ & Hall & _).
  apply Hall.
  - unfold pi_pass_through_keys. simpl. tauto.
  - reflexivity.
Defined.

Lemma lookup_set_if_present (key k : string) (value : option string)
      (env_vars : list (string * string)) :
  Py.dict_lookup k (FactoryDroidAgent.set_if_present key value env_vars)
  = match nonempty value with
    | Some v => if String.eqb k key then Some v else Py.dict_lookup k env_vars
    | None => Py.dict_lookup k env_vars
    end.
Proof.
  destruct value as [[|c v]|]; cbn [FactoryDroidAgent.set_if_present nonempty];
    try reflexivity.
  rewrite dict_lookup_set, String.eqb_sym. reflexivity.
Qed.

(** X10. Factory Droid forwards exactly four variables, each only with a
    non-empty value: the auth token as the environment had it when the
    agent was constructed, and the three API keys as the environment has
    them when the commands are built.  All four commands share this
    environment, and building them leaves the token of the agent alone. *)
Theorem factory_droid_forwards_credentials
        (at_construction : environ_t) (model_name : option string)
        (kw : FactoryDroidAgent.kwargs) (agent : FactoryDroidAgent.t)
        (environ : environ_t) (instruction : string) :
  FactoryDroidAgent.__init__ at_construction model_name kw = Ok agent ->
  (forall k,
      Py.dict_lookup k (FactoryDroidAgent.build_env agent environ)
      = if String.eqb k "FACTORY_AUTH_TOKEN" then nonempty (at_construction k)
        else if existsb (String.eqb k) droid_api_keys then nonempty (environ k)
        else None)
  /\ (forall cmd,
         In cmd (snd (FactoryDroidAgent.create_run_agent_commands agent environ instruction)) ->
         env cmd = env_or_none (FactoryDroidAgent.build_env agent environ))
  /\ FactoryDroidAgent.auth_token
       (fst (FactoryDroidAgent.create_run_agent_commands agent environ instruction))
     = at_construction "FACTORY_AUTH_TOKEN".
Proof.
  intros Hinit. unfold FactoryDroidAgent.__init__ in Hinit.
  injection Hinit as Hagent. subst agent. split; [|split].
  - intros k. unfold FactoryDroidAgent.build_env, droid_api_keys.
    cbn [FactoryDroidAgent.auth_token existsb].
    rewrite !lookup_set_if_present. cbn [Py.dict_lookup].
    destruct (String.eqb k "FACTORY_AUTH_TOKEN") eqn:E1;
      destruct (String.eqb k "FACTORY_API_KEY") eqn:E2;
      destruct (String.eqb k "ANTHROPIC_API_KEY") eqn:E3;
      destruct (String.eqb k "OPENAI_API_KEY") eqn:E4;
      try (apply String.eqb_eq in E1); try (apply String.eqb_eq in E2);
      try (apply String.eqb_eq in E3); try (apply String.eqb_eq in E4);
      try congruence; subst; cbn [orb];
      repeat match goal with
             | |- context [nonempty ?v] => destruct (nonempty v)
             end; reflexivity.
  - intros cmd Hin. cbn [FactoryDroidAgent.create_run_agent_commands snd] in Hin.
    repeat (destruct Hin as [<-|Hin]; [reflexivity|]). destruct Hin.
  - reflexivity.
Qed.

Lemma factory_droid_forwards_credentials_witness :
  Py.dict_lookup "FACTORY_AUTH_TOKEN"
    (FactoryDroidAgent.build_env
       (FactoryDroidAgent.mkAgent (Some "token-1") "claude-sonnet-4-20250514"
                                  "medium" 1800 None)
       (fun _ => None))
  = Some "token-1".
Proof.
  destruct (factory_droid_forwards_credentials
              (fun k => if String.eqb k "FACTORY_AUTH_TOKEN" then Some "token-1" else None)
              None (FactoryDroidAgent.mkKwargs None None None)
              (FactoryDroidAgent.mkAgent (Some "token-1") "claude-sonnet-4-20250514"
                                         "medium" 1800 None)
              (fun _ => None) "fix the bug" eq_refl) as (Hall & _).
  rewrite Hall. reflexivity.
Defined.

(** ** Construction *)

Lemma listed_provider_lookup (p : string) :
  In p allow_list ->
  Py.dict_lookup p PiMonoAgent.provider_map = Some p
  /\ Str.is_empty p = false
  /\ Str.contains "/" p = false.
Proof.
  unfold allow_list, PiMonoAgent.provider_map. cbn [map fst]. intros H.
  repeat (destruct H as [<-|H]; [repeat split; reflexivity|]). destruct H.
Qed.

(** X11. The pi-mono constructor raises the format error when there is no
    provider keyword and the model name is absent or has no slash.  With a
    listed provider keyword and a model keyword it constructs an agent for
    every model name, also for none, and the model is the keyword after
    normalisation.  For a listed provider taken from a model name that
    says claude but none of haiku, opus and sonnet, it constructs an agent
    whose model is the unset keyword, and the command of this agent
    carries no model option. *)
Theorem pi_mono_construction :
  (forall model_name kw,
      Py.truthy (PiMonoAgent.kw_provider kw) = false ->
      match model_name with
      | Some name => Str.contains "/" name = false
      | None => True
      end ->
      PiMonoAgent.__init__ model_name kw
      = Raise (ValueError "PiMonoAgent expects model_name like 'provider/model'."))
  /\ (forall model_name kw p c m,
         PiMonoAgent.kw_provider kw = Some p ->
         In p allow_list ->
         PiMonoAgent.kw_pi_model kw = Some (String c m) ->
         exists agent,
           PiMonoAgent.__init__ model_name kw = Ok agent
           /\ PiMonoAgent.provider agent = p
           /\ PiMonoAgent.pi_model agent
              = PiMonoAgent._normalize_model_id p (Some (String c m)))
  /\ (forall kw p model instruction,
         Py.truthy (PiMonoAgent.kw_provider kw) = false ->
         Py.truthy (PiMonoAgent.kw_pi_model kw) = false ->
         In p allow_list ->
         Str.contains "claude" (Str.lower model) = true ->
         Str.contains "haiku" (Str.lower model) = false ->
         Str.contains "opus" (Str.lower model) = false ->
         Str.contains "sonnet" (Str.lower model) = false ->
         exists agent,
           PiMonoAgent.__init__ (Some (p ++ "/" ++ model)) kw = Ok agent
           /\ PiMonoAgent.provider agent = p
           /\ PiMonoAgent.pi_model agent = PiMonoAgent.kw_pi_model kw
           /\ PiMonoAgent.pi_command_parts agent instruction
              = (["pi"; "--provider"; p; "--mode"; PiMonoAgent.output_mode agent]
                 ++ (if PiMonoAgent.no_session agent then ["--no-session"] else [])
                 ++ [Shlex.quote instruction])%list).
Proof.
  split; [|split].
  - intros model_name kw Hkw Hname. unfold PiMonoAgent.__init__, PiMonoAgent.resolve.
    rewrite Hkw. cbn [negb].
    destruct model_name as [name|]; [|reflexivity].
    apply split_once_none in Hname. rewrite Hname. reflexivity.
  - intros model_name kw p c m Hkw Hin Hmodel.
    destruct (listed_provider_lookup p Hin) as (Hlook & Hne & _).
    destruct p as [|a p]; [discriminate|].
    destruct (resolve_keyword model_name kw a p Hkw) as [model Hres].
    unfold PiMonoAgent.__init__. rewrite Hres. cbn [bind]. rewrite Hlook, Hmodel.
    cbn [Py.truthy negb]. eexists. split; [reflexivity|]. split; reflexivity.
  - intros kw p model instruction Hkw Hpm Hin Hclaude Hhaiku Hopus Hsonnet.
    destruct (listed_provider_lookup p Hin) as (Hlook & Hne & Hslash).
    unfold PiMonoAgent.__init__, PiMonoAgent.resolve. rewrite Hkw. cbn [negb].
    change (p ++ "/" ++ model) with (p ++ String "/" model).
    rewrite split_once_app by exact Hslash. cbn [bind]. rewrite Hlook, Hpm.
    cbn [negb]. unfold PiMonoAgent.map_model.
    rewrite Hclaude, Hhaiku, Hopus, Hsonnet.
    eexists. split; [reflexivity|]. cbn [PiMonoAgent.provider PiMonoAgent.pi_model].
    split; [reflexivity|].
    assert (Hnorm : PiMonoAgent._normalize_model_id p (PiMonoAgent.kw_pi_model kw)
                    = PiMonoAgent.kw_pi_model kw).
    { destruct (PiMonoAgent.kw_pi_model kw) as [[|c m]|]; try reflexivity.
      discriminate. }
    split; [exact Hnorm|].
    unfold PiMonoAgent.pi_command_parts.
    cbn [PiMonoAgent.provider PiMonoAgent.pi_model PiMonoAgent.output_mode
         PiMonoAgent.no_session].
    rewrite Hne, Hnorm.
    destruct (PiMonoAgent.kw_pi_model kw) as [[|c m]|]; try reflexivity.
    discriminate.
Qed.

Lemma pi_mono_construction_witness :
  PiMonoAgent.__init__ (Some "claude-3-opus")
    (PiMonoAgent.mkKwargs None None None None None)
  = Raise (ValueError "PiMonoAgent expects model_name like 'provider/model'.")
  /\ (exists agent,
         PiMonoAgent.__init__ None
           (PiMonoAgent.mkKwargs (Some "openai") (Some "openai/gpt-4o") None None None)
         = Ok agent
         /\ PiMonoAgent.provider agent = "openai"
         /\ PiMonoAgent.pi_model agent = Some "gpt-4o")
  /\ (exists agent,
         PiMonoAgent.__init__ (Some ("anthropic" ++ "/" ++ "claude-2.1"))
           (PiMonoAgent.mkKwargs None None None None None)
         = Ok agent
         /\ PiMonoAgent.provider agent = "anthropic"
         /\ PiMonoAgent.pi_model agent = None
         /\ PiMonoAgent.pi_command_parts agent "fix the bug"
            = ["pi"; "--provider"; "anthropic"; "--mode"; "json"; "'fix the bug'"]).
Proof.
  destruct pi_mono_construction as (Hformat & Hkeyword & Hclaude).
  split; [|split].
  - apply Hformat; reflexivity.
  - destruct (Hkeyword None
                (PiMonoAgent.mkKwargs (Some "openai") (Some "openai/gpt-4o") None None None)
                "openai" "o"%char "penai/gpt-4o" eq_refl) as (agent & H1 & H2 & H3).
    + unfold allow_list. simpl. tauto.
    + reflexivity.
    + exists agent. split; [exact H1|]. split; [exact H2|]. rewrite H3. reflexivity.
  - destruct (Hclaude (PiMonoAgent.mkKwargs None None None None None)
                "anthropic" "claude-2.1" "fix the bug" eq_refl eq_refl)
      as (agent & H1 & H2 & H3 & H4).
    + unfold allow_list. simpl. tauto.
    + reflexivity.
    + reflexivity.
    + reflexivity.
    + reflexivity.
    + exists agent. split; [exact H1|]. split; [exact H2|]. split; [exact H3|].
      rewrite H4. injection H1 as <-. reflexivity.
Defined.

Lemma pick_anthropic (short_model model : string) :
  FactoryDroidAgent.pick_short_model short_model (Some ("anthropic" ++ "/" ++ model))
  = if Str.contains "haiku" (Str.lower model) then "haiku"
    else if Str.contains "opus" (Str.lower model) then "opus"
    else if Str.contains "sonnet" (Str.lower model) then "sonnet"
    else short_model.
Proof.
  unfold FactoryDroidAgent.pick_short_model.
  change ("anthropic" ++ "/" ++ model) with ("anthropic" ++ String "/" model).
  rewrite split_once_app by reflexivity. reflexivity.
Qed.

Lemma pick_openai (short_model model : string) :
  FactoryDroidAgent.pick_short_model short_model (Some ("openai" ++ "/" ++ model))
  = if Str.contains "gpt-5" (Str.lower model) then "gpt-5" else short_model.
Proof.
  unfold FactoryDroidAgent.pick_short_model.
  change ("openai" ++ "/" ++ model) with ("openai" ++ String "/" model).
  rewrite split_once_app by reflexivity. reflexivity.
Qed.

(** X12. The model of a Factory Droid agent.  A model name of provider
    anthropic that says haiku or sonnet gives the Sonnet model (there is no
    Haiku model), one that says opus and not haiku gives the Opus model,
    and a model name of provider openai that says gpt-5 gives
    [gpt-5-codex], whatever the [droid_model] keyword is.  A model name
    that is absent, has no slash, or names another provider leaves the
    choice to the keyword, [sonnet] by default, and a keyword that is no
    short name is taken as the model itself. *)
Theorem factory_droid_model_choice (environ : environ_t) (kw : FactoryDroidAgent.kwargs) :
  let model_of model_name :=
    match FactoryDroidAgent.__init__ environ model_name kw with
    | Ok agent => Some (FactoryDroidAgent.droid_model agent)
    | Raise _ => None
    end in
  let keyword :=
    match FactoryDroidAgent.kw_droid_model kw with Some m => m | None => "sonnet" end in
  (forall model,
      Str.contains "haiku" (Str.lower model) = true
      \/ (Str.contains "opus" (Str.lower model) = false
          /\ Str.contains "sonnet" (Str.lower model) = true) ->
      model_of (Some ("anthropic" ++ "/" ++ model)) = Some "claude-sonnet-4-20250514")
  /\ (forall model,
         Str.contains "haiku" (Str.lower model) = false ->
         Str.contains "opus" (Str.lower model) = true ->
         model_of (Some ("anthropic" ++ "/" ++ model)) = Some "claude-opus-4-1-20250805")
  /\ (forall model,
         Str.contains "gpt-5" (Str.lower model) = true ->
         model_of (Some ("openai" ++ "/" ++ model)) = Some "gpt-5-codex")
  /\ (forall model_name,
         match model_name with
         | Some name =>
             Str.contains "/" name = false
             \/ exists provider model,
                 name = provider ++ "/" ++ model
                 /\ Str.contains "/" provider = false
                 /\ provider <> "anthropic" /\ provider <> "openai"
         | None => True
         end ->
         model_of model_name = Some (droid_model_of keyword))
  /\ (~ In keyword (map fst FactoryDroidAgent._model_id_map) ->
      droid_model_of keyword = keyword).
Proof.
  cbv zeta. unfold FactoryDroidAgent.__init__. cbn [FactoryDroidAgent.droid_model].
  split; [|split; [|split; [|split]]].
  - intros model H. rewrite pick_anthropic.
    destruct H as [H|[H1 H2]].
    + rewrite H. reflexivity.
    + rewrite H1, H2. destruct (Str.contains "haiku" (Str.lower model)); reflexivity.
  - intros model H1 H2. rewrite pick_anthropic, H1, H2. reflexivity.
  - intros model H. rewrite pick_openai, H. reflexivity.
  - intros model_name H. unfold FactoryDroidAgent.pick_short_model.
    destruct model_name as [name|]; [|reflexivity].
    destruct H as [H|(provider & model & Hname & Hslash & Ha & Ho)].
    + apply split_once_none in H. rewrite H. reflexivity.
    + subst name. change (provider ++ "/" ++ model) with (provider ++ String "/" model).
      rewrite split_once_app by exact Hslash.
      apply String.eqb_neq in Ha, Ho. rewrite Ha, Ho. reflexivity.
  - intros H. unfold droid_model_of. apply dict_lookup_none in H. rewrite H. reflexivity.
Qed.

Lemma factory_droid_model_choice_witness :
  match FactoryDroidAgent.__init__ (fun _ => None)
          (Some ("anthropic" ++ "/" ++ "claude-3-5-haiku"))
          (FactoryDroidAgent.mkKwargs (Some "opus") None None) with
  | Ok agent => Some (FactoryDroidAgent.droid_model agent)
  | Raise _ => None
  end = Some "claude-sonnet-4-20250514"
  /\ droid_model_of "glm-4.6" = "glm-4.6".
Proof.
  destruct (factory_droid_model_choice (fun _ => None)
              (FactoryDroidAgent.mkKwargs (Some "opus") None None))
    as (Hsonnet & _).
  destruct (factory_droid_model_choice (fun _ => None)
              (FactoryDroidAgent.mkKwargs (Some "glm-4.6") None None))
    as (_ & _ & _ & _ & Hself).
  split.
  - exact (Hsonnet "claude-3-5-haiku" (or_introl eq_refl)).
  - apply Hself. cbn. intros H.
    repeat (destruct H as [H|H]; [discriminate|]). exact H.
Defined.

(** ** The Factory Droid extractor *)

Lemma droid_populate_text (self : FactoryDroidAgent.t) (fs : logs) (content : string)
      (ctx : AgentContext) :
  fs FactoryDroidAgent.output_file = Text content ->
  FactoryDroidAgent.populate_context_post_run self fs ctx
  = (droid_record self content ctx, Ok tt).
Proof.
  intros H. unfold FactoryDroidAgent.populate_context_post_run, Fs.exists_.
  rewrite H. unfold Act.try_except.
  rewrite (droid_parse_text self fs _ content ctx H). reflexivity.
Qed.

(** X13. The input estimate of the Factory Droid extractor comes from the
    instruction of the last call of the command builder: a quarter of its
    length, at least one, and unset when the instruction is empty.  A later
    call of the builder replaces the instruction of an earlier one, and an
    agent that never built commands gets no input estimate. *)
Theorem droid_input_estimate_follows_instruction
        (self : FactoryDroidAgent.t) (environ : environ_t) (instruction : string)
        (fs : logs) (ctx : AgentContext) (content : string) :
  fs FactoryDroidAgent.output_file = Text content ->
  let run self instruction :=
    fst (FactoryDroidAgent.create_run_agent_commands self environ instruction) in
  n_input_tokens
    (fst (FactoryDroidAgent.populate_context_post_run (run self instruction) fs ctx))
  = (if Str.is_empty instruction then None
     else Some (PInt (Z.max (Str.len instruction / 4) 1)))
  /\ (forall earlier, run (run self earlier) instruction = run self instruction)
  /\ (forall at_construction model_name kw agent,
         FactoryDroidAgent.__init__ at_construction model_name kw = Ok agent ->
         n_input_tokens (fst (FactoryDroidAgent.populate_context_post_run agent fs ctx))
         = None).
Proof.
  intros Hfile. cbv zeta. split; [|split].
  - rewrite (droid_populate_text _ fs content ctx Hfile).
    cbn [fst droid_record n_input_tokens FactoryDroidAgent.create_run_agent_commands].
    unfold droid_input. cbn [FactoryDroidAgent._last_instruction].
    destruct instruction; reflexivity.
  - intros earlier. reflexivity.
  - intros at_construction model_name kw agent Hinit.
    rewrite (droid_populate_text _ fs content ctx Hfile).
    unfold FactoryDroidAgent.__init__ in Hinit. injection Hinit as <-. reflexivity.
Qed.

Lemma droid_input_estimate_follows_instruction_witness :
  n_input_tokens
    (fst (FactoryDroidAgent.populate_context_post_run
            (fst (FactoryDroidAgent.create_run_agent_commands
                    sample_droid (fun _ => None) "fix the failing test"))
            (single_file FactoryDroidAgent.output_file (Text "done"))
            empty_context))
  = Some (PInt 5).
Proof.
  destruct (droid_input_estimate_follows_instruction
              sample_droid (fun _ => None) "fix the failing test"
              (single_file FactoryDroidAgent.output_file (Text "done"))
              empty_context "done" eq_refl) as (H & _).
  rewrite H. reflexivity.
Defined.

Lemma droid_model_has_no_rate (short : string) :
  droid_model_of short <> "GPT-5" ->
  droid_model_of short <> "droid-core" ->
  Py.dict_lookup (droid_model_of short) FactoryDroidAgent.cost_per_1k_tokens = None.
Proof.
  unfold droid_model_of.
  destruct (Py.dict_lookup short FactoryDroidAgent._model_id_map) as [id|] eqn:E.
  - intros _ _. apply dict_lookup_in in E. unfold FactoryDroidAgent._model_id_map in E.
    repeat (destruct E as [E|E]; [inversion E; reflexivity|]). destruct E.
  - intros Hgpt Hcore. apply dict_lookup_none. apply (proj1 (dict_lookup_none _ _)) in E.
    intros H. apply E. clear E.
    unfold FactoryDroidAgent.cost_per_1k_tokens in H. cbn [map fst] in H.
    unfold FactoryDroidAgent._model_id_map. cbn [map fst].
    destruct H as [H|[H|[H|[H|[H|[]]]]]].
    + left. exact H.
    + right. left. exact H.
    + right. right. left. exact H.
    + exfalso. apply Hgpt. symmetry. exact H.
    + exfalso. apply Hcore. symmetry. exact H.
Qed.

(** X14. The cost table of the Factory Droid extractor is keyed by short
    names, the model of an agent is a Factory model identifier: for every
    constructed agent whose model is neither [GPT-5] nor [droid-core] the
    table has no entry, so the rate is the default 0.003 per thousand
    tokens, also for the Opus model. *)
Theorem droid_rate_of_constructed_agent
        (environ : environ_t) (model_name : option string)
        (kw : FactoryDroidAgent.kwargs) (agent : FactoryDroidAgent.t) :
  FactoryDroidAgent.__init__ environ model_name kw = Ok agent ->
  FactoryDroidAgent.droid_model agent <> "GPT-5" ->
  FactoryDroidAgent.droid_model agent <> "droid-core" ->
  Py.dict_lookup (FactoryDroidAgent.droid_model agent)
                 FactoryDroidAgent.cost_per_1k_tokens = None
  /\ droid_rate agent = Float64.of_decimal 3 (-3).
Proof.
  intros Hinit Hgpt Hcore.
  assert (Hnone : Py.dict_lookup (FactoryDroidAgent.droid_model agent)
                                 FactoryDroidAgent.cost_per_1k_tokens = None).
  { unfold FactoryDroidAgent.__init__ in Hinit. injection Hinit as Hagent.
    rewrite <- Hagent in *. apply droid_model_has_no_rate; assumption. }
  split; [exact Hnone|]. unfold droid_rate. rewrite Hnone. reflexivity.
Qed.

Lemma droid_rate_of_constructed_agent_witness :
  droid_rate (FactoryDroidAgent.mkAgent None "claude-opus-4-1-20250805" "medium" 1800 None)
  = Float64.of_decimal 3 (-3).
Proof.
  apply (droid_rate_of_constructed_agent (fun _ => None) (Some "anthropic/claude-opus-4-1")
           (FactoryDroidAgent.mkKwargs None None None)).
  - reflexivity.
  - discriminate.
  - discriminate.
Defined.

Lemma split_length (sep : ascii) (s : string) :
  List.length (Str.split sep s) = S (count_char sep s).
Proof.
  induction s as [|c t IH]; [reflexivity|]. simpl.
  destruct (Ascii.eqb c sep); simpl.
  - rewrite IH. reflexivity.
  - destruct (Str.split sep t) as [|w ws]; [discriminate|]. simpl in *. exact IH.
Qed.

Lemma firstn_incl {A : Type} (n : nat) (l : list A) (x : A) :
  In x (firstn n l) -> In x l.
Proof.
  revert l. induction n as [|n IH]; intros [|y l]; simpl; try tauto.
  intros [H|H]; [left; exact H|right; apply IH; exact H].
Qed.

(** X15. For a transcript that can be read, the Factory Droid extractor
    records as the number of lines one more than the number of newline
    characters, and as errors the value [None] exactly when no line holds
    [error] or [failed] in any letter case; otherwise it records between
    one and five lines, each a line of the transcript holding one of the
    two words. *)
Theorem droid_metadata_lines_and_errors
        (self : FactoryDroidAgent.t) (fs : logs) (ctx : AgentContext) (content : string) :
  fs FactoryDroidAgent.output_file = Text content ->
  exists m,
    metadata (fst (FactoryDroidAgent.populate_context_post_run self fs ctx)) = Some m
    /\ Py.dict_lookup "output_lines" m
       = Some (MInt (Z.of_nat (count_char Str.newline content) + 1))
    /\ (Py.dict_lookup "errors" m = Some MNone
        <-> forall line, In line (Str.split Str.newline content) ->
                         FactoryDroidAgent.has_error_text line = false)
    /\ (Py.dict_lookup "errors" m <> Some MNone ->
        exists errors,
          Py.dict_lookup "errors" m = Some (MStrs errors)
          /\ (1 <= List.length errors <= 5)%nat
          /\ forall line, In line errors ->
                          In line (Str.split Str.newline content)
                          /\ FactoryDroidAgent.has_error_text line = true).
Proof.
  intros Hfile. rewrite (droid_populate_text self fs content ctx Hfile).
  cbn [fst droid_record metadata]. eexists. split; [reflexivity|].
  unfold FactoryDroidAgent.result_metadata.
  set (lines := Str.split Str.newline content).
  set (error_lines := filter FactoryDroidAgent.has_error_text lines).
  assert (Hfilter : forall line, In line error_lines ->
                                 In line lines
                                 /\ FactoryDroidAgent.has_error_text line = true).
  { intros line H. apply filter_In in H. exact H. }
  split; [|split].
  - change (Py.dict_lookup "output_lines" _)
      with (Some (MInt (Z.of_nat (List.length lines)))).
    unfold lines. rewrite split_length. do 2 f_equal. lia.
  - change (Py.dict_lookup "errors" _)
      with (Some (match error_lines with
                  | [] => MNone
                  | _ :: _ => MStrs (firstn 5 error_lines)
                  end)).
    split.
    + intros H line Hin.
      destruct (FactoryDroidAgent.has_error_text line) eqn:E; [|reflexivity].
      assert (Hl : In line error_lines) by (apply filter_In; split; assumption).
      destruct error_lines; [destruct Hl|discriminate].
    + intros H. destruct error_lines as [|line rest] eqn:E; [reflexivity|].
      assert (Hl : In line lines /\ FactoryDroidAgent.has_error_text line = true).
      { apply Hfilter. left. reflexivity. }
      destruct Hl as [Hl Ht]. rewrite (H line Hl) in Ht. discriminate.
  - change (Py.dict_lookup "errors" _)
      with (Some (match error_lines with
                  | [] => MNone
                  | _ :: _ => MStrs (firstn 5 error_lines)
                  end)).
    intros H. destruct error_lines as [|line rest] eqn:E; [contradiction|].
    eexists. split; [reflexivity|]. split.
    + split; [simpl; lia|]. apply firstn_le_length.
    + intros l Hin. apply Hfilter. apply firstn_incl in Hin. exact Hin.
Qed.

Lemma droid_metadata_lines_and_errors_witness :
  exists m,
    metadata
      (fst (FactoryDroidAgent.populate_context_post_run sample_droid
              (single_file FactoryDroidAgent.output_file
                 (Text ("build FAILED" ++ String Str.newline "done")))
              empty_context))
    = Some m
    /\ Py.dict_lookup "output_lines" m = Some (MInt 2)
    /\ Py.dict_lookup "errors" m = Some (MStrs ["build FAILED"]).
Proof.
  destruct (droid_metadata_lines_and_errors sample_droid
              (single_file FactoryDroidAgent.output_file
                 (Text ("build FAILED" ++ String Str.newline "done")))
              empty_context ("build FAILED" ++ String Str.newline "done") eq_refl)
    as (m & Hm & Hlines & _).
  exists m. split; [exact Hm|]. split; [exact Hlines|].
  vm_compute in Hm. injection Hm as <-. reflexivity.
Defined.

Lemma droid_outputs_once (self : FactoryDroidAgent.t) (fs : logs)
      (paths : list string) (ctx : AgentContext) :
  let once := fst (FactoryDroidAgent.check_command_outputs self fs paths ctx) in
  fst (FactoryDroidAgent.check_command_outputs self fs paths once) = once
  /\ n_input_tokens once = n_input_tokens ctx
  /\ n_output_tokens once = n_output_tokens ctx
  /\ n_cache_tokens once = n_cache_tokens ctx
  /\ cost_usd once = cost_usd ctx.
Proof.
  cbv zeta. revert ctx. induction paths as [|path paths IH]; intros ctx; simpl.
  - repeat split; reflexivity.
  - destruct (Fs.exists_ fs path); [|apply IH].
    unfold Act.bind, Act.lift. destruct (Fs.read fs path) as [content|e].
    + destruct (negb (Str.is_empty content)); [|apply IH].
      repeat split; reflexivity.
    + repeat split; reflexivity.
Qed.

(** X16. The Factory Droid extractor never writes the cache-token count,
    and when the transcript is absent it writes no count and no cost at
    all; running it a second time on the same files leaves the record of
    the first run as it is. *)
Theorem factory_droid_extractor_is_idempotent
        (self : FactoryDroidAgent.t) (fs : logs) (ctx : AgentContext) :
  let once := fst (FactoryDroidAgent.populate_context_post_run self fs ctx) in
  fst (FactoryDroidAgent.populate_context_post_run self fs once) = once
  /\ n_cache_tokens once = n_cache_tokens ctx
  /\ (Fs.exists_ fs FactoryDroidAgent.output_file = false ->
      n_input_tokens once = n_input_tokens ctx
      /\ n_output_tokens once = n_output_tokens ctx
      /\ cost_usd once = cost_usd ctx).
Proof.
  cbv zeta. unfold FactoryDroidAgent.populate_context_post_run, Fs.exists_.
  destruct (fs FactoryDroidAgent.output_file) as [|content|prefix e] eqn:Hfile.
  - destruct (droid_outputs_once self fs FactoryDroidAgent.command_output_paths ctx)
      as (H1 & H2 & H3 & H4 & H5).
    split; [exact H1|]. split; [exact H4|]. intros _. repeat split; assumption.
  - unfold Act.try_except. rewrite !(droid_parse_text self fs _ content _ Hfile).
    split; [reflexivity|]. split; [reflexivity|]. discriminate.
  - unfold Act.try_except. rewrite !(droid_parse_broken self fs _ prefix e _ Hfile).
    split; [reflexivity|]. split; [reflexivity|]. discriminate.
Qed.

Lemma factory_droid_extractor_is_idempotent_witness :
  Fs.exists_ (single_file "command-1/stdout.txt" (Text "Auth file found"))
             FactoryDroidAgent.output_file = false
  /\ cost_usd
       (fst (FactoryDroidAgent.populate_context_post_run sample_droid
               (single_file "command-1/stdout.txt" (Text "Auth file found"))
               empty_context))
     = None.
Proof.
  split; [reflexivity|].
  destruct (factory_droid_extractor_is_idempotent sample_droid
              (single_file "command-1/stdout.txt" (Text "Auth file found"))
              empty_context) as (_ & _ & H).
  destruct (H eq_refl) as (_ & _ & Hcost). exact Hcost.
Defined.

(** ** Setup *)

Lemma uploads_app (a b : list event) :
  uploads (a ++ b)%list = (uploads a ++ uploads b)%list.
Proof.
  induction a as [|[| |s t] a IH]; simpl; try exact IH; [reflexivity|].
  rewrite IH. reflexivity.
Qed.

Section FactoryDroidSetupProperties.

Variable home : string.
Variable host : logs.
Variable dir_exists : string -> bool.
Variable environ : environ_t.
Variable super_setup : outcome unit.
Variable upload_file : string -> string -> outcome unit.
Variable write_text : string -> string -> outcome unit.

Lemma patched_config_uploads_nothing (source_file : string) :
  uploads (fst (FactoryDroidSetup.patched_config host environ write_text source_file)) = [].
Proof.
  unfold FactoryDroidSetup.patched_config.
  destruct (Fs.read host source_file); [|reflexivity].
  destruct (write_text _ _); reflexivity.
Qed.

Lemma upload_entry_uploads (filename : string) :
  map snd (uploads (fst (FactoryDroidSetup.upload_entry
                           home host environ upload_file write_text filename)))
  = if Fs.exists_ host (FactoryDroidSetup.factory_dir home ++ "/" ++ filename)
    then ["/root/.factory/" ++ filename] else [].
Proof.
  unfold FactoryDroidSetup.upload_entry.
  destruct (Fs.exists_ host _); [|reflexivity].
  destruct (String.eqb filename "config.json").
  - pose proof (patched_config_uploads_nothing
                  (FactoryDroidSetup.factory_dir home ++ "/" ++ filename)) as H.
    destruct (FactoryDroidSetup.patched_config host environ write_text _)
      as [events source_path].
    cbn [fst] in *. rewrite uploads_app, H. reflexivity.
  - reflexivity.
Qed.

Lemma upload_all_targets (filenames : list string) :
  map snd (uploads (fst (FactoryDroidSetup.upload_all
                           home host environ upload_file write_text filenames)))
  = map (fun filename => "/root/.factory/" ++ filename)
        (filter (fun filename =>
                   Fs.exists_ host (FactoryDroidSetup.factory_dir home ++ "/" ++ filename))
                filenames).
Proof.
  induction filenames as [|filename rest IH]; [reflexivity|].
  cbn [FactoryDroidSetup.upload_all filter].
  pose proof (upload_entry_uploads filename) as H.
  destruct (FactoryDroidSetup.upload_entry home host environ upload_file write_text filename)
    as [events uploaded].
  destruct (FactoryDroidSetup.upload_all home host environ upload_file write_text rest)
    as [events' count].
  cbn [fst] in *. rewrite uploads_app, map_app, H, IH.
  destruct (Fs.exists_ host _); reflexivity.
Qed.

Lemma upload_all_count (filenames : list string) :
  0 <= snd (FactoryDroidSetup.upload_all home host environ upload_file write_text filenames)
    <= Z.of_nat (List.length
                   (uploads (fst (FactoryDroidSetup.upload_all
                                    home host environ upload_file write_text filenames)))).
Proof.
  induction filenames as [|filename rest IH]; [simpl; lia|].
  cbn [FactoryDroidSetup.upload_all].
  assert (H : snd (FactoryDroidSetup.upload_entry
                     home host environ upload_file write_text filename) = true ->
              (1 <= List.length
                      (uploads (fst (FactoryDroidSetup.upload_entry
                                       home host environ upload_file write_text filename))))%nat).
  { unfold FactoryDroidSetup.upload_entry.
    destruct (Fs.exists_ host _); [|discriminate]. intros _.
    destruct (if String.eqb filename "config.json" then _ else _) as [events source_path].
    cbn [fst]. rewrite uploads_app, length_app. simpl. lia. }
  destruct (FactoryDroidSetup.upload_entry home host environ upload_file write_text filename)
    as [events uploaded].
  destruct (FactoryDroidSetup.upload_all home host environ upload_file write_text rest)
    as [events' count].
  cbn [fst snd] in *. rewrite uploads_app, length_app.
  destruct uploaded; [specialize (H eq_refl)|]; lia.
Qed.


(** X18. Only [config.json] is patched.  When it can be read and the
    patched copy can be written, the copy holds the patched text and is
    what is uploaded; when reading raises, nothing is written, and when
    writing raises, the copy is left aside: in both cases the file of the
    host is uploaded. *)
Theorem factory_droid_config_is_patched (filename : string) :
  let source_file := FactoryDroidSetup.factory_dir home ++ "/" ++ filename in
  let entry :=
    fst (FactoryDroidSetup.upload_entry home host environ upload_file write_text
                                        filename) in
  let patch := FactoryDroidSetup.patch environ in
  let tmp_path := FactoryDroidSetup.tmp_path in
  let target_path := "/root/.factory/" ++ filename in
  (Fs.exists_ host source_file = true -> filename <> "config.json" ->
   entry = [UploadFile source_file target_path])
  /\ (forall config_data done,
         filename = "config.json" ->
         host source_file = Text config_data ->
         write_text tmp_path (patch config_data) = Ok done ->
         entry = [WriteText tmp_path (patch config_data);
                  UploadFile tmp_path target_path])
  /\ (forall config_data e,
         filename = "config.json" ->
         host source_file = Text config_data ->
         write_text tmp_path (patch config_data) = Raise e ->
         entry = [WriteText tmp_path (patch config_data);
                  UploadFile source_file target_path])
  /\ (forall prefix e,
         filename = "config.json" ->
         host source_file = Broken prefix e ->
         entry = [UploadFile source_file target_path]).
Proof.
  cbv zeta. unfold FactoryDroidSetup.upload_entry.
  split; [|split; [|split]].
  - intros Hex Hne. rewrite Hex. apply String.eqb_neq in Hne. rewrite Hne. reflexivity.
  - intros config_data done Hname Hfile Hwrite. unfold Fs.exists_. rewrite Hfile.
    rewrite (proj2 (String.eqb_eq _ _) Hname).
    unfold FactoryDroidSetup.patched_config, Fs.read. rewrite Hfile, Hwrite.
    reflexivity.
  - intros config_data e Hname Hfile Hwrite. unfold Fs.exists_. rewrite Hfile.
    rewrite (proj2 (String.eqb_eq _ _) Hname).
    unfold FactoryDroidSetup.patched_config, Fs.read. rewrite Hfile, Hwrite.
    reflexivity.
  - intros prefix e Hname Hfile. unfold Fs.exists_. rewrite Hfile.
    rewrite (proj2 (String.eqb_eq _ _) Hname).
    unfold FactoryDroidSetup.patched_config, Fs.read. rewrite Hfile. reflexivity.
Qed.

End FactoryDroidSetupProperties.


Lemma factory_droid_config_is_patched_witness :
  fst (FactoryDroidSetup.upload_entry "/home/dev"
         (single_file "/home/dev/.factory/config.json" (Text "key=${OPENAI_API_KEY};"))
         (fun k => if String.eqb k "OPENAI_API_KEY" then Some "sk-1" else None)
         (fun _ _ => Ok tt) (fun _ _ => Ok tt) "config.json")
  = [WriteText "/tmp/factory_config_patched.json" "key=sk-1;";
     UploadFile "/tmp/factory_config_patched.json" "/root/.factory/config.json"].
Proof.
  destruct (factory_droid_config_is_patched "/home/dev"
              (single_file "/home/dev/.factory/config.json" (Text "key=${OPENAI_API_KEY};"))
              (fun k => if String.eqb k "OPENAI_API_KEY" then Some "sk-1" else None)
              (fun _ _ => Ok tt) (fun _ _ => Ok tt) "config.json") as (_ & H & _).
  rewrite (H "key=${OPENAI_API_KEY};" tt eq_refl eq_refl eq_refl). reflexivity.
Defined.

Lemma replace_absent (old new s : string) :
  Str.contains old s = false -> Text.replace old new s = s.
Proof.
  unfold Text.replace. induction s as [|c t IH]; [reflexivity|].
  intros H. cbn [Str.contains] in H. apply orb_false_iff in H. destruct H as [H1 H2].
  cbn [Text.replace_from]. rewrite H1, (IH H2). reflexivity.
Qed.

Lemma startswith_app (p s : string) : Str.startswith p (p ++ s) = true.
Proof.
  induction p as [|c p IH]; [reflexivity|]. simpl. rewrite Ascii.eqb_refl. exact IH.
Qed.

Lemma replace_from_skips (old new r s : string) :
  Text.replace_from old new (String.length r) (r ++ s) = Text.replace_from old new O s.
Proof.
  induction r as [|c r IH]; [reflexivity|]. exact IH.
Qed.

Lemma count_char_app (c : ascii) (a b : string) :
  count_char c (a ++ b) = (count_char c a + count_char c b)%nat.
Proof.
  induction a as [|d a IH]; [reflexivity|]. simpl. rewrite IH. lia.
Qed.

Lemma absent_char_absent_text (c : ascii) (rest s : string) :
  count_char c s = O -> Str.contains (String c rest) s = false.
Proof.
  induction s as [|d s IH]; [reflexivity|]. simpl. rewrite (Ascii.eqb_sym c d).
  destruct (Ascii.eqb d c); [discriminate|]. exact IH.
Qed.

Lemma replace_first (c : ascii) (rest new before after : string) :
  count_char c before = O ->
  Text.replace (String c rest) new (before ++ String c rest ++ after)
  = before ++ new ++ Text.replace (String c rest) new after.
Proof.
  unfold Text.replace. induction before as [|d before IH]; intros H.
  - change (EmptyString ++ String c rest ++ after) with (String c (rest ++ after)).
    cbn [Text.replace_from].
    change (String c (rest ++ after)) with (String c rest ++ after).
    rewrite startswith_app. cbn [String.length Nat.pred].
    rewrite replace_from_skips. reflexivity.
  - simpl in H. destruct (Ascii.eqb d c) eqn:E; [discriminate|].
    change ((String d before) ++ String c rest ++ after)
      with (String d (before ++ String c rest ++ after)).
    cbn [Text.replace_from Str.startswith]. rewrite (Ascii.eqb_sym c d), E.
    cbn [andb]. rewrite (IH H). reflexivity.
Qed.

(** X19. The patch of the configuration.  It leaves a text as it is when
    neither key is set to a non-empty value, and when the text holds
    neither placeholder.  When the OpenAI key is set, a text with the
    OpenAI placeholder between two parts without a dollar sign becomes the
    two parts with the key between them, for a key without a dollar
    sign. *)
Theorem config_patch_substitutes_keys (environ : environ_t) :
  (forall config_data,
      nonempty (environ "OPENAI_API_KEY") = None ->
      nonempty (environ "OLLAMA_API_KEY") = None ->
      FactoryDroidSetup.patch environ config_data = config_data)
  /\ (forall config_data,
         Str.contains "${OPENAI_API_KEY}" config_data = false ->
         Str.contains "${OLLAMA_API_KEY}" config_data = false ->
         FactoryDroidSetup.patch environ config_data = config_data)
  /\ (forall before after key,
         nonempty (environ "OPENAI_API_KEY") = Some key ->
         count_char "$" before = O ->
         count_char "$" after = O ->
         count_char "$" key = O ->
         FactoryDroidSetup.patch environ (before ++ "${OPENAI_API_KEY}" ++ after)
         = before ++ key ++ after).
Proof.
  split; [|split].
  - intros config_data H1 H2. unfold FactoryDroidSetup.patch.
    destruct (environ "OPENAI_API_KEY") as [[|c k]|]; try discriminate;
      destruct (environ "OLLAMA_API_KEY") as [[|c' k']|]; try discriminate;
      reflexivity.
  - intros config_data H1 H2. unfold FactoryDroidSetup.patch.
    destruct (environ "OPENAI_API_KEY") as [[|c k]|];
      destruct (environ "OLLAMA_API_KEY") as [[|c' k']|];
      rewrite ?(replace_absent _ _ _ H1), ?(replace_absent _ _ _ H2); reflexivity.
  - intros before after key Hkey Hb Ha Hk. unfold FactoryDroidSetup.patch.
    destruct (environ "OPENAI_API_KEY") as [[|c k]|]; try discriminate.
    cbn [nonempty] in Hkey. injection Hkey as Hkey. rewrite Hkey.
    rewrite (replace_first "$" "{OPENAI_API_KEY}" key before after Hb).
    rewrite (replace_absent _ key after)
      by (apply absent_char_absent_text; exact Ha).
    destruct (environ "OLLAMA_API_KEY") as [[|c' k']|]; try reflexivity.
    apply replace_absent. apply absent_char_absent_text.
    rewrite !count_char_app, Hb, Ha, Hk. reflexivity.
Qed.

Lemma config_patch_substitutes_keys_witness :
  FactoryDroidSetup.patch
    (fun k => if String.eqb k "OPENAI_API_KEY" then Some "sk-1"
              else if String.eqb k "OLLAMA_API_KEY" then Some "ol-2" else None)
    ("{`apiKey`: `" ++ "${OPENAI_API_KEY}" ++ "`}")
  = "{`apiKey`: `" ++ "sk-1" ++ "`}".
Proof.
  destruct (config_patch_substitutes_keys
              (fun k => if String.eqb k "OPENAI_API_KEY" then Some "sk-1"
                        else if String.eqb k "OLLAMA_API_KEY" then Some "ol-2" else None))
    as (_ & _ & H).
  apply H; reflexivity.
Defined.

(** X20. The setup of pi-mono uploads the bundle, when there is one,
    before the installation and to [/tmp/pi-bundle.tgz].  When this upload
    raises, the exception reaches the caller and the installation is not
    run; in every other case the installation is the last call and its
    outcome is that of the setup. *)
Theorem pi_mono_setup_uploads_bundle_first
        (agent_dir : string) (bundle_exists : bool)
        (upload_file : string -> string -> outcome unit) (super_setup : outcome unit) :
  let setup := PiMonoSetup.setup agent_dir bundle_exists upload_file super_setup in
  let bundle := PiMonoSetup.bundle agent_dir in
  (forall e,
      bundle_exists = true ->
      upload_file bundle "/tmp/pi-bundle.tgz" = Raise e ->
      snd setup = Raise e /\ ~ In Install (fst setup))
  /\ (bundle_exists = false \/ (exists done, upload_file bundle "/tmp/pi-bundle.tgz" = Ok done) ->
      snd setup = super_setup /\ last (fst setup) (WriteText EmptyString EmptyString) = Install)
  /\ uploads (fst setup)
     = (if bundle_exists then [(bundle, "/tmp/pi-bundle.tgz")] else [])
  /\ (bundle_exists = true -> hd_error (fst setup)
                              = Some (UploadFile bundle "/tmp/pi-bundle.tgz")).
Proof.
  cbv zeta. unfold PiMonoSetup.setup. split; [|split; [|split]].
  - intros e Hb Hup. rewrite Hb, Hup. split; [reflexivity|].
    intros [H|[]]. discriminate.
  - intros [Hb|[done Hup]].
    + rewrite Hb. split; reflexivity.
    + destruct bundle_exists; [|split; reflexivity]. rewrite Hup. split; reflexivity.
  - destruct bundle_exists; [|reflexivity].
    destruct (upload_file _ _); reflexivity.
  - intros Hb. rewrite Hb. destruct (upload_file _ _); reflexivity.
Qed.

Lemma pi_mono_setup_uploads_bundle_first_witness :
  snd (PiMonoSetup.setup "/opt/agents" true (fun _ _ => Raise OSError) (Ok tt))
  = Raise OSError
  /\ ~ In Install
        (fst (PiMonoSetup.setup "/opt/agents" true (fun _ _ => Raise OSError) (Ok tt))).
Proof.
  destruct (pi_mono_setup_uploads_bundle_first
              "/opt/agents" true (fun _ _ => Raise OSError) (Ok tt)) as (H & _).
  exact (H OSError eq_refl eq_refl).
Defined.

(** ** The key of the provider *)

Lemma first_available_lookup (environ : environ_t) (names : list string) (k v : string) :
  Py.dict_lookup k (PiMonoAgent.first_available environ names) = Some v ->
  In k names /\ nonempty (environ k) = Some v.
Proof.
  induction names as [|name rest IH]; simpl; [discriminate|].
  destruct (environ name) as [[|c value]|] eqn:E;
    try (intros H; destruct (IH H); split; [right|]; assumption).
  simpl. destruct (String.eqb name k) eqn:Ek; [|discriminate].
  apply String.eqb_eq in Ek. subst k. intros H. injection H as <-.
  split; [left; reflexivity|]. rewrite E. reflexivity.
Qed.

Lemma fold_common_origin (environ : environ_t) (keys : list string)
      (env_vars : list (string * string)) (k v : string) :
  Py.dict_lookup k (fold_left (PiMonoAgent.pass_common environ) keys env_vars) = Some v ->
  Py.dict_lookup k env_vars = Some v \/ In k keys.
Proof.
  revert env_vars. induction keys as [|key keys IH]; intros env_vars H; simpl in *.
  - left. exact H.
  - destruct (IH _ H) as [H1|H1]; [|right; right; exact H1].
    unfold PiMonoAgent.pass_common in H1.
    destruct (negb (Py.dict_mem key env_vars)); [|left; exact H1].
    destruct (environ key); [|left; exact H1].
    rewrite dict_lookup_set in H1. destruct (String.eqb key k) eqn:E.
    + right. left. apply String.eqb_eq. exact E.
    + left. exact H1.
Qed.

Lemma fold_through_origin (environ : environ_t) (keys : list string)
      (env_vars : list (string * string)) (k v : string) :
  Py.dict_lookup k (fold_left (PiMonoAgent.pass_through environ) keys env_vars) = Some v ->
  Py.dict_lookup k env_vars = Some v \/ In k keys.
Proof.
  revert env_vars. induction keys as [|key keys IH]; intros env_vars H; simpl in *.
  - left. exact H.
  - destruct (IH _ H) as [H1|H1]; [|right; right; exact H1].
    unfold PiMonoAgent.pass_through in H1.
    destruct (environ key); [|left; exact H1].
    rewrite dict_lookup_set in H1. destruct (String.eqb key k) eqn:E.
    + right. left. apply String.eqb_eq. exact E.
    + left. exact H1.
Qed.

(** X21. A variable that pi-mono forwards is one of the nine pass-through
    variables, or a key of the provider of the agent with a non-empty
    value.  Of the keys of a provider at most the first with a non-empty
    value is taken: for the provider anthropic the OAuth token is
    forwarded exactly when it is non-empty and the API key is unset or
    empty. *)
Theorem pi_mono_forwards_first_provider_key (self : PiMonoAgent.t) (environ : environ_t) :
  (forall k v,
      Py.dict_lookup k (PiMonoAgent.build_env self environ) = Some v ->
      In k pi_pass_through_keys
      \/ exists names,
          Py.dict_lookup (PiMonoAgent.provider self) PiMonoAgent.api_key_mapping
          = Some names
          /\ In k names /\ nonempty (environ k) = Some v)
  /\ (PiMonoAgent.provider self = "anthropic" ->
      Py.dict_lookup "ANTHROPIC_OAUTH_TOKEN" (PiMonoAgent.build_env self environ)
      = match nonempty (environ "ANTHROPIC_API_KEY") with
        | Some _ => None
        | None => nonempty (environ "ANTHROPIC_OAUTH_TOKEN")
        end).
Proof.
  split.
  - intros k v H. unfold PiMonoAgent.build_env in H.
    apply fold_through_origin in H. destruct H as [H|H].
    + apply fold_common_origin in H. destruct H as [H|H].
      * right.
        destruct (Py.dict_lookup (PiMonoAgent.provider self) PiMonoAgent.api_key_mapping)
          as [names|]; [|discriminate].
        exists names. split; [reflexivity|]. apply first_available_lookup. exact H.
      * left. unfold pi_pass_through_keys. simpl in *. tauto.
    + left. unfold pi_pass_through_keys. simpl in *. tauto.
  - intros Hp.
    destruct (Py.dict_lookup "ANTHROPIC_OAUTH_TOKEN" (PiMonoAgent.build_env self environ))
      as [v|] eqn:E.
    + unfold PiMonoAgent.build_env in E. rewrite Hp in E.
      apply fold_through_origin in E. destruct E as [E|E].
      * apply fold_common_origin in E. destruct E as [E|E].
        -- change (Py.dict_lookup "anthropic" PiMonoAgent.api_key_mapping)
             with (Some ["ANTHROPIC_API_KEY"; "ANTHROPIC_OAUTH_TOKEN"]) in E.
           cbn [PiMonoAgent.first_available] in E.
           destruct (environ "ANTHROPIC_API_KEY") as [[|c a]|]; cbn [nonempty];
             try (destruct (environ "ANTHROPIC_OAUTH_TOKEN") as [[|c' t]|];
                  cbn [nonempty]; try discriminate;
                  vm_compute in E; symmetry; exact E).
        -- exfalso. simpl in E.
           repeat (destruct E as [E|E]; [discriminate|]). exact E.
      * exfalso. simpl in E.
        repeat (destruct E as [E|E]; [discriminate|]). exact E.
    + destruct (nonempty (environ "ANTHROPIC_API_KEY")) as [a|] eqn:Ha; [reflexivity|].
      destruct (nonempty (environ "ANTHROPIC_OAUTH_TOKEN")) as [t|] eqn:Ht; [|reflexivity].
      exfalso.
      assert (Hfirst : Py.dict_lookup "ANTHROPIC_OAUTH_TOKEN"
                         (PiMonoAgent.first_available environ
                            ["ANTHROPIC_API_KEY"; "ANTHROPIC_OAUTH_TOKEN"]) = Some t).
      { cbn [PiMonoAgent.first_available].
        destruct (environ "ANTHROPIC_API_KEY") as [[|c a]|]; try discriminate;
          destruct (environ "ANTHROPIC_OAUTH_TOKEN") as [[|c' t']|]; try discriminate;
          cbn [nonempty] in Ht; injection Ht as <-; reflexivity. }
      assert (Htoken : environ "ANTHROPIC_OAUTH_TOKEN" = Some t).
      { destruct (environ "ANTHROPIC_OAUTH_TOKEN") as [[|c' t']|]; try discriminate.
        exact Ht. }
      unfold PiMonoAgent.build_env in E. rewrite Hp in E.
      change (Py.dict_lookup "anthropic" PiMonoAgent.api_key_mapping)
        with (Some ["ANTHROPIC_API_KEY"; "ANTHROPIC_OAUTH_TOKEN"]) in E.
      rewrite (fold_through_keeps environ _ _ "ANTHROPIC_OAUTH_TOKEN" t Htoken) in E;
        [discriminate|].
      left. apply fold_common_keeps; [apply first_available_sound|exact Htoken|].
      left. exact Hfirst.
Qed.

Lemma pi_mono_forwards_first_provider_key_witness :
  Py.dict_lookup "ANTHROPIC_OAUTH_TOKEN"
    (PiMonoAgent.build_env
       (PiMonoAgent.mkAgent "anthropic" (Some "claude-3-opus-latest") "json" false 1800)
       (fun k => if String.eqb k "ANTHROPIC_API_KEY" then Some "sk-ant"
                 else if String.eqb k "ANTHROPIC_OAUTH_TOKEN" then Some "oauth-1"
                      else None))
  = None.
Proof.
  destruct (pi_mono_forwards_first_provider_key
              (PiMonoAgent.mkAgent "anthropic" (Some "claude-3-opus-latest") "json" false 1800)
              (fun k => if String.eqb k "ANTHROPIC_API_KEY" then Some "sk-ant"
                        else if String.eqb k "ANTHROPIC_OAUTH_TOKEN" then Some "oauth-1"
                             else None)) as (_ & H).
  rewrite (H eq_refl). reflexivity.
Defined.
